(** * uno2iec: the host transport and the MCU line driver

    A shallow embedding of

    - [commandline/iec_host_lib.cc] and [iec_host_lib.h]: the host side of
      the serial link to the Arduino (the connection handshake, the
      background reader [ProcessResponses], the channel API), and
    - [uno2iec/iec_driver.h]: the inline pin accessors of the IEC line
      driver,

    followed by the properties of the specification that concern them.

    Conventions.  A C++ [char] is an [ascii], a [std::string] a [string].
    A [bool] function with an [IECStatus *status] out-parameter takes the
    caller's status and returns the new one next to the result.  A wait on a
    future whose promise is given no value ([std::future::get] does not
    return one) is [None].  What the sources take from files that are not at hand
    ([utils.h], [iec_driver.cpp]) or from libraries (Boost.Format, libc, the
    Arduino core) is either a variable of the section or a model that says
    where it comes from. *)

From Stdlib Require Import ZArith Lia List Ascii String DecimalString.
From stdpp Require Import base option gmap strings.
From Equations Require Import Equations.
Import ListNotations.

Local Open Scope string_scope.
Local Open Scope nat_scope.

(** ** Strings *)

Module Str.

(** [s.substr(pos, n)] for [pos <= s.size()], the only way the sources call
    it: at most [n] characters, fewer when the string ends first. *)
Definition substr (s : string) (pos n : nat) : string := String.substring pos n s.

(** [s.substr(pos)]: everything from [pos] on. *)
Definition substr_from (s : string) (pos : nat) : string :=
  String.substring pos (String.length s - pos) s.

(** [s[i]] for [i < s.size()]; the NUL character past the end, as
    [operator[]] gives at [i = s.size()]. *)
Definition at_ (s : string) (i : nat) : ascii :=
  match String.get i s with
  | Some c => c
  | None => Ascii.zero
  end.

(** [static_cast<char>(n)] for a [size_t]: the low eight bits. *)
Definition char_of_size (n : nat) : ascii := ascii_of_nat (n mod 256).

(** [a.substr(0, p.size()) == p], guarded by [a.size() >= p.size()]. *)
Definition starts_with (p a : string) : bool :=
  (String.length p <=? String.length a)
  && bool_decide (substr a 0 (String.length p) = p).

Definition concat (l : list string) : string := fold_right String.append "" l.

End Str.

(** ** [IECStatus] (utils.h) *)

(** Modelled from the spec: [IECStatus] and [SetError] are declared in
    [utils.h], which is not among the sources.  The specification lists the
    error kinds (section 7); a default-constructed status is the success
    status, which is what [ProcessResponses] relies on when it passes a
    fresh [IECStatus] for an empty status line. *)
Inductive IECStatusCode : Set :=
| OK
| CONNECTION_FAILURE
| IEC_CONNECTION_FAILURE
| INVALID_ARGUMENT
| END_OF_FILE.

Record IECStatus : Set := mkStatus {
  status_code : IECStatusCode;
  message : string
}.

#[global] Instance IECStatusCode_eq_dec : EqDecision IECStatusCode.
Proof. solve_decision. Defined.

#[global] Instance IECStatus_eq_dec : EqDecision IECStatus.
Proof. solve_decision. Defined.

(** [IECStatus()] *)
Definition IECStatus_default : IECStatus := mkStatus OK "".

(** [status.ok()] *)
Definition ok (st : IECStatus) : bool := bool_decide (status_code st = OK).

(** Modelled from the spec: [SetError(code, message, status)] stores the kind
    and the message as given ("surfaced verbatim", section 7). *)
Definition SetError (code : IECStatusCode) (msg : string) (_ : IECStatus) : IECStatus :=
  mkStatus code msg.

(** ** Constants of iec_host_lib.cc *)

Definition kMaxLength : nat := 512 + 1.
Definition kMaxSendPacketSize : nat := 256.
Definition kConnectionStringPrefix : string := "connect_arduino:".
Definition kMinProtocolVersion : Z := 3.
Definition kNumRetries : nat := 5.

Definition kDeviceNumber : nat := 0.
Definition kDataPin : nat := 3.
Definition kClockPin : nat := 4.
Definition kAtnPin : nat := 5.
Definition kSrqInPin : nat := 6.
Definition kResetPin : nat := 7.

Definition kCmdReset : string := "r".
Definition kCmdOpen : string := "o".
Definition kCmdClose : string := "c".
Definition kCmdGetData : string := "g".
Definition kCmdPutData : string := "p".

Definition CR : ascii := "013"%char.
Definition LF : ascii := "010"%char.

(** ** The environment of the connection *)

(** What a read on the buffered reader hands back: the string read, or
    [false] with the status it set. *)
Inductive io_result : Set :=
| IoOk (s : string)
| IoErr (st : IECStatus).

(** One invocation of the log callback: level, channel name, message. *)
Record log_entry : Set := mkLog {
  log_level : ascii;
  log_channel : string;
  log_message : string
}.

(** What one iteration of the loop of [ProcessResponses] meets.  The reads
    go through [BufferedReadWriter] (utils.h, not among the sources) and
    race with the peer, so the model takes their outcome per iteration:
    - [EvTerminate]: [select] reports the wake-up pipe readable ([select]
      itself is taken to succeed, as the code asserts);
    - [EvReadFail st]: [ReadUpTo(1, 1, ...)] returned [false] with [st];
    - [EvFrame tag line]: [ReadUpTo] delivered the discriminator [tag], and
      [line] is what [ReadTerminatedString('\r', kMaxLength, ...)] returns
      in the cases that call it. *)
Inductive rd_event : Set :=
| EvTerminate
| EvReadFail (st : IECStatus)
| EvFrame (tag : ascii) (line : io_result).

(** The shared state of [std::promise<std::pair<std::string, IECStatus>>]. *)
Inductive promise : Set :=
| Pending
| Resolved (r : string * IECStatus).

(** The background thread: not yet started, inside the loop, returned from
    [ProcessResponses], or brought down by the exception [set_value] throws
    on a promise that already holds a value. *)
Inductive thread_state : Set :=
| NotStarted
| Running
| Exited
| Aborted.

#[global] Instance thread_state_eq_dec : EqDecision thread_state.
Proof. solve_decision. Defined.

(** The members of [IECBusConnection] the modelled functions touch, with the
    local [last_response] of [ProcessResponses], the strings handed to
    [WriteString] so far ([tx], oldest first) and the log callback's
    invocations ([logged], oldest first). *)
Record IECBusConnection : Type := mkConn {
  tx : list string;
  response_promise_ : promise;
  debug_channel_map_ : gmap ascii string;
  last_response : string;
  response_thread_ : thread_state;
  logged : list log_entry
}.

Definition set_promise (p : promise) (c : IECBusConnection) : IECBusConnection :=
  mkConn (tx c) p (debug_channel_map_ c) (last_response c) (response_thread_ c) (logged c).

Definition set_last_response (s : string) (c : IECBusConnection) : IECBusConnection :=
  mkConn (tx c) (response_promise_ c) (debug_channel_map_ c) s (response_thread_ c) (logged c).

Definition set_thread (t : thread_state) (c : IECBusConnection) : IECBusConnection :=
  mkConn (tx c) (response_promise_ c) (debug_channel_map_ c) (last_response c) t (logged c).

Definition set_debug_channel (id : ascii) (name : string) (c : IECBusConnection) : IECBusConnection :=
  mkConn (tx c) (response_promise_ c) (<[id := name]> (debug_channel_map_ c))
         (last_response c) (response_thread_ c) (logged c).

Definition push_tx (s : string) (c : IECBusConnection) : IECBusConnection :=
  mkConn (tx c ++ [s]) (response_promise_ c) (debug_channel_map_ c) (last_response c)
         (response_thread_ c) (logged c).

(** [log_callback_(level, channel, message)] *)
Definition log_callback_ (level : ascii) (channel msg : string) (c : IECBusConnection)
  : IECBusConnection :=
  mkConn (tx c) (response_promise_ c) (debug_channel_map_ c) (last_response c)
         (response_thread_ c) (logged c ++ [mkLog level channel msg]).

(** The connection as the constructor leaves it. *)
Definition new_connection : IECBusConnection :=
  mkConn [] Pending ∅ "" NotStarted [].

(** A connection whose reader has entered its loop. *)
Definition ready_connection : IECBusConnection :=
  mkConn [] Pending ∅ "" Running [].

(** ** What Initialize takes from libc *)

(** [sscanf(str, "%i", &v)], as ISO C describes it: white space is skipped,
    then an optional sign, then a numeral whose base its prefix selects
    ([0x]/[0X] sixteen, [0] eight, otherwise ten) and which extends as far as
    its digits go.  [None] stands for a return value [<= 0] (input exhausted
    or no numeral), [Some n] for a return value of [1] with the numeral's
    value [n].  A [0x] that no hexadecimal digit follows reads as the
    numeral [0].  The string is a [c_str()]: the scan ends at a NUL, which is
    neither white space nor a digit. *)
Module Scanf.

Definition isspace (c : ascii) : bool :=
  let n := nat_of_ascii c in
  (n =? 32) || ((9 <=? n) && (n <=? 13)).

Fixpoint skip_space (s : string) : string :=
  match s with
  | String c rest => if isspace c then skip_space rest else s
  | EmptyString => s
  end.

(** The value of [c] as a digit in [base], if it is one. *)
Definition digit (base : Z) (c : ascii) : option Z :=
  let n := Z.of_nat (nat_of_ascii c) in
  let d :=
    if (48 <=? n)%Z && (n <=? 57)%Z then Some (n - 48)%Z
    else if (97 <=? n)%Z && (n <=? 102)%Z then Some (n - 87)%Z
    else if (65 <=? n)%Z && (n <=? 70)%Z then Some (n - 55)%Z
    else None in
  match d with
  | Some v => if (v <? base)%Z then Some v else None
  | None => None
  end.

(** The longest run of digits of [base] at the head of [s], read onto
    [acc]; [None] when there is no digit at all. *)
Fixpoint digits (base : Z) (seen : bool) (acc : Z) (s : string) : option Z :=
  match s with
  | String c rest =>
      match digit base c with
      | Some d => digits base true (acc * base + d)%Z rest
      | None => if seen then Some acc else None
      end
  | EmptyString => if seen then Some acc else None
  end.

Definition unsigned_numeral (s : string) : option Z :=
  match s with
  | String "0" (String x (String h rest)) =>
      if (bool_decide (x = "x"%char) || bool_decide (x = "X"%char))
         && bool_decide (is_Some (digit 16 h))
      then digits 16 false 0 (String h rest)
      else digits 8 false 0 s
  | String "0" _ => digits 8 false 0 s
  | _ => digits 10 false 0 s
  end.

Definition sscanf_i (str : string) : option Z :=
  match skip_space str with
  | String "-" rest => Z.opp <$> unsigned_numeral rest
  | String "+" rest => unsigned_numeral rest
  | s => unsigned_numeral s
  end.

(** The numeral as the [long] it is read into: glibc saturates at
    [LONG_MIN] and [LONG_MAX] (64 bits). *)
Definition to_long (n : Z) : Z := Z.max (- 2 ^ 63) (Z.min (2 ^ 63 - 1) n).

(** The numeral as the [int] it is stored into.  ISO C defines the result
    only for a numeral an [int] holds; beyond that the model does what glibc
    does: the [int] keeps the low 32 bits, in two's complement, of the
    [long]. *)
Definition to_int (n : Z) : Z := ((to_long n + 2 ^ 31) mod 2 ^ 32 - 2 ^ 31)%Z.

End Scanf.

(** [struct tm] as [localtime_r] fills it in, the fields [Initialize] uses. *)
Record tm : Set := mkTm {
  tm_year : nat;
  tm_mon : nat;
  tm_mday : nat;
  tm_hour : nat;
  tm_min : nat;
  tm_sec : nat
}.

(** [%u] of an integer that is not negative. *)
Definition format_u (n : nat) : string := NilEmpty.string_of_uint (Nat.to_uint n).

(** ** The line driver of the MCU (iec_driver.h) *)

Module LineDriver.

(** The Arduino core ([Arduino.h]), which is not among the sources, as it
    is for the AVR of the Uno: every pin has a direction and an output latch.
    [pinMode] to [INPUT] clears the direction and the latch (no pull-up), to
    [OUTPUT] it sets the direction and keeps the latch; [digitalWrite] sets
    the latch, which on an input switches the pull-up.  [digitalRead] senses
    the level on the pin: the latch when the pin drives the line, otherwise
    the level [wire] the bus puts on it. *)
Inductive pin_mode : Set := INPUT | OUTPUT.
Inductive level : Set := LOW | HIGH.

#[global] Instance pin_mode_eq_dec : EqDecision pin_mode.
Proof. solve_decision. Defined.

#[global] Instance level_eq_dec : EqDecision level.
Proof. solve_decision. Defined.

Record pin : Set := mkPin {
  mode : pin_mode;
  latch : level
}.

(** A pin nobody configured is an input with a cleared latch. *)
Definition power_on : pin := mkPin INPUT LOW.

Definition get_pin (pinNumber : N) (b : gmap N pin) : pin :=
  default power_on (b !! pinNumber).

Definition pinMode (pinNumber : N) (m : pin_mode) (b : gmap N pin) : gmap N pin :=
  <[pinNumber := match m with
                 | INPUT => mkPin INPUT LOW
                 | OUTPUT => mkPin OUTPUT (latch (get_pin pinNumber b))
                 end]> b.

Definition digitalWrite (pinNumber : N) (v : level) (b : gmap N pin) : gmap N pin :=
  <[pinNumber := mkPin (mode (get_pin pinNumber b)) v]> b.

Definition digitalRead (wire : N -> level) (pinNumber : N) (b : gmap N pin) : level :=
  match mode (get_pin pinNumber b) with
  | OUTPUT => latch (get_pin pinNumber b)
  | INPUT => wire pinNumber
  end.

(** The pin members of [class IEC]. *)
Record IEC : Set := mkIEC {
  m_state : N;
  m_deviceNumber : N;
  m_atnPin : N;
  m_dataPin : N;
  m_clockPin : N;
  m_srqInPin : N;
  m_resetPin : N
}.

(** [readPIN]: false = LOW, true = HIGH. *)
Definition readPIN (wire : N -> level) (pinNumber : N) (b : gmap N pin)
  : bool * gmap N pin :=
  let b := pinMode pinNumber INPUT b in
  (if decide (digitalRead wire pinNumber b = HIGH) then true else false, b).

Definition readATN (iec : IEC) (wire : N -> level) (b : gmap N pin) : bool * gmap N pin :=
  readPIN wire (m_atnPin iec) b.

Definition readDATA (iec : IEC) (wire : N -> level) (b : gmap N pin) : bool * gmap N pin :=
  readPIN wire (m_dataPin iec) b.

Definition readCLOCK (iec : IEC) (wire : N -> level) (b : gmap N pin) : bool * gmap N pin :=
  readPIN wire (m_clockPin iec) b.

Definition readRESET (iec : IEC) (wire : N -> level) (b : gmap N pin) : bool * gmap N pin :=
  let '(v, b) := readPIN wire (m_resetPin iec) b in
  (negb v, b).

(** [writePIN]: true = pull, false = release. *)
Definition writePIN (pinNumber : N) (state : bool) (b : gmap N pin) : gmap N pin :=
  let b := pinMode pinNumber (if state then OUTPUT else INPUT) b in
  digitalWrite pinNumber (if state then LOW else HIGH) b.

Definition writeATN (iec : IEC) (state : bool) (b : gmap N pin) : gmap N pin :=
  writePIN (m_atnPin iec) state b.

Definition writeDATA (iec : IEC) (state : bool) (b : gmap N pin) : gmap N pin :=
  writePIN (m_dataPin iec) state b.

Definition writeCLOCK (iec : IEC) (state : bool) (b : gmap N pin) : gmap N pin :=
  writePIN (m_clockPin iec) state b.

Definition writeRESET (iec : IEC) (state : bool) (b : gmap N pin) : gmap N pin :=
  writePIN (m_resetPin iec) state b.

(** Modelled from the spec: [IEC::checkRESET] is declared in the header and
    defined in [iec_driver.cpp], which is not among the sources; by the
    specification it "returns true iff the RESET line is sensed pulled",
    which is what [readRESET] senses. *)
Definition checkRESET (iec : IEC) (wire : N -> level) (b : gmap N pin) : bool * gmap N pin :=
  readRESET iec wire b.

End LineDriver.

(** ** The serial line (iec_host_lib.cc, ConfigureSerial) *)

Module Serial.

(** The flag constants of [<termios.h>] that [ConfigureSerial] names; their
    values are the platform's. *)
Record termios_flags : Set := mkFlags {
  CLOCAL : Z; CREAD : Z; CSIZE : Z; CS8 : Z; PARENB : Z; CSTOPB : Z; CRTSCTS : Z;
  IGNBRK : Z; BRKINT : Z; PARMRK : Z; ISTRIP : Z; INLCR : Z; IGNCR : Z; ICRNL : Z;
  IXON : Z;
  ECHO : Z; ECHONL : Z; ICANON : Z; ISIG : Z; IEXTEN : Z;
  OPOST : Z
}.

(** [struct termios], the members [ConfigureSerial] touches.  The speeds are
    what [cfsetospeed] and [cfsetispeed] store; the constant [B<n>] stands as
    the rate [n]. *)
Record termios : Set := mkTermios {
  c_iflag : Z;
  c_oflag : Z;
  c_cflag : Z;
  c_lflag : Z;
  c_cc_VMIN : Z;
  c_cc_VTIME : Z;
  c_ospeed : Z;
  c_ispeed : Z
}.

(** What the calls into libc do: whether each one succeeds, and the text
    errno gives for a context. *)
Record serial_env : Set := mkEnv {
  tcgetattr_ok : bool;
  cfsetospeed_ok : bool;
  cfsetispeed_ok : bool;
  tcsetattr_ok : bool;
  errno_text : string -> string
}.

(** Modelled from the spec: [SetErrorFromErrno] is declared in [utils.h],
    which is not among the sources; it stores the kind and a message made
    from the context and errno ("tty I/O" is a [CONNECTION_FAILURE]). *)
Definition SetErrorFromErrno (text : string -> string) (code : IECStatusCode)
    (context : string) (_ : IECStatus) : IECStatus :=
  mkStatus code (text context).

(** The rates of the [SPEED_MAP] cases. *)
Definition speeds : list Z :=
  [0; 50; 75; 110; 134; 150; 200; 300; 600; 1200; 2400; 4800; 9600; 19200; 38400;
   57600; 115200; 230400]%Z.

(** The [switch (speed)]: the constant for the rate, [None] in the
    [default] case. *)
Definition speed_constant (speed : Z) : option Z :=
  if bool_decide (In speed speeds) then Some speed else None.

(** [%u] of an [int], as Boost renders it. *)
Definition format_int (n : Z) : string :=
  if (n <? 0)%Z then "-" ++ format_u (Z.to_nat (- n)) else format_u (Z.to_nat n).

(** [flags |= m] and [flags &= ~m] *)
Definition set_bits (flags m : Z) : Z := Z.lor flags m.
Definition clear_bits (flags m : Z) : Z := Z.land flags (Z.lnot m).

(** The settings [ConfigureSerial] hands to [tcsetattr], from those
    [tcgetattr] gave it.  The rate is kept in [c_ospeed] and [c_ispeed];
    where libc also keeps it in bits of [c_cflag] (glibc's [CBAUD]), those
    bits are not followed: [c_cflag] is what the code leaves outside them. *)
Definition raw_settings (K : termios_flags) (speed_constant : Z) (tty : termios) : termios :=
  let cflag := set_bits (c_cflag tty) (Z.lor (CLOCAL K) (CREAD K)) in
  let cflag := clear_bits cflag (CSIZE K) in
  let cflag := set_bits cflag (CS8 K) in
  let cflag := clear_bits cflag (PARENB K) in
  let cflag := clear_bits cflag (CSTOPB K) in
  let cflag := clear_bits cflag (CRTSCTS K) in
  let iflag :=
    clear_bits (c_iflag tty)
      (Z.lor (Z.lor (Z.lor (Z.lor (Z.lor (Z.lor (Z.lor
         (IGNBRK K) (BRKINT K)) (PARMRK K)) (ISTRIP K)) (INLCR K)) (IGNCR K))
         (ICRNL K)) (IXON K)) in
  let lflag :=
    clear_bits (c_lflag tty)
      (Z.lor (Z.lor (Z.lor (Z.lor (ECHO K) (ECHONL K)) (ICANON K)) (ISIG K)) (IEXTEN K)) in
  let oflag := clear_bits (c_oflag tty) (OPOST K) in
  mkTermios iflag oflag cflag lflag 1 1 speed_constant speed_constant.

(** [ConfigureSerial(fd, speed, status)]; [dev] is what the descriptor is set
    to, which [tcgetattr] reads and [tcsetattr] replaces: a [tcsetattr] that
    succeeds is taken to install all of the settings it is handed, one that
    fails to install none. *)
Definition ConfigureSerial (env : serial_env) (K : termios_flags) (speed : Z)
    (status : IECStatus) (dev : termios) : bool * IECStatus * termios :=
  if negb (tcgetattr_ok env) then
    (false, SetErrorFromErrno (errno_text env) CONNECTION_FAILURE "tcgetattr" status, dev)
  else
    match speed_constant speed with
    | None =>
        (false,
         SetError CONNECTION_FAILURE
           ("Unknown speed setting: #" ++ format_int speed ++ " baud") status, dev)
    | Some speed_constant =>
        if negb (cfsetospeed_ok env) then
          (false, SetErrorFromErrno (errno_text env) CONNECTION_FAILURE "cfsetospeed" status, dev)
        else if negb (cfsetispeed_ok env) then
          (false, SetErrorFromErrno (errno_text env) CONNECTION_FAILURE "cfsetispeed" status, dev)
        else if negb (tcsetattr_ok env) then
          (false, SetErrorFromErrno (errno_text env) CONNECTION_FAILURE "tcsetattr" status, dev)
        else (true, status, raw_settings K speed_constant dev)
    end.

End Serial.

(** ** The hex dump of the copy utility (disccopy.cc) *)

Module DiscCopy.

(** One digit of [%x]. *)
Definition hex_digit (d : nat) : ascii :=
  Str.at_ "0123456789abcdef" d.

(** [(boost::format("%02x") % n).str()] for the value [n] of an
    [unsigned char]: two digits, the high one first. *)
Definition format_02x (n : nat) : string :=
  String (hex_digit (n / 16)) (String (hex_digit (n mod 16)) "").

Fixpoint BytesToHex (input : string) : string :=
  match input with
  | EmptyString => ""
  | String c rest => format_02x (nat_of_ascii c) ++ BytesToHex rest
  end.

(** The value of a hexadecimal digit, and the bytes of a dump: what reads a
    dump back. *)
Definition hex_value (ch : ascii) : nat :=
  let n := nat_of_ascii ch in
  if n <? 58 then n - 48 else n - 87.

Fixpoint HexToBytes (dump : string) : string :=
  match dump with
  | String hi (String lo rest) =>
      String (ascii_of_nat (16 * hex_value hi + hex_value lo)) (HexToBytes rest)
  | _ => ""
  end.

End DiscCopy.

(** ** Saving a file on the MCU (uno2iec/interface.cpp) *)

Module Interface.

(** [enum IECState] of iec_driver.h. *)
Definition noFlags : N := 0.
Definition eoiFlag : N := N.shiftl 1 0.
Definition atnFlag : N := N.shiftl 1 1.
Definition errorFlag : N := N.shiftl 1 2.

(** [Interface::saveFile].  [bus] holds what the engine delivers: the byte
    each [m_iec.receive()] returns and the flags [m_iec.state()] shows after
    it; [serial] is what has been written to the host so far.  The loop needs
    a byte for every pass: [None] when the bus has no more to give. *)
Fixpoint saveFile (bus : list (ascii * N)) (serial : string)
  : option (string * list (ascii * N)) :=
  match bus with
  | [] => None
  | (c, state) :: bus' =>
      let serial := serial ++ String "W" (String c "") in
      if negb (negb (N.land state eoiFlag =? 0)%N)
         && negb (negb (N.land state errorFlag =? 0)%N)
      then saveFile bus' serial
      else Some (serial, bus')
  end.

(** What the host is sent for the receptions [l]: [W] and the byte, for
    each. *)
Fixpoint forwarded (l : list (ascii * N)) : string :=
  match l with
  | [] => ""
  | (c, _) :: l' => String "W" (String c (forwarded l'))
  end.

(** A reception that shows neither end of data nor an error. *)
Definition unflagged (r : ascii * N) : Prop :=
  N.land r.2 eoiFlag = 0%N /\ N.land r.2 errorFlag = 0%N.

End Interface.

(** ** A tty that holds the bytes still to come *)

Module Wire.

(** Modelled from the spec: [BufferedReadWriter::ReadTerminatedString] is
    defined in [utils.cc], which is not among the sources.  By the
    specification the host "reads lines terminated by [\r] up to 513 bytes":
    the terminator is looked for among the first [max_length] bytes; the
    line before it is the result and the terminator is consumed; without a
    terminator there the read fails with a [CONNECTION_FAILURE] ("tty I/O"). *)
Fixpoint take_line (term : ascii) (max_length : nat) (rx : string)
  : option (string * string) :=
  match max_length, rx with
  | S n, String ch rest =>
      if decide (ch = term) then Some ("", rest)
      else match take_line term n rest with
           | Some (l, r) => Some (String ch l, r)
           | None => None
           end
  | _, _ => None
  end.

Definition read_failure : IECStatus := mkStatus CONNECTION_FAILURE "ReadTerminatedString".

Definition ReadTerminatedString (term : ascii) (max_length : nat) (rx : string)
  : io_result * string :=
  match take_line term max_length rx with
  | Some (l, r) => (IoOk l, r)
  | None => (IoErr read_failure, rx)
  end.

(** A link whose payloads hold nothing to unescape, and plain renderings,
    to run the model on. *)
Definition UnescapeString (s : string) : io_result := IoOk s.
Definition format_hash_u (c : ascii) : string := String "#" (String c "").
Definition format_unknown_type (n : Z) : string := "Unknown response msg type".

(** [n] times the character [ch]. *)
Fixpoint fill (n : nat) (ch : ascii) : string :=
  match n with
  | 0 => ""
  | S n' => String ch (fill n' ch)
  end.

End Wire.

Section Host.

(** *** What the sources take from elsewhere *)

(** [UnescapeString(in, &out, &status)] of utils.h: the unescaped string, or
    [false] with a status.  The specification leaves the scheme open. *)
Variable UnescapeString : string -> io_result.

(** Whether plain [char] is signed on the platform. *)
Variable char_is_signed : bool.

(** [(boost::format("#%u") % c).str()] for a [char c], and
    [(boost::format("Unknown response msg type %#x") % n).str()] for an
    [int n]: the renderings are Boost's. *)
Variable format_hash_u : ascii -> string.
Variable format_unknown_type : Z -> string.

(** The value of a [char] as an [int]. *)
Definition char_to_int (c : ascii) : Z :=
  let n := Z.of_nat (nat_of_ascii c) in
  if char_is_signed && (128 <=? n)%Z then (n - 256)%Z else n.

Fixpoint GetPrintableString (str : string) : string :=
  match str with
  | EmptyString => ""
  | String c rest =>
      (if decide (c = CR) then "\r"
       else if decide (c = LF) then "\n"
       else if (char_to_int c <? 32)%Z then format_hash_u c
       else String c "")
      ++ GetPrintableString rest
  end.

(** *** The correlation engine *)

(** [RequestResult]: a fresh promise replaces the current one; the caller
    keeps its future. *)
Definition RequestResult (c : IECBusConnection) : IECBusConnection :=
  set_promise Pending c.

(** [log_callback_('E', "CLIENT", msg); return;] *)
Definition log_and_return (msg : string) (c : IECBusConnection) : IECBusConnection :=
  set_thread Exited (log_callback_ "E" "CLIENT" msg c).

(** [response_promise_.set_value(v)]: stores the value in a promise that has
    none; on one that has, throws [std::future_error] ([None]). *)
Definition set_value (v : string * IECStatus) (c : IECBusConnection)
  : option IECBusConnection :=
  match response_promise_ c with
  | Pending => Some (set_promise (Resolved v) c)
  | Resolved _ => None
  end.

(** The body of the [while (true)] loop of [ProcessResponses], for a thread
    that is inside the loop.  Nothing in the thread catches the exception of
    [set_value]: it ends the thread, and the process with it. *)
Definition ProcessResponses_step (ev : rd_event) (c : IECBusConnection) : IECBusConnection :=
  match ev with
  | EvTerminate => set_thread Exited c
  | EvReadFail status => log_and_return (message status) c
  | EvFrame tag line =>
      if decide (tag = "!"%char) then
        match line with
        | IoErr status => log_and_return (message status) c
        | IoOk read_string =>
            if String.length read_string <? 2 then
              log_and_return
                ("Malformed channel configuration string '" ++ read_string ++ "'") c
            else
              set_debug_channel (Str.at_ read_string 0) (Str.substr_from read_string 1) c
        end
      else if decide (tag = "D"%char) then
        match line with
        | IoErr status => log_and_return (message status) c
        | IoOk read_string =>
            if (String.length read_string <? 3)
               || bool_decide (debug_channel_map_ c !! Str.at_ read_string 1 = None) then
              log_and_return
                ("Malformed debug message '" ++ GetPrintableString read_string ++ "'") c
            else
              log_callback_ (Str.at_ read_string 0)
                (default "" (debug_channel_map_ c !! Str.at_ read_string 1))
                (Str.substr_from read_string 2) c
        end
      else if decide (tag = "r"%char) then
        match line with
        | IoErr status => log_and_return (message status) c
        | IoOk read_string =>
            match UnescapeString read_string with
            | IoErr status => log_and_return (message status) c
            | IoOk unescaped_response => set_last_response unescaped_response c
            end
        end
      else if decide (tag = "s"%char) then
        match line with
        | IoErr status => log_and_return (message status) c
        | IoOk read_string =>
            let iecStatus :=
              if negb (bool_decide (read_string = "")) then
                SetError IEC_CONNECTION_FAILURE read_string IECStatus_default
              else IECStatus_default in
            match set_value (last_response c, iecStatus) c with
            | Some c' => set_last_response "" c'
            | None => set_thread Aborted c
            end
        end
      else
        log_and_return (format_unknown_type (char_to_int tag)) c
  end.

(** [ProcessResponses] over the events its iterations meet, oldest first.  A
    thread that is not inside the loop consumes nothing. *)
Fixpoint ProcessResponses (evs : list rd_event) (c : IECBusConnection) : IECBusConnection :=
  match evs with
  | [] => c
  | ev :: evs' =>
      match response_thread_ c with
      | Running => ProcessResponses evs' (ProcessResponses_step ev c)
      | _ => c
      end
  end.

(** The body of [~IECBusConnection]: it writes a byte to the wake-up pipe
    and joins the thread.  The thread first works off what it still has
    buffered ([buffered]); its next [select] then reports the pipe.  A thread
    that was never started is not joined.  The body does not touch
    [response_promise_]; the member is destroyed after it, which hands a
    future that still waits a [std::future_error], not a status. *)
Definition destroy (buffered : list rd_event) (c : IECBusConnection) : IECBusConnection :=
  ProcessResponses (buffered ++ [EvTerminate]) c.

(** *** The channel API *)

(** What the peer and the line do for one request: whether [WriteString]
    fails (and with what status), and the events the reader meets from the
    write of the request until the next request is issued. *)
Record exchange : Set := mkExchange {
  wr_err : option IECStatus;
  replies : list rd_event
}.

(** A line on which the write goes through and nothing ever comes back. *)
Definition silent : exchange := mkExchange None [].

(** Modelled from the spec: [BufferedReadWriter::WriteString] of utils.h
    hands the raw bytes of the request to the tty; [false] with a status
    when the descriptor fails. *)
Definition WriteString (s : string) (fail : option IECStatus) (status : IECStatus)
    (c : IECBusConnection) : bool * IECStatus * IECBusConnection :=
  match fail with
  | None => (true, status, push_tx s c)
  | Some e => (false, e, c)
  end.

(** [f.get()]: the value the reader stores in the promise, [None] when it
    never stores one.  [evs] is all the reader meets before the caller goes
    on; the caller is taken to see the promise after all of it.  Where a
    second [s] frame among [evs] brings the thread down ([Aborted]) the
    process ends, whatever the model hands the caller: what is proved of a
    call that waits for the reader is stated for exchanges without one. *)
Definition future_get (evs : list rd_event) (c : IECBusConnection)
  : option (string * IECStatus) * IECBusConnection :=
  let c' := ProcessResponses evs c in
  (match response_promise_ c' with
   | Resolved r => Some r
   | Pending => None
   end, c').

(** The two seconds [Reset] sleeps before it waits have no part in the
    model: what arrives during them is among the replies of the exchange. *)
Definition Reset (ex : exchange) (status : IECStatus) (c : IECBusConnection)
  : option (bool * IECStatus) * IECBusConnection :=
  let c := RequestResult c in
  match WriteString kCmdReset (wr_err ex) status c with
  | (false, status, c) => (Some (false, status), c)
  | (true, status, c) =>
      match future_get (replies ex) c with
      | (None, c) => (None, c)
      | (Some r, c) =>
          if ok r.2 then (Some (true, status), c) else (Some (false, r.2), c)
      end
  end.

Definition OpenChannel (device_number channel : ascii) (cmd_string : string)
    (ex : exchange) (status : IECStatus) (c : IECBusConnection)
  : option (bool * IECStatus) * IECBusConnection :=
  let c := RequestResult c in
  let request_string :=
    kCmdOpen ++ String device_number (String channel
      (String (Str.char_of_size (String.length cmd_string)) cmd_string)) in
  match WriteString request_string (wr_err ex) status c with
  | (false, status, c) => (Some (false, status), c)
  | (true, status, c) =>
      match future_get (replies ex) c with
      | (None, c) => (None, c)
      | (Some r, c) =>
          if ok r.2 then (Some (true, status), c) else (Some (false, r.2), c)
      end
  end.

(** The [std::string *result] travels with the status. *)
Definition ReadFromChannel (device_number channel : ascii) (ex : exchange)
    (result : string) (status : IECStatus) (c : IECBusConnection)
  : option (bool * string * IECStatus) * IECBusConnection :=
  let c := RequestResult c in
  let request_string := kCmdGetData ++ String device_number (String channel "") in
  match WriteString request_string (wr_err ex) status c with
  | (false, status, c) => (Some (false, result, status), c)
  | (true, status, c) =>
      match future_get (replies ex) c with
      | (None, c) => (None, c)
      | (Some r, c) =>
          if ok r.2 then (Some (true, r.1, status), c)
          else (Some (false, result, r.2), c)
      end
  end.

Definition CloseChannel (device_number channel : ascii) (ex : exchange)
    (status : IECStatus) (c : IECBusConnection)
  : option (bool * IECStatus) * IECBusConnection :=
  let c := RequestResult c in
  let request_string := kCmdClose ++ String device_number (String channel "") in
  match WriteString request_string (wr_err ex) status c with
  | (false, status, c) => (Some (false, status), c)
  | (true, status, c) =>
      match future_get (replies ex) c with
      | (None, c) => (None, c)
      | (Some r, c) =>
          if ok r.2 then (Some (true, status), c) else (Some (false, r.2), c)
      end
  end.

(** One pass of the body of the loop of [WriteToChannel] at [curr_pos]:
    [inl] when the function returns from inside the loop (with what it
    returns), [inr] when the loop goes on. *)
Definition put_chunk (device_number channel : ascii) (data_string : string)
    (curr_pos : nat) (ex : exchange) (status : IECStatus) (c : IECBusConnection)
  : (option (bool * IECStatus) * IECBusConnection) + IECBusConnection :=
  let c := RequestResult c in
  let to_write := Nat.min (String.length data_string - curr_pos) kMaxSendPacketSize in
  let request_string :=
    kCmdPutData ++ String device_number (String channel
      (String (Str.char_of_size to_write) (Str.substr data_string curr_pos to_write))) in
  match WriteString request_string (wr_err ex) status c with
  | (false, status, c) => inl (Some (false, status), c)
  | (true, status, c) =>
      match future_get (replies ex) c with
      | (None, c) => inl (None, c)
      | (Some r, c) => if negb (ok r.2) then inl (Some (false, r.2), c) else inr c
      end
  end.

(** The [while (curr_pos < data_string.size())] loop; [peer] holds what the
    line does for the requests still to come, [silent] once it runs out. *)
Equations? WriteToChannel_loop (device_number channel : ascii) (data_string : string)
    (curr_pos : nat) (peer : list exchange) (status : IECStatus) (c : IECBusConnection)
  : option (bool * IECStatus) * IECBusConnection
  by wf (String.length data_string - curr_pos) lt :=
WriteToChannel_loop device_number channel data_string curr_pos peer status c
  with lt_dec curr_pos (String.length data_string) => {
  | right _ => (Some (true, status), c)
  | left _
    with put_chunk device_number channel data_string curr_pos (hd silent peer) status c => {
    | inl r => r
    | inr c' =>
        WriteToChannel_loop device_number channel data_string
          (curr_pos + Nat.min (String.length data_string - curr_pos) kMaxSendPacketSize)
          (tl peer) status c' } }.
Proof. unfold kMaxSendPacketSize. lia. Qed.

Definition WriteToChannel (device_number channel : ascii) (data_string : string)
    (peer : list exchange) (status : IECStatus) (c : IECBusConnection)
  : option (bool * IECStatus) * IECBusConnection :=
  if bool_decide (data_string = "") then (Some (true, status), c)
  else WriteToChannel_loop device_number channel data_string 0 peer status c.

(** *** The connection handshake *)

(** The read side of the [BufferedReadWriter] before the reader thread
    exists: [ReadTerminatedString(term, max_length, &result, &status)] of
    utils.h, on whatever state the implementation keeps. *)
Variable tty : Type.
Variable ReadTerminatedString : ascii -> nat -> tty -> io_result * tty.

(** The [for] loop of [Initialize], [tries] iterations from [i] on:
    [inl] when the function returns [false] from inside the loop,
    [inr] with [connection_string] when the loop is left. *)
Fixpoint read_banner (tries i : nat) (connection_string : string) (w : tty)
    (status : IECStatus) (c : IECBusConnection)
  : (IECStatus * tty * IECBusConnection) + (string * tty * IECBusConnection) :=
  match tries with
  | 0 => inr (connection_string, w, c)
  | S tries' =>
      match ReadTerminatedString CR kMaxLength w with
      | (IoErr status, w) => inl (status, w, c)
      | (IoOk connection_string, w) =>
          if (String.length kConnectionStringPrefix <=? String.length connection_string)
             && bool_decide (Str.substr connection_string 0
                               (String.length kConnectionStringPrefix)
                             = kConnectionStringPrefix)
          then inr (connection_string, w, c)
          else if kNumRetries - 1 <=? i then
            inl (SetError CONNECTION_FAILURE
                   ("Unknown protocol response: '"
                    ++ GetPrintableString connection_string ++ "'") status, w, c)
          else
            read_banner tries' (S i) connection_string w status
              (log_callback_ "W" "CLIENT"
                 ("Malformed connection string '" ++ connection_string ++ "'") c)
      end
  end.

(** The configuration line [Initialize] answers with. *)
Definition config_string (local_time : tm) : string :=
  "OK>" ++ format_u kDeviceNumber ++ "|" ++ format_u kAtnPin ++ "|"
  ++ format_u kClockPin ++ "|" ++ format_u kDataPin ++ "|"
  ++ format_u kResetPin ++ "|" ++ format_u kSrqInPin ++ "|"
  ++ format_u (tm_year local_time + 1900) ++ "-" ++ format_u (tm_mon local_time + 1)
  ++ "-" ++ format_u (tm_mday local_time) ++ "." ++ format_u (tm_hour local_time)
  ++ ":" ++ format_u (tm_min local_time) ++ ":" ++ format_u (tm_sec local_time)
  ++ String CR "".

(** [Initialize]; [wr] is whether the write of the configuration line
    fails, [local_time] what [localtime_r] returns. *)
Definition Initialize (w : tty) (wr : option IECStatus) (local_time : tm)
    (status : IECStatus) (c : IECBusConnection)
  : bool * IECStatus * tty * IECBusConnection :=
  match read_banner kNumRetries 0 "" w status c with
  | inl (status, w, c) => (false, status, w, c)
  | inr (connection_string, w, c) =>
      match Scanf.sscanf_i
              (Str.substr_from connection_string (String.length kConnectionStringPrefix)) with
      | None =>
          (false,
           SetError CONNECTION_FAILURE
             ("Unsupported protocol: '" ++ connection_string ++ "'") status, w, c)
      | Some n =>
          let protocol_version := Scanf.to_int n in
          if (protocol_version <? kMinProtocolVersion)%Z then
            (false,
             SetError CONNECTION_FAILURE
               ("Unsupported protocol: '" ++ connection_string ++ "'") status, w, c)
          else
            match WriteString (config_string local_time) wr status c with
            | (false, status, c) => (false, status, w, c)
            | (true, status, c) => (true, status, w, set_thread Running c)
            end
      end
  end.

(** *** Vocabulary of the properties *)

(** The status a status line stands for. *)
Definition status_of_line (line : string) : IECStatus :=
  if bool_decide (line = "") then IECStatus_default
  else mkStatus IEC_CONNECTION_FAILURE line.

Definition is_frame (tag : ascii) (ev : rd_event) : bool :=
  match ev with
  | EvFrame t _ => bool_decide (t = tag)
  | _ => false
  end.

(** No frame with discriminator [tag] among [evs]. *)
Definition no_frame (tag : ascii) (evs : list rd_event) : bool :=
  forallb (fun ev => negb (is_frame tag ev)) evs.

(** The unescaped payload of the last [r] frame among [evs], [acc] when
    there is none. *)
Fixpoint last_payload (evs : list rd_event) (acc : string) : string :=
  match evs with
  | [] => acc
  | EvFrame t (IoOk l) :: evs' =>
      if decide (t = "r"%char) then
        match UnescapeString l with
        | IoOk u => last_payload evs' u
        | IoErr _ => last_payload evs' acc
        end
      else last_payload evs' acc
  | _ :: evs' => last_payload evs' acc
  end.

(** What the reader has met since the last [s] frame among [evs]: all of
    [evs] when it holds none. *)
Fixpoint since_status (evs : list rd_event) : list rd_event :=
  match evs with
  | [] => []
  | ev :: evs' =>
      if no_frame "s" evs' then (if is_frame "s" ev then evs' else ev :: evs')
      else since_status evs'
  end.

(** One request as the reader lives it: the events it meets while no request
    is out ([idle]), those it meets between the write of the request and the
    next [s] frame ([window]), and the line of that [s] frame. *)
Record request_window : Set := mkWindow {
  idle : list rd_event;
  window : list rd_event;
  status_line : string
}.

(** The requests of one connection in turn, with what each future gives. *)
Fixpoint run_requests (ws : list request_window) (c : IECBusConnection)
  : list (option (string * IECStatus)) * IECBusConnection :=
  match ws with
  | [] => ([], c)
  | w :: ws' =>
      let c := ProcessResponses (idle w) c in
      let c := RequestResult c in
      let '(r, c) := future_get (window w ++ [EvFrame "s" (IoOk (status_line w))]) c in
      let '(rs, c) := run_requests ws' c in
      (r :: rs, c)
  end.

(** What the future of a request holds when it is resolved: the payload of
    the last [r] frame since the last [s] frame before its own. *)
Definition correlated (w : request_window) (r : option (string * IECStatus)) : Prop :=
  r = Some (last_payload (since_status (idle w) ++ window w)%list "",
            status_of_line (status_line w)).

(** A [!] frame that declares a channel, and a [D] frame that logs on a
    declared one. *)
Definition well_formed_log (m : gmap ascii string) (ev : rd_event) : bool :=
  match ev with
  | EvFrame t (IoOk l) =>
      (bool_decide (t = "!"%char) && (2 <=? String.length l))
      || (bool_decide (t = "D"%char) && (3 <=? String.length l)
          && bool_decide (is_Some (m !! Str.at_ l 1)))
  | _ => false
  end.

Definition is_log (ev : rd_event) : bool := is_frame "!" ev || is_frame "D" ev.

(** The channel map after the reader has taken [ev] in. *)
Definition declare (ev : rd_event) (m : gmap ascii string) : gmap ascii string :=
  match ev with
  | EvFrame t (IoOk l) =>
      if decide (t = "!"%char) then <[Str.at_ l 0 := Str.substr_from l 1]> m else m
  | _ => m
  end.

(** Every [!] and [D] frame among [evs] is well formed when its turn comes. *)
Fixpoint well_formed_logs (m : gmap ascii string) (evs : list rd_event) : bool :=
  match evs with
  | [] => true
  | ev :: evs' =>
      if is_log ev then well_formed_log m ev && well_formed_logs (declare ev m) evs'
      else well_formed_logs m evs'
  end.

(** The reader's share in the outcome of a request. *)
Definition same_outcome (c1 c2 : IECBusConnection) : Prop :=
  response_promise_ c1 = response_promise_ c2
  /\ last_response c1 = last_response c2
  /\ response_thread_ c1 = response_thread_ c2.

(** The [p] request that carries [chunk]. *)
Definition p_frame (device_number channel : ascii) (chunk : string) : string :=
  kCmdPutData ++ String device_number (String channel
    (String (Str.char_of_size (String.length chunk)) chunk)).

(** [data] cut into pieces of [kMaxSendPacketSize] bytes, the last one
    shorter when the length is no multiple. *)
Definition chunks (data : string) : list string :=
  map (fun i => Str.substr data (i * kMaxSendPacketSize) kMaxSendPacketSize)
      (seq 0 ((String.length data + (kMaxSendPacketSize - 1)) / kMaxSendPacketSize)).

(** The peer answers a request with the status line [line] and nothing else. *)
Definition answers (line : string) : exchange :=
  mkExchange None [EvFrame "s" (IoOk line)].

(** The lines [ReadTerminatedString('\r', kMaxLength, ...)] returns on
    successive calls from [w] on. *)
Inductive reads_lines : tty -> list string -> tty -> Prop :=
| reads_nil w : reads_lines w [] w
| reads_cons w l w' ls w'' :
    ReadTerminatedString CR kMaxLength w = (IoOk l, w') ->
    reads_lines w' ls w'' ->
    reads_lines w (l :: ls) w''.

(** The warnings [Initialize] logs for the lines it reads before the banner. *)
Definition warn_malformed (lines : list string) (c : IECBusConnection) : IECBusConnection :=
  fold_left (fun c l =>
               log_callback_ "W" "CLIENT" ("Malformed connection string '" ++ l ++ "'") c)
            lines c.

(** What [Initialize] does once the loop has left it with the banner. *)
Definition check_version (connection_string : string) (w : tty) (wr : option IECStatus)
    (local_time : tm) (status : IECStatus) (c : IECBusConnection)
  : bool * IECStatus * tty * IECBusConnection :=
  match Scanf.sscanf_i
          (Str.substr_from connection_string (String.length kConnectionStringPrefix)) with
  | None =>
      (false,
       SetError CONNECTION_FAILURE
         ("Unsupported protocol: '" ++ connection_string ++ "'") status, w, c)
  | Some n =>
      if (Scanf.to_int n <? kMinProtocolVersion)%Z then
        (false,
         SetError CONNECTION_FAILURE
           ("Unsupported protocol: '" ++ connection_string ++ "'") status, w, c)
      else
        match WriteString (config_string local_time) wr status c with
        | (false, status, c) => (false, status, w, c)
        | (true, status, c) => (true, status, w, set_thread Running c)
        end
  end.

(** *** Creating a connection *)

(** [tcflush(fd, TCIFLUSH)] on the tty: what was received and not read is
    thrown away. *)
Variable tcflush : tty -> tty.

(** What the system does for the second [Create]: whether [open] and
    [tcflush] succeed, and what the calls of the two [ConfigureSerial] do. *)
Record create_env : Type := mkCreateEnv {
  open_ok : bool;
  reset_env : Serial.serial_env;
  speed_env : Serial.serial_env;
  tcflush_ok : bool;
  create_errno_text : string -> string
}.

(** What a [Create] leaves behind: the connection, if any, the status, the
    tty, the settings of the serial line, and whether a descriptor for the
    tty is open. *)
Record created : Type := mkCreated {
  connection : option IECBusConnection;
  create_status : IECStatus;
  create_tty : tty;
  line_settings : Serial.termios;
  descriptor_open : bool
}.

(** [Create(arduino_fd, log_callback, status)] for a descriptor that is not
    [-1].  When [Initialize] fails the connection object is destroyed on the
    way out, and its destructor closes the descriptor. *)
Definition Create_fd (w : tty) (wr : option IECStatus) (local_time : tm)
    (status : IECStatus) (dev : Serial.termios) : created :=
  match Initialize w wr local_time status new_connection with
  | (true, status, w, conn) => mkCreated (Some conn) status w dev true
  | (false, status, w, _) => mkCreated None status w dev false
  end.

Definition quote : string := String "034"%char "".

(** [Create(device_file, speed, log_callback, status)]; the second that is
    slept between the two configurations has no part in the model. *)
Definition Create (env : create_env) (K : Serial.termios_flags) (device_file : string)
    (speed : Z) (w : tty) (wr : option IECStatus) (local_time : tm)
    (status : IECStatus) (dev : Serial.termios) : created :=
  if negb (open_ok env) then
    mkCreated None
      (Serial.SetErrorFromErrno (create_errno_text env) CONNECTION_FAILURE
         ("open(" ++ quote ++ device_file ++ quote ++ ")") status)
      w dev false
  else
    match Serial.ConfigureSerial (reset_env env) K 1200 status dev with
    | (false, status, dev) => mkCreated None status w dev true
    | (true, status, dev) =>
        match Serial.ConfigureSerial (speed_env env) K speed status dev with
        | (false, status, dev) => mkCreated None status w dev true
        | (true, status, dev) =>
            if negb (tcflush_ok env) then
              mkCreated None
                (Serial.SetErrorFromErrno (create_errno_text env) CONNECTION_FAILURE
                   "tcflush" status)
                w dev true
            else Create_fd (tcflush w) wr local_time status dev
        end
    end.

(** ** Properties of the host transport *)

(** *** The reader loop *)

Lemma ProcessResponses_stopped evs c :
  response_thread_ c <> Running -> ProcessResponses evs c = c.
Proof.
  intros Hstop. destruct evs as [|ev evs]; [reflexivity|].
  simpl. destruct (response_thread_ c); congruence.
Qed.

Lemma ProcessResponses_cons ev evs c :
  response_thread_ c = Running ->
  ProcessResponses (ev :: evs) c = ProcessResponses evs (ProcessResponses_step ev c).
Proof. intros Hrun. simpl. rewrite Hrun. reflexivity. Qed.

Lemma ProcessResponses_app evs1 evs2 c :
  ProcessResponses (evs1 ++ evs2) c = ProcessResponses evs2 (ProcessResponses evs1 c).
Proof.
  revert c. induction evs1 as [|ev evs1 IH]; intros c; [reflexivity|].
  destruct (decide (response_thread_ c = Running)) as [Hrun|Hstop].
  - rewrite <- app_comm_cons, !ProcessResponses_cons by assumption. apply IH.
  - rewrite !(ProcessResponses_stopped _ c) by assumption. reflexivity.
Qed.

(** A thread that has left the loop never re-enters it. *)
Lemma ProcessResponses_running evs c :
  response_thread_ (ProcessResponses evs c) = Running -> response_thread_ c = Running.
Proof.
  destruct (decide (response_thread_ c = Running)) as [Hrun|Hstop]; [auto|].
  rewrite ProcessResponses_stopped by assumption. auto.
Qed.

(** Case analysis of one pass of the loop. *)
Ltac step_cases :=
  unfold ProcessResponses_step, log_and_return, set_value;
  repeat case_match; simplify_eq/=.

(** The reader writes nothing to the tty. *)
Lemma ProcessResponses_step_tx ev c : tx (ProcessResponses_step ev c) = tx c.
Proof. step_cases; reflexivity. Qed.

Lemma ProcessResponses_tx evs c : tx (ProcessResponses evs c) = tx c.
Proof.
  revert c. induction evs as [|ev evs IH]; intros c; [reflexivity|].
  simpl. destruct (response_thread_ c); try reflexivity.
  rewrite IH. apply ProcessResponses_step_tx.
Qed.

(** Only an [s] frame touches the promise. *)
Lemma ProcessResponses_step_promise ev c :
  is_frame "s" ev = false ->
  response_promise_ (ProcessResponses_step ev c) = response_promise_ c.
Proof.
  intros Hs. destruct ev as [| |tag line]; try reflexivity.
  simpl in Hs. apply bool_decide_eq_false in Hs.
  step_cases; congruence.
Qed.

Lemma ProcessResponses_promise evs c :
  no_frame "s" evs = true ->
  response_promise_ (ProcessResponses evs c) = response_promise_ c.
Proof.
  revert c. induction evs as [|ev evs IH]; intros c Hs; [reflexivity|].
  unfold no_frame in Hs. simpl in Hs. apply andb_true_iff in Hs as [Hev Hs].
  apply negb_true_iff in Hev.
  simpl. destruct (response_thread_ c); try reflexivity.
  rewrite IH by assumption. apply ProcessResponses_step_promise, Hev.
Qed.

(** What an [s] frame does to a thread inside the loop with a promise out. *)
Lemma status_frame_step payload c :
  response_promise_ c = Pending ->
  ProcessResponses_step (EvFrame "s" (IoOk payload)) c
  = set_last_response ""
      (set_promise (Resolved (last_response c, status_of_line payload)) c).
Proof.
  intros Hp. unfold ProcessResponses_step, set_value, status_of_line, SetError.
  simpl. rewrite Hp. destruct (bool_decide (payload = "")); reflexivity.
Qed.

(** C6.  An [s] frame met by the reader while a request is pending resolves
    it with the last response and a status that is the success status
    exactly when the payload of the frame is empty, and is the status of
    kind [IEC_CONNECTION_FAILURE] whose message is the payload, verbatim,
    exactly when the payload is not empty. *)
Theorem status_frame_resolves_pending_request (payload : string) (c : IECBusConnection) :
  response_thread_ c = Running ->
  response_promise_ c = Pending ->
  exists st,
    response_promise_ (ProcessResponses [EvFrame "s" (IoOk payload)] c)
    = Resolved (last_response c, st)
    /\ (ok st = true <-> payload = "")
    /\ (st = mkStatus IEC_CONNECTION_FAILURE payload <-> payload <> "").
Proof.
  intros Hrun Hp. exists (status_of_line payload).
  rewrite ProcessResponses_cons by assumption.
  rewrite status_frame_step by assumption. simpl.
  split; [reflexivity|]. unfold status_of_line.
  destruct (decide (payload = "")) as [->|Hne].
  - rewrite bool_decide_eq_true_2 by reflexivity. split.
    + split; reflexivity.
    + split; [discriminate | congruence].
  - rewrite bool_decide_eq_false_2 by assumption. split.
    + split; [discriminate | congruence].
    + split; [auto | reflexivity].
Qed.

(** *** Correlation of responses and requests *)

(** Between two [s] frames [last_response] follows the [r] frames. *)
Lemma ProcessResponses_step_window ev c :
  is_frame "s" ev = false ->
  response_thread_ (ProcessResponses_step ev c) = Running ->
  last_response (ProcessResponses_step ev c) = last_payload [ev] (last_response c).
Proof.
  intros Hs. destruct ev as [| |tag line]; try discriminate.
  simpl in Hs. apply bool_decide_eq_false in Hs.
  step_cases; try congruence; intros _; repeat case_match; congruence.
Qed.

Lemma last_payload_cons ev evs acc :
  last_payload (ev :: evs) acc = last_payload evs (last_payload [ev] acc).
Proof. destruct ev as [| |tag [l|st]]; simpl; repeat case_match; reflexivity. Qed.

Lemma last_payload_app evs1 evs2 acc :
  last_payload (evs1 ++ evs2) acc = last_payload evs2 (last_payload evs1 acc).
Proof.
  revert acc. induction evs1 as [|ev evs1 IH]; intros acc; [reflexivity|].
  rewrite <- app_comm_cons, last_payload_cons, IH, <- last_payload_cons. reflexivity.
Qed.

Lemma ProcessResponses_window evs c :
  no_frame "s" evs = true ->
  response_thread_ (ProcessResponses evs c) = Running ->
  last_response (ProcessResponses evs c) = last_payload evs (last_response c).
Proof.
  revert c. induction evs as [|ev evs IH]; intros c Hs Hrun; [reflexivity|].
  unfold no_frame in Hs. simpl in Hs. apply andb_true_iff in Hs as [Hev Hs].
  apply negb_true_iff in Hev.
  pose proof (ProcessResponses_running _ _ Hrun) as Hc.
  rewrite ProcessResponses_cons in * by assumption.
  rewrite last_payload_cons, IH by assumption. f_equal.
  apply ProcessResponses_step_window; [assumption|].
  apply (ProcessResponses_running evs), Hrun.
Qed.

Lemma last_payload_no_data evs acc :
  no_frame "r" evs = true -> last_payload evs acc = acc.
Proof.
  revert acc. induction evs as [|ev evs IH]; intros acc Hr; [reflexivity|].
  unfold no_frame in Hr. simpl in Hr. apply andb_true_iff in Hr as [Hev Hr].
  apply negb_true_iff in Hev.
  rewrite last_payload_cons, IH by assumption.
  destruct ev as [| |tag [l|st]]; try reflexivity.
  simpl in Hev. apply bool_decide_eq_false in Hev.
  simpl. destruct (decide (tag = "r"%char)); [contradiction | reflexivity].
Qed.

(** An [s] frame that leaves the reader in its loop has emptied
    [last_response]. *)
Lemma ProcessResponses_step_status_clears ev c :
  is_frame "s" ev = true ->
  response_thread_ (ProcessResponses_step ev c) = Running ->
  last_response (ProcessResponses_step ev c) = "".
Proof.
  intros Hs. destruct ev as [| |tag line]; try discriminate.
  simpl in Hs. apply bool_decide_eq_true in Hs. subst tag.
  step_cases; try discriminate; reflexivity.
Qed.

Lemma no_frame_cons tag ev evs :
  no_frame tag (ev :: evs) = negb (is_frame tag ev) && no_frame tag evs.
Proof. reflexivity. Qed.

Lemma since_status_none evs : no_frame "s" evs = true -> since_status evs = evs.
Proof.
  destruct evs as [|ev evs]; [reflexivity|].
  rewrite no_frame_cons. intros [Hev Hevs]%andb_true_iff.
  cbn [since_status]. rewrite Hevs. apply negb_true_iff in Hev. rewrite Hev.
  reflexivity.
Qed.

(** [last_response] holds the payload of the last [r] frame since the last
    [s] frame, whenever that was: the reader does not know of requests. *)
Lemma ProcessResponses_since evs c :
  response_thread_ (ProcessResponses evs c) = Running ->
  last_response (ProcessResponses evs c)
  = last_payload (since_status evs) (if no_frame "s" evs then last_response c else "").
Proof.
  revert c. induction evs as [|ev evs IH]; intros c Hrun; [reflexivity|].
  pose proof (ProcessResponses_running _ _ Hrun) as Hc.
  rewrite ProcessResponses_cons in * by assumption.
  pose proof (ProcessResponses_running _ _ Hrun) as Hc1.
  rewrite (IH _ Hrun). rewrite no_frame_cons. cbn [since_status].
  destruct (no_frame "s" evs) eqn:Hevs.
  - rewrite (since_status_none evs Hevs).
    destruct (is_frame "s" ev) eqn:Hev; cbn [negb andb].
    + rewrite ProcessResponses_step_status_clears by assumption. reflexivity.
    + rewrite last_payload_cons.
      rewrite ProcessResponses_step_window by assumption. reflexivity.
  - rewrite andb_false_r. reflexivity.
Qed.

Lemma no_frame_since_status tag evs :
  no_frame tag evs = true -> no_frame tag (since_status evs) = true.
Proof.
  induction evs as [|ev evs IH]; intros Hno; [reflexivity|].
  rewrite no_frame_cons in Hno. apply andb_true_iff in Hno as [Hev Hno].
  cbn [since_status]. destruct (no_frame "s" evs); [|apply IH, Hno].
  destruct (is_frame "s" ev); [exact Hno|].
  rewrite no_frame_cons, Hev, Hno. reflexivity.
Qed.

(** One request: what its future gives, and what it leaves behind. *)
Lemma request_resolution evs line acc c :
  no_frame "s" evs = true ->
  (response_thread_ c = Running -> last_response c = acc) ->
  let res := future_get (evs ++ [EvFrame "s" (IoOk line)]) (RequestResult c) in
  (response_thread_ res.2 = Running -> last_response res.2 = "")
  /\ (response_thread_ res.2 = Running ->
      res.1 = Some (last_payload evs acc, status_of_line line))
  /\ (res.1 = None \/ res.1 = Some (last_payload evs acc, status_of_line line)).
Proof.
  intros Hs Hinv res. subst res. unfold future_get. simpl.
  rewrite ProcessResponses_app.
  set (c1 := ProcessResponses evs (RequestResult c)).
  assert (Hp : response_promise_ c1 = Pending).
  { unfold c1. rewrite ProcessResponses_promise by assumption. reflexivity. }
  destruct (decide (response_thread_ c1 = Running)) as [Hrun|Hstop].
  - assert (Hl : last_response c1 = last_payload evs acc).
    { unfold c1 in *. rewrite ProcessResponses_window by assumption.
      f_equal. simpl. apply Hinv.
      apply ProcessResponses_running in Hrun. exact Hrun. }
    rewrite ProcessResponses_cons by assumption.
    rewrite status_frame_step by assumption. simpl. rewrite Hl. auto.
  - rewrite ProcessResponses_stopped by assumption. rewrite Hp.
    split; [contradiction|]. split; [contradiction|]. left. reflexivity.
Qed.

Lemma run_requests_running ws c :
  response_thread_ (run_requests ws c).2 = Running -> response_thread_ c = Running.
Proof.
  revert c. induction ws as [|w ws IH]; intros c; [auto|].
  simpl. unfold future_get.
  destruct (run_requests ws _) as [rs c'] eqn:Hrs. simpl.
  intros Hrun. pose proof (IH _ ltac:(rewrite Hrs; exact Hrun)) as H1.
  apply ProcessResponses_running in H1. simpl in H1.
  apply ProcessResponses_running in H1. exact H1.
Qed.

Lemma run_requests_correlation ws c :
  (response_thread_ c = Running -> last_response c = "") ->
  Forall (fun w => no_frame "s" (window w) = true) ws ->
  Forall2 (fun w r => r = None \/ correlated w r) ws (run_requests ws c).1
  /\ (response_thread_ (run_requests ws c).2 = Running ->
      Forall2 correlated ws (run_requests ws c).1
      /\ last_response (run_requests ws c).2 = "").
Proof.
  revert c. induction ws as [|w ws IH]; intros c Hinv Hws.
  - simpl. split; [constructor|]. intros Hrun. split; [constructor | auto].
  - apply Forall_cons in Hws as [Hwin Hws].
    assert (Hinv1 : response_thread_ (ProcessResponses (idle w) c) = Running ->
                    last_response (ProcessResponses (idle w) c)
                    = last_payload (since_status (idle w)) "").
    { intros Hrun. rewrite ProcessResponses_since by assumption.
      destruct (no_frame "s" (idle w)); [|reflexivity].
      rewrite Hinv; [reflexivity|].
      apply ProcessResponses_running in Hrun. exact Hrun. }
    pose proof (request_resolution (window w) (status_line w) _ _ Hwin Hinv1) as Hreq.
    cbv zeta in Hreq. rewrite <- last_payload_app in Hreq. cbn [run_requests].
    destruct (future_get (window w ++ [EvFrame "s" (IoOk (status_line w))])
                (RequestResult (ProcessResponses (idle w) c))) as [r c2].
    destruct Hreq as (Hinv2 & Htotal & Hpartial). simpl in Hinv2, Htotal, Hpartial.
    specialize (IH c2 Hinv2 Hws).
    destruct (run_requests ws c2) as [rs c3] eqn:Hrs. simpl in *.
    destruct IH as [IHp IHt]. split.
    + constructor; assumption.
    + intros Hrun. destruct (IHt Hrun) as [Hall Hlast].
      split; [|assumption]. constructor; [|assumption].
      apply Htotal. apply (run_requests_running ws). rewrite Hrs. exact Hrun.
Qed.

(** C1.  Over one connection whose reader starts with an empty
    [last_response]: the future of every request, when it is resolved, holds
    the unescaped payload of the last [r] frame the reader met since the last
    [s] frame before the request's own (since it started, when there was
    none), whether that [r] frame came before the request was written or
    after, and the empty string when there was none.  When the reader is
    still in its loop at the end, every future was resolved so, and
    [last_response] is empty again.  When no [r] frame came while no request
    was out, this is the last [r] frame between the write of the request and
    its [s] frame. *)
Theorem correlation_last_response_wins (ws : list request_window) (c : IECBusConnection) :
  last_response c = "" ->
  Forall (fun w => no_frame "s" (window w) = true) ws ->
  Forall2 (fun w r => r = None \/ correlated w r) ws (run_requests ws c).1
  /\ (response_thread_ (run_requests ws c).2 = Running ->
      Forall2 correlated ws (run_requests ws c).1
      /\ last_response (run_requests ws c).2 = "")
  /\ (forall w, no_frame "r" (since_status (idle w) ++ window w) = true ->
      last_payload (since_status (idle w) ++ window w) "" = "")
  /\ (forall w, no_frame "r" (idle w) = true ->
      last_payload (since_status (idle w) ++ window w) "" = last_payload (window w) "").
Proof.
  intros Hl Hws.
  destruct (run_requests_correlation ws c (fun _ => Hl) Hws) as [Hp Ht].
  split; [exact Hp|]. split; [exact Ht|]. split.
  - intros w Hr. apply last_payload_no_data, Hr.
  - intros w Hr. rewrite last_payload_app. f_equal.
    apply last_payload_no_data, no_frame_since_status, Hr.
Qed.

(** *** Log frames *)

(** C3.  A [D] frame whose channel id the map does not hold ends the reader:
    the [s] frame behind it is never taken in and the request that was out
    stays unresolved, whatever follows. *)
Theorem unknown_debug_channel_ends_reader (c : IECBusConnection) (level id : ascii)
    (text payload : string) (later : list rd_event) :
  response_thread_ c = Running ->
  response_promise_ c = Pending ->
  debug_channel_map_ c !! id = None ->
  let c' := ProcessResponses
              (EvFrame "D" (IoOk (String level (String id text)))
               :: EvFrame "s" (IoOk payload) :: later) c in
  response_thread_ c' = Exited
  /\ response_promise_ c' = Pending
  /\ exists msg, logged c' = (logged c ++ [mkLog "E" "CLIENT" msg])%list.
Proof.
  intros Hrun Hp Hid c'. subst c'.
  rewrite ProcessResponses_cons by assumption.
  assert (Hstep : ProcessResponses_step (EvFrame "D" (IoOk (String level (String id text)))) c
                  = log_and_return
                      ("Malformed debug message '"
                       ++ GetPrintableString (String level (String id text)) ++ "'") c).
  { unfold ProcessResponses_step. simpl. unfold Str.at_. simpl. rewrite Hid.
    rewrite bool_decide_eq_true_2 by reflexivity. rewrite orb_true_r. reflexivity. }
  rewrite Hstep. rewrite ProcessResponses_stopped by (simpl; discriminate).
  simpl. eauto.
Qed.

(** X3.  A discriminator other than [!], [D], [r] and [s] ends the reader as well:
    [W], [E] and [I] are levels inside a [D] frame, not frames. *)
Lemma unknown_discriminator_ends_reader c tag line later :
  response_thread_ c = Running ->
  tag <> "!"%char -> tag <> "D"%char -> tag <> "r"%char -> tag <> "s"%char ->
  let c' := ProcessResponses (EvFrame tag line :: later) c in
  response_thread_ c' = Exited /\ response_promise_ c' = response_promise_ c.
Proof.
  intros Hrun H1 H2 H3 H4 c'. subst c'.
  rewrite ProcessResponses_cons by assumption.
  unfold ProcessResponses_step. repeat case_decide; try contradiction.
  rewrite ProcessResponses_stopped by (simpl; discriminate).
  simpl. auto.
Qed.

Lemma same_outcome_refl c : same_outcome c c.
Proof. repeat split. Qed.

Lemma same_outcome_trans c1 c2 c3 :
  same_outcome c1 c2 -> same_outcome c2 c3 -> same_outcome c1 c3.
Proof. unfold same_outcome. intros (?&?&?) (?&?&?). repeat split; congruence. Qed.

(** A well-formed log frame leaves promise, last response and thread alone. *)
Lemma well_formed_log_step ev c :
  well_formed_log (debug_channel_map_ c) ev = true ->
  same_outcome (ProcessResponses_step ev c) c
  /\ debug_channel_map_ (ProcessResponses_step ev c) = declare ev (debug_channel_map_ c).
Proof.
  destruct ev as [| |tag [l|st]]; try discriminate. unfold well_formed_log. intros Hwf.
  apply orb_true_iff in Hwf as [Hwf|Hwf].
  - apply andb_true_iff in Hwf as [Ht Hl]. apply bool_decide_eq_true in Ht. subst tag.
    apply Nat.leb_le in Hl.
    unfold ProcessResponses_step. simpl.
    destruct (String.length l <? 2) eqn:Hlt; [apply Nat.ltb_lt in Hlt; lia|].
    split; [repeat split | reflexivity].
  - apply andb_true_iff in Hwf as [Hwf Hm]. apply andb_true_iff in Hwf as [Ht Hl].
    apply bool_decide_eq_true in Ht. subst tag. apply bool_decide_eq_true in Hm.
    apply Nat.leb_le in Hl.
    unfold ProcessResponses_step. simpl.
    destruct (String.length l <? 3) eqn:Hlt; [apply Nat.ltb_lt in Hlt; lia|].
    destruct Hm as [name Hm]. rewrite Hm. simpl.
    split; [repeat split | reflexivity].
Qed.

(** The other events neither read nor write the channel map. *)
Lemma other_step_same_outcome ev c1 c2 :
  is_log ev = false ->
  same_outcome c1 c2 ->
  same_outcome (ProcessResponses_step ev c1) (ProcessResponses_step ev c2)
  /\ debug_channel_map_ (ProcessResponses_step ev c1) = debug_channel_map_ c1.
Proof.
  intros Hlog (Hp & Hl & Ht). unfold same_outcome.
  destruct ev as [| |tag line]; [simpl; auto | simpl; auto |].
  unfold is_log in Hlog. simpl in Hlog. apply orb_false_iff in Hlog as [H1 H2].
  apply bool_decide_eq_false in H1, H2.
  unfold ProcessResponses_step, log_and_return, set_value.
  repeat case_decide; try contradiction; rewrite <- ?Hp, <- ?Hl;
    repeat case_match; simplify_eq/=; auto; repeat split; congruence.
Qed.

(** X2.  Well-formed log frames may be struck from what the reader meets: the
    promise, the last response and the thread end up the same. *)
Lemma log_frames_transparent evs c1 c2 :
  same_outcome c1 c2 ->
  well_formed_logs (debug_channel_map_ c1) evs = true ->
  same_outcome (ProcessResponses evs c1)
               (ProcessResponses (filter (fun ev => negb (is_log ev)) evs) c2).
Proof.
  revert c1 c2. induction evs as [|ev evs IH]; intros c1 c2 Hsim Hwf; [exact Hsim|].
  simpl in Hwf. destruct (is_log ev) eqn:Hlog.
  - apply andb_true_iff in Hwf as [Hev Hwf].
    rewrite filter_cons_False by (rewrite Hlog; simpl; auto).
    destruct (decide (response_thread_ c1 = Running)) as [Hrun|Hstop].
    + rewrite ProcessResponses_cons by assumption.
      destruct (well_formed_log_step ev c1 Hev) as [Hsame Hmap].
      apply IH; [|rewrite Hmap; exact Hwf].
      eapply same_outcome_trans; eassumption.
    + rewrite !ProcessResponses_stopped; [exact Hsim| |assumption].
      destruct Hsim as (_ & _ & <-). assumption.
  - rewrite filter_cons_True by (rewrite Hlog; simpl; auto).
    destruct (decide (response_thread_ c1 = Running)) as [Hrun|Hstop].
    + assert (Hrun2 : response_thread_ c2 = Running)
        by (destruct Hsim as (_ & _ & <-); assumption).
      rewrite !ProcessResponses_cons by assumption.
      destruct (other_step_same_outcome ev c1 c2 Hlog Hsim) as [Hsame Hmap].
      apply IH; [exact Hsame | rewrite Hmap; exact Hwf].
    + rewrite !ProcessResponses_stopped; [exact Hsim| |assumption].
      destruct Hsim as (_ & _ & <-). assumption.
Qed.

(** *** The end of the reader *)

(** A pass that takes the thread out of the loop leaves the promise as it
    found it, when that promise was pending. *)
Lemma leaving_step_keeps_promise ev c :
  response_promise_ c = Pending ->
  response_thread_ (ProcessResponses_step ev c) <> Running ->
  response_thread_ c = Running ->
  response_thread_ (ProcessResponses_step ev c) = Exited
  /\ response_promise_ (ProcessResponses_step ev c) = Pending.
Proof.
  intros Hp Hleft Hrun. revert Hleft.
  step_cases; try congruence; auto.
Qed.

(** C8, as the code has it.  When the reader leaves its loop (the wake-up
    pipe, a failed read, a malformed frame, an unknown discriminator) while a
    request is out, it returns without touching the promise: the thread has
    exited, the promise is still pending, whatever arrives later changes
    nothing and the wait on the future does not return; the body of the
    destructor does not resolve the promise either. *)
Theorem reader_exit_leaves_request_pending (ev : rd_event) (later : list rd_event)
    (c : IECBusConnection) :
  response_thread_ c = Running ->
  response_promise_ c = Pending ->
  response_thread_ (ProcessResponses_step ev c) <> Running ->
  let c' := ProcessResponses (ev :: later) c in
  response_thread_ c' = Exited
  /\ response_promise_ c' = Pending
  /\ (future_get (ev :: later) c).1 = None
  /\ (forall buffered, response_promise_ (destroy buffered c') = Pending)
  /\ response_thread_ (destroy [] c) = Exited
  /\ response_promise_ (destroy [] c) = Pending.
Proof.
  intros Hrun Hp Hleft c'.
  destruct (leaving_step_keeps_promise ev c Hp Hleft Hrun) as [Hex Hpe].
  assert (Hc' : c' = ProcessResponses_step ev c).
  { unfold c'. rewrite ProcessResponses_cons by assumption.
    apply ProcessResponses_stopped. assumption. }
  split; [rewrite Hc'; exact Hex|].
  split; [rewrite Hc'; exact Hpe|].
  split; [unfold future_get; fold c'; simpl; rewrite Hc', Hpe; reflexivity|].
  split.
  { intros buffered. unfold destroy.
    rewrite ProcessResponses_stopped; rewrite Hc'; [exact Hpe|].
    rewrite Hex. discriminate. }
  unfold destroy. simpl app. rewrite ProcessResponses_cons by assumption. simpl. auto.
Qed.

(** *** What a resolved future can hold *)

Lemma ProcessResponses_step_status ev c :
  (forall r, response_promise_ c = Resolved r -> exists line, r.2 = status_of_line line) ->
  forall r, response_promise_ (ProcessResponses_step ev c) = Resolved r ->
            exists line, r.2 = status_of_line line.
Proof.
  intros Hinv r.
  destruct (is_frame "s" ev) eqn:Hs.
  - destruct ev as [| |tag line]; try discriminate.
    simpl in Hs. apply bool_decide_eq_true in Hs. subst tag.
    destruct line as [l|st]; [|apply Hinv].
    destruct (response_promise_ c) eqn:Hp.
    + rewrite status_frame_step by assumption. simpl.
      intros [= <-]. exists l. reflexivity.
    + unfold ProcessResponses_step, set_value. simpl. rewrite Hp. simpl.
      rewrite Hp. apply Hinv.
  - rewrite ProcessResponses_step_promise by assumption. apply Hinv.
Qed.

Lemma ProcessResponses_status evs c :
  (forall r, response_promise_ c = Resolved r -> exists line, r.2 = status_of_line line) ->
  forall r, response_promise_ (ProcessResponses evs c) = Resolved r ->
            exists line, r.2 = status_of_line line.
Proof.
  revert c. induction evs as [|ev evs IH]; intros c Hinv; [exact Hinv|].
  simpl. destruct (response_thread_ c); try exact Hinv.
  apply IH, ProcessResponses_step_status, Hinv.
Qed.

(** The value a future gives after [RequestResult] comes from an [s] frame. *)
Lemma future_get_status evs c r :
  (future_get evs (RequestResult c)).1 = Some r ->
  exists line, r.2 = status_of_line line.
Proof.
  unfold future_get. simpl.
  destruct (response_promise_ (ProcessResponses evs (RequestResult c))) as [|r'] eqn:Hp;
    [discriminate|].
  intros [= ->]. eapply ProcessResponses_status; [|exact Hp].
  simpl. discriminate.
Qed.

Lemma status_of_line_not_ok line :
  ok (status_of_line line) = false ->
  line <> "" /\ status_of_line line = mkStatus IEC_CONNECTION_FAILURE line.
Proof.
  unfold status_of_line. destruct (decide (line = "")) as [->|Hne].
  - rewrite bool_decide_eq_true_2 by reflexivity. discriminate.
  - rewrite bool_decide_eq_false_2 by assumption. auto.
Qed.

(** *** OpenChannel *)

Lemma length_byte_small n :
  n <= 255 -> nat_of_ascii (ascii_of_nat (n mod 256)) = n.
Proof. intros Hn. rewrite Nat.mod_small by lia. apply nat_ascii_embedding. lia. Qed.

(** C7, as the code has it.  [OpenChannel] writes [o], the device, the
    channel, the low eight bits of the length of the command and the whole
    command, whatever that length is; the length byte is the length when the
    command has at most 255 bytes.  It checks nothing: when it fails, the
    status is that of the failed write or the [IEC_CONNECTION_FAILURE] of a
    status line that is not empty. *)
Theorem OpenChannel_frame_for_any_length (device_number channel : ascii)
    (cmd_string : string) (ex : exchange) (status : IECStatus) (c : IECBusConnection) :
  let request :=
    kCmdOpen ++ String device_number (String channel
      (String (ascii_of_nat (String.length cmd_string mod 256)) cmd_string)) in
  let res := OpenChannel device_number channel cmd_string ex status c in
  (wr_err ex = None -> tx res.2 = (tx c ++ [request])%list)
  /\ (String.length cmd_string <= 255 ->
      nat_of_ascii (ascii_of_nat (String.length cmd_string mod 256))
      = String.length cmd_string)
  /\ (forall st, res.1 = Some (false, st) ->
      wr_err ex = Some st
      \/ exists line, line <> "" /\ st = mkStatus IEC_CONNECTION_FAILURE line).
Proof.
  intros request res.
  pose proof (length_byte_small (String.length cmd_string)) as Hbyte.
  subst res. unfold OpenChannel, WriteString. cbv zeta.
  change (kCmdOpen ++ String device_number (String channel
            (String (Str.char_of_size (String.length cmd_string)) cmd_string)))
    with request.
  generalize request. clear request. intros request.
  destruct (wr_err ex) as [e|] eqn:Hwr.
  - simpl. split; [discriminate|]. split; [exact Hbyte|].
    intros st [= <-]. left. reflexivity.
  - pose proof (future_get_status (replies ex) (push_tx request c)) as Hst.
    change (RequestResult (push_tx request c))
      with (push_tx request (RequestResult c)) in Hst.
    destruct (future_get (replies ex) (push_tx request (RequestResult c)))
      as [res c'] eqn:Hfg.
    assert (Htx : tx c' = (tx c ++ [request])%list).
    { unfold future_get in Hfg. injection Hfg as _ <-.
      rewrite ProcessResponses_tx. reflexivity. }
    destruct res as [r|]; simpl in Hst.
    + destruct (Hst r eq_refl) as [line Hline].
      destruct (ok r.2) eqn:Hok; simpl.
      * split; [intros _; exact Htx|]. split; [exact Hbyte | discriminate].
      * split; [intros _; exact Htx|]. split; [exact Hbyte|].
        intros st [= <-]. right. exists line. rewrite Hline in Hok |- *.
        apply status_of_line_not_ok, Hok.
    + simpl. split; [intros _; exact Htx|]. split; [exact Hbyte | discriminate].
Qed.

(** *** WriteToChannel *)

Lemma substring_nil p n : String.substring p n "" = "".
Proof. destruct p, n; reflexivity. Qed.

Lemma append_cons ch s t : String ch s ++ t = String ch (s ++ t).
Proof. reflexivity. Qed.

Lemma append_nil_l s : "" ++ s = s.
Proof. reflexivity. Qed.

Lemma substring_zero s : forall p, String.substring p 0 s = "".
Proof.
  induction s as [|ch s IH]; intros p; [apply substring_nil|].
  destruct p as [|p]; [reflexivity|]. simpl. apply IH.
Qed.

Lemma substring_app s : forall p a b,
  String.substring p a s ++ String.substring (p + a) b s = String.substring p (a + b) s.
Proof.
  induction s as [|ch s IH]; intros p a b.
  - rewrite !substring_nil. reflexivity.
  - destruct p as [|p].
    + destruct a as [|a]; [reflexivity|].
      simpl. rewrite append_cons. f_equal. apply (IH 0).
    + simpl. apply IH.
Qed.

Lemma substring_all s n : String.length s <= n -> String.substring 0 n s = s.
Proof.
  revert n. induction s as [|ch s IH]; intros n Hn.
  - apply substring_nil.
  - destruct n as [|n]; simpl in *; [lia|]. f_equal. apply IH. lia.
Qed.

Lemma substring_length s : forall p n,
  String.length (String.substring p n s) = Nat.min n (String.length s - p).
Proof.
  induction s as [|ch s IH]; intros p n.
  - rewrite substring_nil. simpl. lia.
  - destruct p as [|p].
    + destruct n as [|n]; [reflexivity|]. simpl. rewrite (IH 0). lia.
    + simpl. apply IH.
Qed.

Lemma substring_min s : forall p n,
  String.substring p (Nat.min (String.length s - p) n) s = String.substring p n s.
Proof.
  induction s as [|ch s IH]; intros p n.
  - rewrite !substring_nil. reflexivity.
  - destruct p as [|p].
    + destruct n as [|n]; [rewrite Nat.min_0_r; reflexivity|].
      simpl. f_equal. specialize (IH 0 n). rewrite Nat.sub_0_r in IH. exact IH.
    + simpl. apply IH.
Qed.

Lemma concat_substrings s K : forall m k,
  Str.concat (map (fun i => Str.substr s (i * K) K) (seq k m))
  = String.substring (k * K) (m * K) s.
Proof.
  induction m as [|m IH]; intros k.
  - simpl. rewrite substring_zero. reflexivity.
  - simpl. rewrite IH. unfold Str.substr.
    replace (S k * K) with (k * K + K) by lia.
    apply substring_app.
Qed.

Lemma chunk_count_lt len i :
  i < (len + (kMaxSendPacketSize - 1)) / kMaxSendPacketSize <-> i * kMaxSendPacketSize < len.
Proof.
  unfold kMaxSendPacketSize.
  pose proof (Nat.div_mod_eq (len + (256 - 1)) 256) as Hdm.
  pose proof (Nat.mod_upper_bound (len + (256 - 1)) 256 ltac:(lia)) as Hlt.
  lia.
Qed.

Lemma length_chunks data :
  length (chunks data)
  = (String.length data + (kMaxSendPacketSize - 1)) / kMaxSendPacketSize.
Proof. unfold chunks. rewrite length_map, length_seq. reflexivity. Qed.

Lemma concat_chunks data : Str.concat (chunks data) = data.
Proof.
  unfold chunks. rewrite concat_substrings. simpl (0 * _).
  apply substring_all.
  pose proof (Nat.div_mod_eq (String.length data + (kMaxSendPacketSize - 1))
                kMaxSendPacketSize) as Hdm.
  pose proof (Nat.mod_upper_bound (String.length data + (kMaxSendPacketSize - 1))
                kMaxSendPacketSize ltac:(unfold kMaxSendPacketSize; lia)) as Hlt.
  unfold kMaxSendPacketSize in *. lia.
Qed.

Lemma lookup_chunks data i :
  i < length (chunks data) ->
  chunks data !! i = Some (Str.substr data (i * kMaxSendPacketSize) kMaxSendPacketSize).
Proof.
  intros Hi. unfold chunks in *. rewrite length_map, length_seq in Hi.
  rewrite list_lookup_fmap, lookup_seq_lt by assumption. reflexivity.
Qed.

Lemma chunk_sizes data :
  Forall (fun ch => 1 <= String.length ch <= kMaxSendPacketSize) (chunks data).
Proof.
  apply Forall_lookup_2. intros i ch Hch.
  assert (Hi : i < length (chunks data)) by (eapply lookup_lt_Some; eassumption).
  rewrite lookup_chunks in Hch by assumption. injection Hch as <-.
  rewrite length_chunks in Hi. apply chunk_count_lt in Hi.
  unfold Str.substr. rewrite substring_length. unfold kMaxSendPacketSize in *. lia.
Qed.

Lemma WriteToChannel_loop_eq dev chan data pos peer status c :
  WriteToChannel_loop dev chan data pos peer status c
  = if lt_dec pos (String.length data) then
      match put_chunk dev chan data pos (hd silent peer) status c with
      | inl r => r
      | inr c' =>
          WriteToChannel_loop dev chan data
            (pos + Nat.min (String.length data - pos) kMaxSendPacketSize)
            (tl peer) status c'
      end
    else (Some (true, status), c).
Proof.
  simp WriteToChannel_loop.
  destruct (lt_dec pos (String.length data)); simpl; [|reflexivity].
  destruct (put_chunk dev chan data pos (hd silent peer) status c); reflexivity.
Qed.

(** The request of the pass at the start of chunk [i]. *)
Lemma put_chunk_request dev chan data i :
  i * kMaxSendPacketSize < String.length data ->
  kCmdPutData ++ String dev (String chan
    (String (Str.char_of_size
               (Nat.min (String.length data - i * kMaxSendPacketSize) kMaxSendPacketSize))
       (Str.substr data (i * kMaxSendPacketSize)
          (Nat.min (String.length data - i * kMaxSendPacketSize) kMaxSendPacketSize))))
  = p_frame dev chan (Str.substr data (i * kMaxSendPacketSize) kMaxSendPacketSize).
Proof.
  intros Hi. unfold p_frame, Str.substr.
  rewrite substring_min, substring_length.
  rewrite (Nat.min_comm kMaxSendPacketSize). reflexivity.
Qed.

Lemma put_chunk_answers dev chan data i line status c :
  response_thread_ c = Running ->
  i * kMaxSendPacketSize < String.length data ->
  exists c',
    response_thread_ c' = Running
    /\ tx c' = (tx c ++ [p_frame dev chan
                           (Str.substr data (i * kMaxSendPacketSize) kMaxSendPacketSize)])%list
    /\ put_chunk dev chan data (i * kMaxSendPacketSize) (answers line) status c
       = if bool_decide (line = "") then inr c'
         else inl (Some (false, mkStatus IEC_CONNECTION_FAILURE line), c').
Proof.
  intros Hrun Hi. unfold put_chunk. cbv zeta.
  rewrite put_chunk_request by assumption.
  set (req := p_frame dev chan _).
  unfold WriteString, answers, future_get. simpl wr_err. simpl replies. cbv iota beta.
  rewrite ProcessResponses_cons by exact Hrun.
  rewrite status_frame_step by reflexivity.
  simpl ProcessResponses. cbv iota beta. simpl response_promise_.
  exists (set_last_response ""
            (set_promise (Resolved (last_response c, status_of_line line))
               (push_tx req (RequestResult c)))).
  split; [exact Hrun|]. split; [reflexivity|].
  unfold status_of_line, ok. simpl.
  destruct (bool_decide (line = "")); simpl; reflexivity.
Qed.

Lemma put_chunk_silent dev chan data i status rest c :
  i * kMaxSendPacketSize < String.length data ->
  exists c',
    tx c' = (tx c ++ [p_frame dev chan
                        (Str.substr data (i * kMaxSendPacketSize) kMaxSendPacketSize)])%list
    /\ put_chunk dev chan data (i * kMaxSendPacketSize) (hd silent (silent :: rest)) status c
       = inl (None, c').
Proof.
  intros Hi. unfold put_chunk. cbv zeta.
  rewrite put_chunk_request by assumption.
  eexists. split; [|reflexivity]. reflexivity.
Qed.

(** [k] chunks that are answered with an empty status line take the loop
    from the start of chunk [i] to the start of chunk [i + k]. *)
Lemma WriteToChannel_loop_ok_steps dev chan data status k : forall i rest c,
  response_thread_ c = Running ->
  i + k <= length (chunks data) ->
  exists c',
    response_thread_ c' = Running
    /\ tx c' = (tx c ++ map (p_frame dev chan) (take k (drop i (chunks data))))%list
    /\ WriteToChannel_loop dev chan data
         (Nat.min (i * kMaxSendPacketSize) (String.length data))
         (map answers (repeat "" k) ++ rest)%list status c
       = WriteToChannel_loop dev chan data
           (Nat.min ((i + k) * kMaxSendPacketSize) (String.length data)) rest status c'.
Proof.
  induction k as [|k IH]; intros i rest c Hrun Hik.
  - exists c. rewrite Nat.add_0_r, take_0. simpl. rewrite app_nil_r. auto.
  - assert (Hi : i < length (chunks data)) by lia.
    pose proof Hi as Hlt. rewrite length_chunks in Hlt. apply chunk_count_lt in Hlt.
    rewrite Nat.min_l by lia.
    rewrite WriteToChannel_loop_eq.
    destruct (lt_dec (i * kMaxSendPacketSize) (String.length data)) as [_|Hn]; [|lia].
    simpl hd. simpl tl.
    destruct (put_chunk_answers dev chan data i "" status c Hrun Hlt)
      as (c1 & Hrun1 & Htx1 & Hput).
    rewrite Hput. rewrite bool_decide_eq_true_2 by reflexivity.
    destruct (IH (S i) rest c1 Hrun1 ltac:(lia)) as (c' & Hrun' & Htx' & Hloop).
    exists c'. split; [exact Hrun'|]. split.
    + rewrite Htx', Htx1. rewrite (drop_S _ _ _ (lookup_chunks data i Hi)).
      rewrite firstn_cons. simpl. rewrite <- app_assoc. reflexivity.
    + replace (i * kMaxSendPacketSize
               + Nat.min (String.length data - i * kMaxSendPacketSize) kMaxSendPacketSize)
        with (Nat.min (S i * kMaxSendPacketSize) (String.length data)) by lia.
      rewrite Hloop. f_equal. f_equal. lia.
Qed.

(** C2.  For data that is not empty, on a connection whose reader is in its
    loop: the chunks of [data] are [ceil (size / 256)] strings of 1 to 256
    bytes whose concatenation is [data]; when every chunk is answered with an
    empty status line, [WriteToChannel] returns [true] after writing one [p]
    request per chunk, in order; when the chunk at [k] is the first one
    answered with a status that is not empty, it returns [false] with that
    status after writing the requests of the chunks up to [k] and no other;
    and while the status of the chunk at [k] does not arrive, the call does
    not return and no later chunk is written. *)
Theorem WriteToChannel_chunking (device_number channel : ascii) (data_string : string)
    (status : IECStatus) (c : IECBusConnection) :
  data_string <> "" ->
  response_thread_ c = Running ->
  let cs := chunks data_string in
  Str.concat cs = data_string
  /\ length cs = (String.length data_string + 255) / 256
  /\ Forall (fun ch => 1 <= String.length ch <= 256) cs
  /\ (forall rest,
        let res := WriteToChannel device_number channel data_string
                     (map answers (repeat "" (length cs)) ++ rest)%list status c in
        res.1 = Some (true, status)
        /\ tx res.2 = (tx c ++ map (p_frame device_number channel) cs)%list)
  /\ (forall k msg rest,
        k < length cs -> msg <> "" ->
        let res := WriteToChannel device_number channel data_string
                     (map answers (repeat "" k) ++ answers msg :: rest)%list status c in
        res.1 = Some (false, mkStatus IEC_CONNECTION_FAILURE msg)
        /\ tx res.2 = (tx c ++ map (p_frame device_number channel) (take (S k) cs))%list)
  /\ (forall k rest,
        k < length cs ->
        let res := WriteToChannel device_number channel data_string
                     (map answers (repeat "" k) ++ silent :: rest)%list status c in
        res.1 = None
        /\ tx res.2 = (tx c ++ map (p_frame device_number channel) (take (S k) cs))%list).
Proof.
  intros Hne Hrun cs. subst cs.
  split; [apply concat_chunks|].
  split; [apply length_chunks|].
  split; [apply chunk_sizes|].
  unfold WriteToChannel. rewrite bool_decide_eq_false_2 by assumption.
  change 0 with (Nat.min (0 * kMaxSendPacketSize) (String.length data_string)).
  split; [|split].
  - intros rest.
    destruct (WriteToChannel_loop_ok_steps device_number channel data_string status
                (length (chunks data_string)) 0 rest c Hrun ltac:(lia))
      as (c' & Hrun' & Htx' & Hloop).
    rewrite Hloop, WriteToChannel_loop_eq.
    assert (Hend : ~ length (chunks data_string) * kMaxSendPacketSize
                     < String.length data_string).
    { intros H. apply chunk_count_lt in H. rewrite length_chunks in H. lia. }
    destruct (lt_dec _ _) as [Hlt|_]; [simpl in Hlt; lia|].
    simpl. rewrite Htx', drop_0, firstn_all. auto.
  - intros k msg rest Hk Hmsg.
    destruct (WriteToChannel_loop_ok_steps device_number channel data_string status
                k 0 (answers msg :: rest) c Hrun ltac:(lia))
      as (c' & Hrun' & Htx' & Hloop).
    rewrite Hloop, WriteToChannel_loop_eq. simpl (0 + k).
    pose proof Hk as Hlt. rewrite length_chunks in Hlt. apply chunk_count_lt in Hlt.
    rewrite Nat.min_l by lia.
    destruct (lt_dec _ _) as [_|Hn]; [|lia].
    simpl hd.
    destruct (put_chunk_answers device_number channel data_string k msg status c' Hrun' Hlt)
      as (c1 & Hrun1 & Htx1 & Hput).
    rewrite Hput. rewrite bool_decide_eq_false_2 by assumption. simpl.
    split; [reflexivity|].
    rewrite Htx1, Htx', drop_0. rewrite (take_S_r _ _ _ (lookup_chunks data_string k Hk)).
    rewrite map_app, <- app_assoc. reflexivity.
  - intros k rest Hk.
    destruct (WriteToChannel_loop_ok_steps device_number channel data_string status
                k 0 (silent :: rest) c Hrun ltac:(lia))
      as (c' & Hrun' & Htx' & Hloop).
    rewrite Hloop, WriteToChannel_loop_eq. simpl (0 + k).
    pose proof Hk as Hlt. rewrite length_chunks in Hlt. apply chunk_count_lt in Hlt.
    rewrite Nat.min_l by lia.
    destruct (lt_dec _ _) as [_|Hn]; [|lia].
    destruct (put_chunk_silent device_number channel data_string k status rest c' Hlt)
      as (c1 & Htx1 & Hput).
    rewrite Hput. simpl.
    split; [reflexivity|].
    rewrite Htx1, Htx', drop_0. rewrite (take_S_r _ _ _ (lookup_chunks data_string k Hk)).
    rewrite map_app, <- app_assoc. reflexivity.
Qed.

(** C10.  With an empty string [WriteToChannel] returns [true] at once: the
    status is the caller's, the connection is the one it was given, so
    nothing was written, no promise installed and the reader's state is
    untouched, whatever the line would do. *)
Theorem WriteToChannel_empty (device_number channel : ascii) (peer : list exchange)
    (status : IECStatus) (c : IECBusConnection) :
  WriteToChannel device_number channel "" peer status c = (Some (true, status), c).
Proof. reflexivity. Qed.

(** *** Initialize *)

Lemma read_banner_garbage garbage : forall tries i cs w w' status c,
  reads_lines w garbage w' ->
  Forall (fun l => Str.starts_with kConnectionStringPrefix l = false) garbage ->
  i + length garbage <= kNumRetries - 1 ->
  exists cs',
    read_banner (length garbage + tries) i cs w status c
    = read_banner tries (i + length garbage) cs' w' status (warn_malformed garbage c).
Proof.
  induction garbage as [|l garbage IH]; intros tries i cs w w' status c Hreads Hlack Hi.
  - inversion Hreads; subst. exists cs. simpl. rewrite Nat.add_0_r. reflexivity.
  - inversion Hreads as [|? ? w1 ? ? Hread Hrest]; subst.
    apply Forall_cons in Hlack as [Hl Hlack]. simpl length in *.
    cbn [Nat.add read_banner]. rewrite Hread.
    unfold Str.starts_with in Hl. rewrite Hl.
    destruct (kNumRetries - 1 <=? i) eqn:Hlast; [apply Nat.leb_le in Hlast; lia|].
    destruct (IH tries (S i) l w1 w' status
                (log_callback_ "W" "CLIENT"
                   ("Malformed connection string '" ++ l ++ "'") c) Hrest Hlack)
      as [cs' Heq]; [lia|].
    exists cs'. rewrite Heq. f_equal. lia.
Qed.

Lemma Initialize_after_banner garbage banner w w' wr local_time status c :
  reads_lines w (garbage ++ [banner]) w' ->
  length garbage < kNumRetries ->
  Forall (fun l => Str.starts_with kConnectionStringPrefix l = false) garbage ->
  Str.starts_with kConnectionStringPrefix banner = true ->
  Initialize w wr local_time status c
  = check_version banner w' wr local_time status (warn_malformed garbage c).
Proof.
  intros Hreads Hlen Hlack Hpre.
  assert (Hsplit : exists w1, reads_lines w garbage w1
                              /\ ReadTerminatedString CR kMaxLength w1 = (IoOk banner, w')).
  { clear Hlen Hlack. revert w Hreads.
    induction garbage as [|l garbage IH]; intros w Hreads.
    - inversion Hreads as [|? ? ? ? ? Hread Hrest]; subst.
      inversion Hrest; subst. exists w. split; [constructor | assumption].
    - inversion Hreads as [|? ? w0 ? ? Hread Hrest]; subst.
      destruct (IH _ Hrest) as (w1 & Hg & Hb).
      exists w1. split; [econstructor; eassumption | assumption]. }
  destruct Hsplit as (w1 & Hg & Hb).
  unfold Initialize.
  replace kNumRetries with (length garbage + S (kNumRetries - S (length garbage))) at 1
    by lia.
  destruct (read_banner_garbage garbage (S (kNumRetries - S (length garbage))) 0 ""
              w w1 status c Hg Hlack) as [cs' Heq]; [lia|].
  rewrite Heq. cbn [read_banner]. rewrite Hb.
  unfold Str.starts_with in Hpre. rewrite Hpre. reflexivity.
Qed.

Lemma Initialize_all_garbage lines w w' wr local_time status c :
  reads_lines w lines w' ->
  length lines = kNumRetries ->
  Forall (fun l => Str.starts_with kConnectionStringPrefix l = false) lines ->
  exists st c',
    Initialize w wr local_time status c = (false, st, w', c')
    /\ status_code st = CONNECTION_FAILURE.
Proof.
  intros Hreads Hlen Hlack.
  destruct (exists_last (l := lines)) as (garbage & l & ->);
    [intros ->; discriminate|].
  rewrite length_app in Hlen. simpl in Hlen.
  apply Forall_app in Hlack as [Hlack Hl]. apply Forall_inv in Hl.
  assert (Hsplit : exists w1, reads_lines w garbage w1
                              /\ ReadTerminatedString CR kMaxLength w1 = (IoOk l, w')).
  { clear Hlen Hlack. revert w Hreads.
    induction garbage as [|l0 garbage IH]; intros w Hreads.
    - inversion Hreads as [|? ? ? ? ? Hread Hrest]; subst.
      inversion Hrest; subst. exists w. split; [constructor | assumption].
    - inversion Hreads as [|? ? w0 ? ? Hread Hrest]; subst.
      destruct (IH _ Hrest) as (w1 & Hg & Hb).
      exists w1. split; [econstructor; eassumption | assumption]. }
  destruct Hsplit as (w1 & Hg & Hb).
  unfold Initialize.
  rewrite <- Hlen.
  destruct (read_banner_garbage garbage 1 0 "" w w1 status c Hg Hlack) as [cs' Heq];
    [lia|].
  rewrite Heq. cbn [read_banner]. rewrite Hb.
  unfold Str.starts_with in Hl. rewrite Hl.
  destruct (kNumRetries - 1 <=? 0 + length garbage) eqn:Hlast;
    [|apply Nat.leb_gt in Hlast; lia].
  eexists _, _. split; reflexivity.
Qed.

Lemma to_int_small n : (- 2 ^ 31 <= n < 2 ^ 31)%Z -> Scanf.to_int n = n.
Proof.
  intros Hn. unfold Scanf.to_int, Scanf.to_long.
  rewrite Z.min_r, Z.max_r by lia. rewrite Z.mod_small by lia. lia.
Qed.

(** C4.  [Initialize] reads lines with [ReadTerminatedString('\r', 513)], at
    most five of them.  When fewer than five lines without the prefix
    [connect_arduino:] are followed by a line that starts with it and
    carries a version of at least 3, [Initialize] succeeds (the write of the
    configuration line going through): it returns [true], has logged a
    warning for each line before the banner, has written the configuration
    line and started the reader.  When five lines in a row lack the prefix,
    it returns [false] with a status of kind [CONNECTION_FAILURE]. *)
Theorem Initialize_banner_retry :
  kMaxLength = 513 /\ kNumRetries = 5
  /\ (forall garbage banner n w w' local_time status c,
        reads_lines w (garbage ++ [banner]) w' ->
        length garbage < 5 ->
        Forall (fun l => Str.starts_with "connect_arduino:" l = false) garbage ->
        Str.starts_with "connect_arduino:" banner = true ->
        Scanf.sscanf_i (Str.substr_from banner 16) = Some n ->
        (3 <= n < 2 ^ 31)%Z ->
        Initialize w None local_time status c
        = (true, status, w',
           set_thread Running
             (push_tx (config_string local_time) (warn_malformed garbage c))))
  /\ (forall lines w w' wr local_time status c,
        reads_lines w lines w' ->
        length lines = 5 ->
        Forall (fun l => Str.starts_with "connect_arduino:" l = false) lines ->
        exists st c',
          Initialize w wr local_time status c = (false, st, w', c')
          /\ status_code st = CONNECTION_FAILURE).
Proof.
  split; [reflexivity|]. split; [reflexivity|]. split.
  - intros garbage banner n w w' local_time status c Hreads Hlen Hlack Hpre Hscan Hn.
    rewrite (Initialize_after_banner garbage banner w w') by assumption.
    unfold check_version. change (String.length kConnectionStringPrefix) with 16.
    rewrite Hscan, to_int_small by lia.
    destruct (n <? kMinProtocolVersion)%Z eqn:Hlt;
      [apply Z.ltb_lt in Hlt; unfold kMinProtocolVersion in Hlt; lia|].
    reflexivity.
  - intros lines w w' wr local_time status c Hreads Hlen Hlack.
    eapply Initialize_all_garbage; eassumption.
Qed.

(** C5.  Once a line with the prefix has been read, [Initialize] scans what
    follows the prefix with [%i].  When nothing scans, or when the version
    scanned is below 3, it returns [false] with a status of kind
    [CONNECTION_FAILURE]; a version of 3 or more is accepted, and
    [Initialize] returns [true] when the configuration line is written.  The
    version is one an [int] holds. *)
Theorem Initialize_protocol_version garbage banner w w' wr local_time status c :
  reads_lines w (garbage ++ [banner]) w' ->
  length garbage < 5 ->
  Forall (fun l => Str.starts_with "connect_arduino:" l = false) garbage ->
  Str.starts_with "connect_arduino:" banner = true ->
  let version := Scanf.sscanf_i (Str.substr_from banner 16) in
  (version = None ->
   exists st c',
     Initialize w wr local_time status c = (false, st, w', c')
     /\ status_code st = CONNECTION_FAILURE)
  /\ (forall n, version = Some n -> (- 2 ^ 31 <= n < 3)%Z ->
      exists st c',
        Initialize w wr local_time status c = (false, st, w', c')
        /\ status_code st = CONNECTION_FAILURE)
  /\ (forall n, version = Some n -> (3 <= n < 2 ^ 31)%Z -> wr = None ->
      exists c',
        Initialize w wr local_time status c = (true, status, w', c')
        /\ response_thread_ c' = Running).
Proof.
  intros Hreads Hlen Hlack Hpre version. subst version.
  rewrite (Initialize_after_banner garbage banner w w') by assumption.
  unfold check_version. change (String.length kConnectionStringPrefix) with 16.
  split; [|split].
  - intros ->. eexists _, _. split; reflexivity.
  - intros n -> Hn. rewrite to_int_small by lia.
    destruct (n <? kMinProtocolVersion)%Z eqn:Hlt;
      [|apply Z.ltb_ge in Hlt; unfold kMinProtocolVersion in Hlt; lia].
    eexists _, _. split; reflexivity.
  - intros n -> Hn ->. rewrite to_int_small by lia.
    destruct (n <? kMinProtocolVersion)%Z eqn:Hlt;
      [apply Z.ltb_lt in Hlt; unfold kMinProtocolVersion in Hlt; lia|].
    eexists. split; reflexivity.
Qed.

(** ** Further properties of the host transport *)

(** *** What the reader leaves alone *)

Lemma ProcessResponses_step_appends ev c :
  exists l, logged (ProcessResponses_step ev c) = (logged c ++ l)%list.
Proof.
  step_cases;
    first [ by (eexists; reflexivity)
          | by (exists []; rewrite app_nil_r) ].
Qed.

Lemma ProcessResponses_step_declared ev c id :
  is_Some (debug_channel_map_ c !! id) ->
  is_Some (debug_channel_map_ (ProcessResponses_step ev c) !! id).
Proof.
  intros Hid. step_cases; try assumption.
  rewrite lookup_insert. destruct (decide (Str.at_ _ 0 = id)); [eexists; reflexivity | assumption].
Qed.

(** X1.  The reader writes nothing to the tty, only ever adds to what the log
    callback has been given, and never drops a channel from the map. *)
Theorem reader_keeps_tty_log_and_channels (evs : list rd_event) (c : IECBusConnection) :
  tx (ProcessResponses evs c) = tx c
  /\ (exists l, logged (ProcessResponses evs c) = (logged c ++ l)%list)
  /\ (forall id, is_Some (debug_channel_map_ c !! id) ->
                 is_Some (debug_channel_map_ (ProcessResponses evs c) !! id)).
Proof.
  split; [apply ProcessResponses_tx|].
  revert c. induction evs as [|ev evs IH]; intros c.
  - split; [exists []; simpl; rewrite app_nil_r; reflexivity | auto].
  - simpl. destruct (response_thread_ c);
      try (split; [exists []; rewrite app_nil_r; reflexivity | auto]).
    destruct (IH (ProcessResponses_step ev c)) as [[l Hl] Hm].
    destruct (ProcessResponses_step_appends ev c) as [l0 Hl0].
    split.
    + exists (l0 ++ l)%list. rewrite Hl, Hl0, app_assoc. reflexivity.
    + intros id Hid. apply Hm, ProcessResponses_step_declared, Hid.
Qed.

(** *** Channel declarations and log lines *)

Lemma substr_from_tail ch s : Str.substr_from (String ch s) 1 = s.
Proof.
  unfold Str.substr_from. simpl. rewrite Nat.sub_0_r. apply substring_all. lia.
Qed.

Lemma length_nonempty s : s <> "" -> 1 <= String.length s.
Proof. destruct s; [congruence | simpl; lia]. Qed.

Lemma declare_step c id name :
  name <> "" ->
  ProcessResponses_step (EvFrame "!" (IoOk (String id name))) c
  = set_debug_channel id name c.
Proof.
  intros Hname. apply length_nonempty in Hname.
  unfold ProcessResponses_step. simpl decide. cbv iota.
  destruct (String.length (String id name) <? 2) eqn:Hlt;
    [apply Nat.ltb_lt in Hlt; simpl in Hlt; lia|].
  rewrite substr_from_tail. reflexivity.
Qed.

Lemma debug_step c level id text name :
  text <> "" ->
  debug_channel_map_ c !! id = Some name ->
  ProcessResponses_step (EvFrame "D" (IoOk (String level (String id text)))) c
  = log_callback_ level name text c.
Proof.
  intros Htext Hid. apply length_nonempty in Htext.
  unfold ProcessResponses_step. simpl decide. cbv iota.
  destruct (String.length (String level (String id text)) <? 3) eqn:Hlt;
    [apply Nat.ltb_lt in Hlt; simpl in Hlt; lia|].
  change (Str.at_ (String level (String id text)) 1) with id.
  change (Str.at_ (String level (String id text)) 0) with level.
  rewrite Hid. rewrite bool_decide_eq_false_2 by discriminate.
  simpl orb. cbv iota. simpl default.
  replace (Str.substr_from (String level (String id text)) 2) with text; [reflexivity|].
  unfold Str.substr_from. simpl. rewrite Nat.sub_0_r. symmetry. apply substring_all. lia.
Qed.

(** X4.  A channel that a [!] frame has declared gives its name to the log lines
    of the [D] frames on its id: the callback gets the level byte, the
    declared name and the text.  A later declaration of the same id replaces
    the name. *)
Theorem declared_channel_names_log_lines (c : IECBusConnection) (id level : ascii)
    (name name' text : string) :
  response_thread_ c = Running ->
  name <> "" -> name' <> "" -> text <> "" ->
  let declare1 := EvFrame "!" (IoOk (String id name)) in
  let declare2 := EvFrame "!" (IoOk (String id name')) in
  let line := EvFrame "D" (IoOk (String level (String id text))) in
  logged (ProcessResponses [declare1; line] c)
  = (logged c ++ [mkLog level name text])%list
  /\ logged (ProcessResponses [declare1; declare2; line] c)
     = (logged c ++ [mkLog level name' text])%list
  /\ response_thread_ (ProcessResponses [declare1; declare2; line] c) = Running
  /\ response_promise_ (ProcessResponses [declare1; declare2; line] c)
     = response_promise_ c.
Proof.
  intros Hrun Hname Hname' Htext declare1 declare2 line. subst declare1 declare2 line.
  repeat (rewrite ProcessResponses_cons by (simpl; assumption);
          first [ rewrite declare_step by assumption
                | erewrite debug_step by (try assumption; apply lookup_insert_eq) ]).
  simpl. auto.
Qed.

(** X5.  A [!] line of fewer than two bytes, and a [D] line of fewer than three,
    end the reader: a channel cannot be declared with an empty name, and a
    log line with an empty text stops the reader even on a declared channel.
    Neither touches the channel map or the promise. *)
Theorem short_log_lines_end_reader (c : IECBusConnection) (l : string)
    (later : list rd_event) :
  response_thread_ c = Running ->
  (String.length l < 2 ->
   let c' := ProcessResponses (EvFrame "!" (IoOk l) :: later) c in
   response_thread_ c' = Exited
   /\ debug_channel_map_ c' = debug_channel_map_ c
   /\ response_promise_ c' = response_promise_ c)
  /\ (String.length l < 3 ->
      let c' := ProcessResponses (EvFrame "D" (IoOk l) :: later) c in
      response_thread_ c' = Exited
      /\ debug_channel_map_ c' = debug_channel_map_ c
      /\ response_promise_ c' = response_promise_ c
      /\ logged c'
         = (logged c
            ++ [mkLog "E" "CLIENT"
                  ("Malformed debug message '" ++ GetPrintableString l ++ "'")%string])%list).
Proof.
  intros Hrun. split; intros Hl c'; subst c';
    rewrite ProcessResponses_cons by assumption;
    apply Nat.ltb_lt in Hl;
    unfold ProcessResponses_step; simpl decide; cbv iota; rewrite Hl; simpl orb; cbv iota;
    (rewrite ProcessResponses_stopped by (simpl; discriminate)); simpl; auto.
Qed.

(** X6.  A second [s] frame for one request finds the promise fulfilled:
    [set_value] throws, the thread is brought down, and the value of the
    first frame stays in the promise. *)
Theorem second_status_frame_aborts (c : IECBusConnection) (line1 line2 : string)
    (later : list rd_event) :
  response_thread_ c = Running ->
  response_promise_ c = Pending ->
  let c' := ProcessResponses
              (EvFrame "s" (IoOk line1) :: EvFrame "s" (IoOk line2) :: later) c in
  response_thread_ c' = Aborted
  /\ response_promise_ c' = Resolved (last_response c, status_of_line line1)
  /\ logged c' = logged c.
Proof.
  intros Hrun Hp c'. subst c'.
  rewrite ProcessResponses_cons by assumption.
  rewrite status_frame_step by assumption.
  set (c1 := set_last_response "" (set_promise _ c)).
  rewrite ProcessResponses_cons by (simpl; assumption).
  assert (Hstep : ProcessResponses_step (EvFrame "s" (IoOk line2)) c1
                  = set_thread Aborted c1) by reflexivity.
  rewrite Hstep, ProcessResponses_stopped by (simpl; discriminate).
  simpl. auto.
Qed.

(** *** The channel API over the reader *)

(** The reader never looks at what was written. *)
Lemma ProcessResponses_step_push_tx ev s c :
  ProcessResponses_step ev (push_tx s c) = push_tx s (ProcessResponses_step ev c).
Proof.
  unfold ProcessResponses_step, log_and_return, set_value. simpl.
  repeat case_match; simplify_eq/=; reflexivity.
Qed.

Lemma ProcessResponses_push_tx evs s c :
  ProcessResponses evs (push_tx s c) = push_tx s (ProcessResponses evs c).
Proof.
  revert c. induction evs as [|ev evs IH]; intros c; [reflexivity|].
  simpl. destruct (response_thread_ c); try reflexivity.
  rewrite ProcessResponses_step_push_tx. apply IH.
Qed.

(** A value in the promise stays there until the next [RequestResult]. *)
Lemma ProcessResponses_step_resolved ev c r :
  response_promise_ c = Resolved r ->
  response_promise_ (ProcessResponses_step ev c) = Resolved r.
Proof. intros Hr. step_cases; congruence. Qed.

Lemma ProcessResponses_resolved evs c r :
  response_promise_ c = Resolved r ->
  response_promise_ (ProcessResponses evs c) = Resolved r.
Proof.
  revert c. induction evs as [|ev evs IH]; intros c Hr; [exact Hr|].
  simpl. destruct (response_thread_ c); try exact Hr.
  apply IH, ProcessResponses_step_resolved, Hr.
Qed.

(** Short of an [s] frame, the reader never looks at the promise. *)
Lemma ProcessResponses_step_set_promise ev p c :
  is_frame "s" ev = false ->
  ProcessResponses_step ev (set_promise p c) = set_promise p (ProcessResponses_step ev c).
Proof.
  intros Hs. destruct ev as [| |tag line]; try reflexivity.
  simpl in Hs. apply bool_decide_eq_false in Hs.
  unfold ProcessResponses_step, log_and_return. simpl.
  repeat case_match; simplify_eq/=; reflexivity.
Qed.

Lemma ProcessResponses_set_promise evs p c :
  no_frame "s" evs = true ->
  ProcessResponses evs (set_promise p c) = set_promise p (ProcessResponses evs c).
Proof.
  revert c. induction evs as [|ev evs IH]; intros c Hs; [reflexivity|].
  unfold no_frame in Hs. simpl in Hs. apply andb_true_iff in Hs as [Hev Hs].
  apply negb_true_iff in Hev.
  simpl. destruct (response_thread_ c); try reflexivity.
  rewrite ProcessResponses_step_set_promise by assumption. apply IH, Hs.
Qed.

(** Only a second [s] frame brings the thread down. *)
Lemma ProcessResponses_step_no_abort ev c :
  is_frame "s" ev = false ->
  response_thread_ c <> Aborted ->
  response_thread_ (ProcessResponses_step ev c) <> Aborted.
Proof.
  intros Hs Hc. destruct ev as [| |tag line]; try discriminate.
  simpl in Hs. apply bool_decide_eq_false in Hs.
  step_cases; congruence.
Qed.

Lemma ProcessResponses_no_abort evs c :
  no_frame "s" evs = true ->
  response_thread_ c <> Aborted ->
  response_thread_ (ProcessResponses evs c) <> Aborted.
Proof.
  revert c. induction evs as [|ev evs IH]; intros c Hs Hc; [exact Hc|].
  unfold no_frame in Hs. simpl in Hs. apply andb_true_iff in Hs as [Hev Hs].
  apply negb_true_iff in Hev.
  simpl. destruct (response_thread_ c) eqn:Hth; try (rewrite Hth; discriminate).
  - apply IH; [exact Hs|].
    apply ProcessResponses_step_no_abort; [exact Hev | rewrite Hth; discriminate].
  - contradiction.
Qed.

(** What [f.get()] gives for a request whose status frame the reader lives to
    see, when no second [s] frame follows before the caller goes on: the
    value of the status frame, with the thread not brought down. *)
Lemma future_get_window evs line later req c :
  no_frame "s" evs = true ->
  response_thread_ (ProcessResponses evs c) = Running ->
  no_frame "s" later = true ->
  let res := future_get (evs ++ EvFrame "s" (IoOk line) :: later)
               (push_tx req (RequestResult c)) in
  res.1 = Some (last_payload evs (last_response c), status_of_line line)
  /\ tx res.2 = (tx c ++ [req])%list
  /\ response_thread_ res.2 <> Aborted.
Proof.
  intros Hs Hrun Hlater res. subst res. unfold future_get. cbn [fst snd].
  rewrite ProcessResponses_tx. split; [|split; [reflexivity|]];
    rewrite ProcessResponses_push_tx; cbn [response_promise_ response_thread_ push_tx];
    rewrite ProcessResponses_app.
  all: assert (Hagree : response_thread_ (ProcessResponses evs (RequestResult c)) = Running
                   /\ last_response (ProcessResponses evs (RequestResult c))
                      = last_payload evs (last_response c)
                   /\ response_promise_ (ProcessResponses evs (RequestResult c)) = Pending)
    by (unfold RequestResult; rewrite ProcessResponses_set_promise by assumption;
        cbn [response_thread_ last_response response_promise_ set_promise];
        split; [exact Hrun|]; split; [|reflexivity];
        apply ProcessResponses_window; assumption).
  all: destruct Hagree as (Hrun' & Hl & Hp).
  all: rewrite ProcessResponses_cons by assumption.
  all: rewrite status_frame_step by assumption.
  - erewrite ProcessResponses_resolved by reflexivity.
    rewrite Hl. reflexivity.
  - apply ProcessResponses_no_abort; [exact Hlater|].
    cbn [response_thread_ set_last_response set_promise]. rewrite Hrun'. discriminate.
Qed.

(** X7.  [ReadFromChannel] writes [g], the device and the channel and waits for
    the status frame.  When the status line is empty it returns [true] with
    the unescaped payload of the last [r] frame the reader met before it (what
    the reader had kept from before the request when there was none) and
    leaves the status alone; otherwise it returns [false] with the line as an
    [IEC_CONNECTION_FAILURE] and leaves [*result] alone.  This holds when no
    second [s] frame arrives before the call returns; what else arrives after
    the status frame makes no difference, and the thread is not brought
    down. *)
Theorem ReadFromChannel_returns_last_data (device_number channel : ascii)
    (evs later : list rd_event) (line result : string) (status : IECStatus)
    (c : IECBusConnection) :
  no_frame "s" evs = true ->
  response_thread_ (ProcessResponses evs c) = Running ->
  no_frame "s" later = true ->
  let res := ReadFromChannel device_number channel
               (mkExchange None (evs ++ EvFrame "s" (IoOk line) :: later))
               result status c in
  tx res.2 = (tx c ++ [String "g" (String device_number (String channel ""))])%list
  /\ res.1 = (if bool_decide (line = "")
              then Some (true, last_payload evs (last_response c), status)
              else Some (false, result, mkStatus IEC_CONNECTION_FAILURE line))
  /\ response_thread_ res.2 <> Aborted.
Proof.
  intros Hs Hrun Hlater res. subst res. unfold ReadFromChannel, WriteString.
  cbn [wr_err replies]. cbv zeta.
  change (RequestResult (push_tx ?r c)) with (push_tx r (RequestResult c)).
  pose proof (future_get_window evs line later
                (kCmdGetData ++ String device_number (String channel "")) c Hs Hrun Hlater)
    as Hfg. cbv zeta in Hfg.
  change (push_tx (kCmdGetData ++ String device_number (String channel ""))
            (RequestResult c))
    with (RequestResult (push_tx (kCmdGetData ++ String device_number
                                    (String channel "")) c)) in Hfg.
  unfold RequestResult in *.
  destruct (future_get _ _) as [r c'] eqn:Heq. cbn [fst snd] in Hfg.
  destruct Hfg as (-> & Htx & Halive). cbn [fst snd].
  unfold status_of_line, ok.
  destruct (bool_decide (line = "")); simpl; auto.
Qed.

(** X8.  [Reset], [OpenChannel] and [CloseChannel] write their request and
    return [true], with the caller's status untouched, exactly when the line
    of the status frame is empty; otherwise they return [false] with the line
    as an [IEC_CONNECTION_FAILURE].  This holds when no second [s] frame
    arrives before the call returns ([Reset] sleeps two seconds before it
    looks): data frames before the status frame and what else arrives after
    it make no difference, and the thread is not brought down. *)
Theorem commands_follow_status_line (device_number channel : ascii) (cmd_string : string)
    (evs later : list rd_event) (line : string) (status : IECStatus)
    (c : IECBusConnection) :
  no_frame "s" evs = true ->
  response_thread_ (ProcessResponses evs c) = Running ->
  no_frame "s" later = true ->
  let ex := mkExchange None (evs ++ EvFrame "s" (IoOk line) :: later) in
  let verdict := if bool_decide (line = "") then Some (true, status)
                 else Some (false, mkStatus IEC_CONNECTION_FAILURE line) in
  ((Reset ex status c).1 = verdict
   /\ tx (Reset ex status c).2 = (tx c ++ ["r"])%list
   /\ response_thread_ (Reset ex status c).2 <> Aborted)
  /\ ((OpenChannel device_number channel cmd_string ex status c).1 = verdict
      /\ response_thread_ (OpenChannel device_number channel cmd_string ex status c).2
         <> Aborted)
  /\ ((CloseChannel device_number channel ex status c).1 = verdict
      /\ tx (CloseChannel device_number channel ex status c).2
         = (tx c ++ [String "c" (String device_number (String channel ""))])%list
      /\ response_thread_ (CloseChannel device_number channel ex status c).2 <> Aborted).
Proof.
  intros Hs Hrun Hlater ex verdict. subst ex verdict.
  assert (Hcall : forall req,
             let res := match future_get (evs ++ EvFrame "s" (IoOk line) :: later)
                                (push_tx req (RequestResult c)) with
                        | (None, c0) => (None, c0)
                        | (Some r, c0) =>
                            if ok r.2 then (Some (true, status), c0)
                            else (Some (false, r.2), c0)
                        end in
             res.1 = (if bool_decide (line = "") then Some (true, status)
                      else Some (false, mkStatus IEC_CONNECTION_FAILURE line))
             /\ tx res.2 = (tx c ++ [req])%list
             /\ response_thread_ res.2 <> Aborted).
  { intros req.
    pose proof (future_get_window evs line later req c Hs Hrun Hlater) as Hfg.
    cbv zeta in Hfg |- *.
    destruct (future_get _ _) as [r c']. cbn [fst snd] in Hfg.
    destruct Hfg as (-> & Htx & Halive).
    unfold status_of_line, ok. destruct (bool_decide (line = "")); simpl; auto. }
  unfold Reset, OpenChannel, CloseChannel, WriteString. cbn [wr_err replies]. cbv zeta.
  change (RequestResult (push_tx ?r c)) with (push_tx r (RequestResult c)).
  unfold RequestResult in *.
  split; [apply (Hcall kCmdReset)|]. split.
  - split; [apply Hcall | apply Hcall].
  - apply (Hcall (kCmdClose ++ String device_number (String channel ""))).
Qed.

(** X9.  On a connection whose reader is not inside its loop (it has exited, was
    brought down, or was never started) every request is written and then
    waited for without end: nothing fulfils the promise, whatever arrives. *)
Theorem requests_on_stopped_reader_never_return (device_number channel : ascii)
    (cmd_string data_string result : string) (evs : list rd_event)
    (peer : list exchange) (status : IECStatus) (c : IECBusConnection) :
  response_thread_ c <> Running ->
  data_string <> "" ->
  let ex := mkExchange None evs in
  (Reset ex status c).1 = None
  /\ (OpenChannel device_number channel cmd_string ex status c).1 = None
  /\ (ReadFromChannel device_number channel ex result status c).1 = None
  /\ (CloseChannel device_number channel ex status c).1 = None
  /\ (WriteToChannel device_number channel data_string (ex :: peer) status c).1 = None
  /\ length (tx (WriteToChannel device_number channel data_string (ex :: peer) status c).2)
     = S (length (tx c)).
Proof.
  intros Hstop Hne ex. subst ex.
  assert (Hfg : forall req,
             future_get evs (push_tx req (RequestResult c))
             = (None, push_tx req (RequestResult c))).
  { intros req. unfold future_get.
    rewrite ProcessResponses_stopped by (simpl; exact Hstop). reflexivity. }
  unfold Reset, OpenChannel, ReadFromChannel, CloseChannel, WriteString.
  cbn [wr_err replies]. cbv zeta.
  change (RequestResult (push_tx ?r c)) with (push_tx r (RequestResult c)).
  unfold RequestResult in *. rewrite !Hfg.
  do 4 (split; [reflexivity|]).
  unfold WriteToChannel. rewrite bool_decide_eq_false_2 by assumption.
  rewrite WriteToChannel_loop_eq.
  destruct (lt_dec 0 (String.length data_string)) as [_|Hn];
    [|apply length_nonempty in Hne; lia].
  unfold put_chunk, WriteString. cbn [hd wr_err replies]. cbv zeta.
  change (RequestResult (push_tx ?r c)) with (push_tx r (RequestResult c)).
  unfold RequestResult. rewrite Hfg. cbn [fst snd].
  split; [reflexivity|]. simpl. rewrite length_app. simpl. lia.
Qed.

(** X10.  When the write of the request fails, every request function returns
    [false] with the status of the write at once: nothing is written, the
    reader is not waited for, [*result] is left alone, and the promise that
    [RequestResult] installed stays behind, pending. *)
Theorem failed_write_fails_request (device_number channel : ascii)
    (cmd_string data_string result : string) (evs : list rd_event)
    (peer : list exchange) (e status : IECStatus) (c : IECBusConnection) :
  data_string <> "" ->
  let ex := mkExchange (Some e) evs in
  Reset ex status c = (Some (false, e), set_promise Pending c)
  /\ OpenChannel device_number channel cmd_string ex status c
     = (Some (false, e), set_promise Pending c)
  /\ ReadFromChannel device_number channel ex result status c
     = (Some (false, result, e), set_promise Pending c)
  /\ CloseChannel device_number channel ex status c
     = (Some (false, e), set_promise Pending c)
  /\ WriteToChannel device_number channel data_string (ex :: peer) status c
     = (Some (false, e), set_promise Pending c).
Proof.
  intros Hne ex. subst ex. do 4 (split; [reflexivity|]).
  unfold WriteToChannel. rewrite bool_decide_eq_false_2 by assumption.
  rewrite WriteToChannel_loop_eq.
  destruct (lt_dec 0 (String.length data_string)) as [_|Hn];
    [|apply length_nonempty in Hne; lia].
  reflexivity.
Qed.

(** X11.  When the write of the chunk at [k] fails, after [k] chunks that went
    well, [WriteToChannel] returns [false] with the status of the write: [k]
    requests are on the wire and the rest of the data is not sent. *)
Theorem WriteToChannel_failed_write (device_number channel : ascii) (data_string : string)
    (k : nat) (evs : list rd_event) (rest : list exchange) (e status : IECStatus)
    (c : IECBusConnection) :
  response_thread_ c = Running ->
  k < length (chunks data_string) ->
  let res := WriteToChannel device_number channel data_string
               (map answers (repeat "" k) ++ mkExchange (Some e) evs :: rest)%list
               status c in
  res.1 = Some (false, e)
  /\ tx res.2 = (tx c ++ map (p_frame device_number channel)
                          (take k (chunks data_string)))%list.
Proof.
  intros Hrun Hk res. subst res.
  assert (Hne : data_string <> "").
  { intros ->. simpl in Hk. lia. }
  unfold WriteToChannel. rewrite bool_decide_eq_false_2 by assumption.
  change 0 with (Nat.min (0 * kMaxSendPacketSize) (String.length data_string)).
  destruct (WriteToChannel_loop_ok_steps device_number channel data_string status
              k 0 (mkExchange (Some e) evs :: rest) c Hrun ltac:(lia))
    as (c' & Hrun' & Htx' & Hloop).
  rewrite Hloop, WriteToChannel_loop_eq. simpl (0 + k).
  pose proof Hk as Hlt. rewrite length_chunks in Hlt. apply chunk_count_lt in Hlt.
  rewrite Nat.min_l by lia.
  destruct (lt_dec _ _) as [_|Hn]; [|lia].
  unfold put_chunk, WriteString. cbn [hd wr_err]. cbv zeta. cbn [fst snd].
  split; [reflexivity|]. cbn [tx RequestResult set_promise].
  rewrite Htx', drop_0. reflexivity.
Qed.

(** X12.  What [WriteToChannel] puts on the wire, when every chunk is
    answered with an empty status line: one request per chunk, each of them
    [p], the device, the channel, one length byte and the chunk.  The length
    byte is the length of the chunk for a chunk of fewer than 256 bytes and 0
    for a full one: for data of 256 bytes or more the first request carries
    the length byte 0 before its 256 bytes. *)
Theorem WriteToChannel_length_byte_on_the_wire (device_number channel : ascii)
    (data_string : string) (status : IECStatus) (c : IECBusConnection) :
  response_thread_ c = Running ->
  let res := WriteToChannel device_number channel data_string
               (map answers (repeat "" (length (chunks data_string)))) status c in
  exists frames,
    tx res.2 = (tx c ++ frames)%list
    /\ length frames = (String.length data_string + 255) / 256
    /\ Forall (fun frame =>
                 exists b ch,
                   frame = String "p" (String device_number (String channel (String b ch)))
                   /\ 1 <= String.length ch <= 256
                   /\ (String.length ch < 256 -> nat_of_ascii b = String.length ch)
                   /\ (String.length ch = 256 -> b = Ascii.zero))
              frames
    /\ (256 <= String.length data_string ->
        exists rest,
          frames = String "p" (String device_number (String channel
                     (String Ascii.zero (Str.substr data_string 0 256)))) :: rest).
Proof.
  intros Hrun res. subst res.
  exists (map (p_frame device_number channel) (chunks data_string)).
  split; [|split; [|split]].
  - unfold WriteToChannel.
    destruct (decide (data_string = "")) as [->|Hne].
    { rewrite bool_decide_eq_true_2 by reflexivity. simpl. rewrite app_nil_r. reflexivity. }
    rewrite bool_decide_eq_false_2 by assumption.
    change 0 with (Nat.min (0 * kMaxSendPacketSize) (String.length data_string)).
    rewrite <- (app_nil_r (map answers _)).
    destruct (WriteToChannel_loop_ok_steps device_number channel data_string status
                (length (chunks data_string)) 0 [] c Hrun ltac:(lia))
      as (c' & Hrun' & Htx' & Hloop).
    rewrite Hloop, WriteToChannel_loop_eq.
    assert (Hend : ~ length (chunks data_string) * kMaxSendPacketSize
                     < String.length data_string).
    { intros H. apply chunk_count_lt in H. rewrite length_chunks in H. lia. }
    destruct (lt_dec _ _) as [Hlt|_]; [simpl in Hlt; lia|].
    simpl. rewrite Htx', drop_0, firstn_all. reflexivity.
  - rewrite length_map. apply length_chunks.
  - apply Forall_map. eapply Forall_impl; [apply chunk_sizes|].
    intros ch Hch. simpl in Hch.
    exists (Str.char_of_size (String.length ch)), ch. split; [reflexivity|].
    split; [exact Hch|]. unfold Str.char_of_size. split.
    + intros Hlt. apply length_byte_small. lia.
    + intros ->. reflexivity.
  - intros Hlen.
    assert (H0 : 0 < length (chunks data_string)).
    { rewrite length_chunks. apply chunk_count_lt. unfold kMaxSendPacketSize. lia. }
    pose proof (lookup_chunks data_string 0 H0) as Hfirst.
    destruct (chunks data_string) as [|ch rest] eqn:Hcs; [simpl in H0; lia|].
    injection Hfirst as ->. eexists. cbn [map]. f_equal.
    unfold p_frame. simpl (0 * _).
    replace (Str.char_of_size _) with Ascii.zero; [reflexivity|].
    unfold Str.substr. rewrite substring_length.
    replace (Nat.min kMaxSendPacketSize (String.length data_string - 0)) with 256
      by (unfold kMaxSendPacketSize; lia).
    reflexivity.
Qed.

(** *** GetPrintableString *)

Lemma string_app_assoc (a b d : string) : (a ++ b) ++ d = a ++ (b ++ d).
Proof.
  induction a as [|ch a IH]; [reflexivity|].
  rewrite !append_cons, IH. reflexivity.
Qed.

Lemma list_ascii_of_app (a b : string) :
  list_ascii_of_string (a ++ b)
  = (list_ascii_of_string a ++ list_ascii_of_string b)%list.
Proof.
  induction a as [|ch a IH]; [reflexivity|].
  rewrite append_cons. simpl. rewrite IH. reflexivity.
Qed.

(** X13.  [GetPrintableString] works byte by byte: the printable form of a
    concatenation is the concatenation of the printable forms.  A string
    whose bytes are all at least 32 as [char]s comes back as it is.  And when
    Boost's rendering of a control byte other than CR and LF holds neither CR
    nor LF, the printable form holds neither: it fits on one line. *)
Theorem GetPrintableString_keeps_text_drops_line_ends (a b : string) :
  GetPrintableString (a ++ b) = GetPrintableString a ++ GetPrintableString b
  /\ (Forall (fun ch => (32 <= char_to_int ch)%Z) (list_ascii_of_string a) ->
      GetPrintableString a = a)
  /\ ((forall ch, ch <> CR -> ch <> LF ->
         ~ In CR (list_ascii_of_string (format_hash_u ch))
         /\ ~ In LF (list_ascii_of_string (format_hash_u ch))) ->
      ~ In CR (list_ascii_of_string (GetPrintableString a))
      /\ ~ In LF (list_ascii_of_string (GetPrintableString a))).
Proof.
  split; [|split].
  - induction a as [|ch a IH]; [reflexivity|].
    rewrite append_cons. cbn [GetPrintableString]. rewrite IH.
    symmetry. apply string_app_assoc.
  - induction a as [|ch a IH]; intros Hall; [reflexivity|].
    simpl in Hall. apply Forall_cons in Hall as [Hch Hall].
    cbn [GetPrintableString].
    destruct (decide (ch = CR)) as [->|_].
    { exfalso. unfold char_to_int in Hch.
      destruct char_is_signed; vm_compute in Hch; apply Hch; reflexivity. }
    destruct (decide (ch = LF)) as [->|_].
    { exfalso. unfold char_to_int in Hch.
      destruct char_is_signed; vm_compute in Hch; apply Hch; reflexivity. }
    destruct (char_to_int ch <? 32)%Z eqn:Hlt; [apply Z.ltb_lt in Hlt; lia|].
    rewrite IH by assumption. reflexivity.
  - intros Hfmt. induction a as [|ch a IH]; [simpl; tauto|].
    cbn [GetPrintableString]. rewrite list_ascii_of_app, !in_app_iff.
    destruct IH as [IHcr IHlf].
    destruct (decide (ch = CR)) as [->|Hcr].
    { split; intros [H|H]; try tauto; simpl in H;
        destruct H as [H|[H|[]]]; discriminate. }
    destruct (decide (ch = LF)) as [->|Hlf].
    { split; intros [H|H]; try tauto; simpl in H;
        destruct H as [H|[H|[]]]; discriminate. }
    destruct (char_to_int ch <? 32)%Z.
    + destruct (Hfmt ch Hcr Hlf). tauto.
    + split; intros [H|H]; try tauto; simpl in H; destruct H as [H|[]]; congruence.
Qed.

(** *** Initialize, whatever the tty does *)

(** The loop of [Initialize] only reads and logs warnings: at most
    [kNumRetries - 1 - i] of them from iteration [i] on. *)
Lemma read_banner_only_warns tries : forall i cs w status c,
  exists c' l,
    (match read_banner tries i cs w status c with
     | inl (_, _, c0) => c0
     | inr (_, _, c0) => c0
     end) = c'
    /\ tx c' = tx c
    /\ response_thread_ c' = response_thread_ c
    /\ response_promise_ c' = response_promise_ c
    /\ last_response c' = last_response c
    /\ debug_channel_map_ c' = debug_channel_map_ c
    /\ logged c' = (logged c ++ l)%list
    /\ length l <= kNumRetries - 1 - i
    /\ Forall (fun e => log_level e = "W"%char /\ log_channel e = "CLIENT") l.
Proof.
  induction tries as [|tries IH]; intros i cs w status c.
  - exists c, []. simpl. rewrite app_nil_r. repeat split; auto; simpl; lia.
  - cbn [read_banner].
    destruct (ReadTerminatedString CR kMaxLength w) as [[line|e] w1].
    + destruct ((String.length kConnectionStringPrefix <=? String.length line)
                && bool_decide (Str.substr line 0 (String.length kConnectionStringPrefix)
                                = kConnectionStringPrefix)).
      * exists c, []. rewrite app_nil_r. repeat split; auto; simpl; lia.
      * destruct (kNumRetries - 1 <=? i) eqn:Hlast.
        -- exists c, []. rewrite app_nil_r. repeat split; auto; simpl; lia.
        -- apply Nat.leb_gt in Hlast.
           destruct (IH (S i) line w1 status
                       (log_callback_ "W" "CLIENT"
                          ("Malformed connection string '" ++ line ++ "'") c))
             as (c' & l & Heq & Htx & Hth & Hp & Hl & Hm & Hlog & Hlen & Hall).
           exists c', (mkLog "W" "CLIENT"
                         ("Malformed connection string '" ++ line ++ "'") :: l).
           simpl in Htx, Hth, Hp, Hl, Hm, Hlog.
           rewrite <- app_assoc in Hlog.
           repeat split; auto; try (cbn [length]; unfold kNumRetries in *; lia).
    + exists c, []. rewrite app_nil_r. repeat split; auto; simpl; lia.
Qed.

(** X14.  [Initialize] is all or nothing, for every tty and every time of day.
    When it returns [true] it has written the configuration line, and only
    that, the reader is started and the status is the caller's.  When it
    returns [false] it has written nothing and the reader is where it was.
    Either way it leaves the promise and the channel map alone and has logged
    at most four warnings, all at level [W] on channel [CLIENT]. *)
Theorem Initialize_all_or_nothing (w : tty) (wr : option IECStatus) (local_time : tm)
    (status : IECStatus) (c : IECBusConnection) :
  let res := Initialize w wr local_time status c in
  let c' := res.2 in
  (res.1.1.1 = true ->
   tx c' = (tx c ++ [config_string local_time])%list
   /\ response_thread_ c' = Running
   /\ res.1.1.2 = status
   /\ wr = None)
  /\ (res.1.1.1 = false ->
      tx c' = tx c /\ response_thread_ c' = response_thread_ c)
  /\ response_promise_ c' = response_promise_ c
  /\ debug_channel_map_ c' = debug_channel_map_ c
  /\ exists l,
       logged c' = (logged c ++ l)%list
       /\ length l <= 4
       /\ Forall (fun e => log_level e = "W"%char /\ log_channel e = "CLIENT") l.
Proof.
  intros res c'. subst c' res. unfold Initialize.
  destruct (read_banner_only_warns kNumRetries 0 "" w status c)
    as (c1 & l & Heq & Htx & Hth & Hp & Hl & Hm & Hlog & Hlen & Hall).
  assert (Hlen4 : length l <= 4) by (unfold kNumRetries in Hlen; lia).
  destruct (read_banner kNumRetries 0 "" w status c) as [[[st w1] c0]|[[cs w1] c0]];
    subst c0; cbn [fst snd].
  - split; [discriminate|]. split; [auto|]. split; [auto|]. split; [auto|].
    exists l. auto.
  - destruct (Scanf.sscanf_i _) as [n|]; cbn [fst snd].
    + destruct (Scanf.to_int n <? kMinProtocolVersion)%Z; cbn [fst snd].
      * split; [discriminate|]. split; [auto|]. split; [auto|]. split; [auto|].
        exists l. auto.
      * unfold WriteString. destruct wr as [e|]; cbn [fst snd].
        -- split; [discriminate|]. split; [auto|]. split; [auto|]. split; [auto|].
           exists l. auto.
        -- split; [intros _; simpl; rewrite Htx; auto|]. split; [discriminate|].
           split; [auto|]. split; [auto|]. exists l. auto.
    + split; [discriminate|]. split; [auto|]. split; [auto|]. split; [auto|].
      exists l. auto.
Qed.

(** X15.  When a read fails before a banner was found, [Initialize] returns
    [false] with the status the read set and neither reads nor retries any
    further. *)
Theorem Initialize_failed_read (garbage : list string) (w w1 w2 : tty)
    (e : IECStatus) (wr : option IECStatus) (local_time : tm) (status : IECStatus)
    (c : IECBusConnection) :
  reads_lines w garbage w1 ->
  length garbage < 5 ->
  Forall (fun l => Str.starts_with "connect_arduino:" l = false) garbage ->
  ReadTerminatedString CR kMaxLength w1 = (IoErr e, w2) ->
  Initialize w wr local_time status c = (false, e, w2, warn_malformed garbage c).
Proof.
  intros Hreads Hlen Hlack Hfail. unfold Initialize.
  replace kNumRetries with (length garbage + S (kNumRetries - S (length garbage)))
    at 1 by (unfold kNumRetries; lia).
  destruct (read_banner_garbage garbage (S (kNumRetries - S (length garbage))) 0 ""
              w w1 status c Hreads Hlack) as [cs' Heq];
    [unfold kNumRetries; lia|].
  rewrite Heq. cbn [read_banner]. rewrite Hfail. reflexivity.
Qed.

(** *** Create *)

(** What an [Initialize] that returns [true] has done. *)
Lemma Initialize_true w wr local_time status c st w' c' :
  Initialize w wr local_time status c = (true, st, w', c') ->
  tx c' = (tx c ++ [config_string local_time])%list
  /\ response_thread_ c' = Running
  /\ st = status.
Proof.
  unfold Initialize.
  destruct (read_banner_only_warns kNumRetries 0 "" w status c)
    as (c1 & l & Heq & Htx & _).
  destruct (read_banner kNumRetries 0 "" w status c) as [[[st0 w1] c0]|[[cs w1] c0]];
    subst c0; [intros H; inversion H|].
  destruct (Scanf.sscanf_i _) as [n|]; [|intros H; inversion H].
  destruct (Scanf.to_int n <? kMinProtocolVersion)%Z; [intros H; inversion H|].
  unfold WriteString. destruct wr as [e|]; [intros H; inversion H|].
  intros [= <- <- <-]. simpl. rewrite Htx. auto.
Qed.

Lemma ConfigureSerial_true env K speed status dev st dev' :
  Serial.ConfigureSerial env K speed status dev = (true, st, dev') ->
  In speed Serial.speeds /\ st = status /\ dev' = Serial.raw_settings K speed dev.
Proof.
  unfold Serial.ConfigureSerial, Serial.speed_constant.
  destruct (Serial.tcgetattr_ok env); cbn [negb]; [|intros H; inversion H].
  destruct (bool_decide (In speed Serial.speeds)) eqn:Hin; [|intros H; inversion H].
  apply bool_decide_eq_true in Hin.
  destruct (Serial.cfsetospeed_ok env); cbn [negb]; [|intros H; inversion H].
  destruct (Serial.cfsetispeed_ok env); cbn [negb]; [|intros H; inversion H].
  destruct (Serial.tcsetattr_ok env); cbn [negb]; [|intros H; inversion H].
  intros [= <- <-]. auto.
Qed.

(** X19.  A [Create] that returns a connection has opened the tty, was asked for
    one of the rates of the switch, has set the line first for 1200 baud and
    then for the rate asked, has thrown away what had been received, and has
    been through [Initialize]: the connection has written the configuration
    line and nothing else, its reader is started, the status is the caller's
    and the descriptor is open. *)
Theorem Create_returns_configured_connection (env : create_env)
    (K : Serial.termios_flags) (device_file : string) (speed : Z) (w : tty)
    (wr : option IECStatus) (local_time : tm) (status : IECStatus)
    (dev : Serial.termios) (conn : IECBusConnection) :
  let r := Create env K device_file speed w wr local_time status dev in
  connection r = Some conn ->
  open_ok env = true
  /\ tcflush_ok env = true
  /\ In speed Serial.speeds
  /\ line_settings r = Serial.raw_settings K speed (Serial.raw_settings K 1200 dev)
  /\ Initialize (tcflush w) wr local_time status new_connection
     = (true, status, create_tty r, conn)
  /\ tx conn = [config_string local_time]
  /\ response_thread_ conn = Running
  /\ create_status r = status
  /\ descriptor_open r = true.
Proof.
  intros r. subst r. unfold Create.
  destruct (open_ok env); cbn [negb connection]; [|intros H; inversion H].
  destruct (Serial.ConfigureSerial (reset_env env) K 1200 status dev)
    as [[[|] st1] dev1] eqn:H1; [|intros H; inversion H].
  apply ConfigureSerial_true in H1 as (_ & -> & ->).
  destruct (Serial.ConfigureSerial (speed_env env) K speed status _)
    as [[[|] st2] dev2] eqn:H2; [|intros H; inversion H].
  apply ConfigureSerial_true in H2 as (Hin & -> & ->).
  destruct (tcflush_ok env); cbn [negb connection]; [|intros H; inversion H].
  unfold Create_fd.
  destruct (Initialize (tcflush w) wr local_time status new_connection)
    as [[[[|] st] w'] c'] eqn:Hi; cbn [connection]; [|intros H; inversion H].
  intros [= <-].
  destruct (Initialize_true _ _ _ _ _ _ _ _ Hi) as (Htx & Hth & ->).
  repeat split; auto.
Qed.

(** X20.  Asked for a rate the switch does not know, on a tty that opens and
    takes its settings, [Create] fails with a [CONNECTION_FAILURE] after the
    line has been set for 1200 baud: the line stays at 1200 baud, the
    descriptor stays open, and nothing is read from the tty or thrown
    away. *)
Theorem Create_unknown_speed (env : create_env) (K : Serial.termios_flags)
    (device_file : string) (speed : Z) (w : tty) (wr : option IECStatus)
    (local_time : tm) (status : IECStatus) (dev : Serial.termios) :
  ~ In speed Serial.speeds ->
  open_ok env = true ->
  Serial.tcgetattr_ok (reset_env env) = true ->
  Serial.cfsetospeed_ok (reset_env env) = true ->
  Serial.cfsetispeed_ok (reset_env env) = true ->
  Serial.tcsetattr_ok (reset_env env) = true ->
  Serial.tcgetattr_ok (speed_env env) = true ->
  Create env K device_file speed w wr local_time status dev
  = mkCreated None
      (mkStatus CONNECTION_FAILURE
         ("Unknown speed setting: #" ++ Serial.format_int speed ++ " baud"))
      w (Serial.raw_settings K 1200 dev) true.
Proof.
  intros Hnot Hopen H1 H2 H3 H4 H5.
  unfold Create, Serial.ConfigureSerial. rewrite Hopen, H1, H2, H3, H4, H5. simpl.
  unfold Serial.speed_constant.
  rewrite (bool_decide_eq_false_2 _ Hnot). reflexivity.
Qed.

End Host.

(** ** Properties of the line driver *)

Import LineDriver.

Lemma get_pin_insert_eq p x (b : gmap N pin) : get_pin p (<[p := x]> b) = x.
Proof. unfold get_pin. rewrite lookup_insert_eq. reflexivity. Qed.

Lemma get_pin_insert_ne p q x (b : gmap N pin) :
  q <> p -> get_pin q (<[p := x]> b) = get_pin q b.
Proof. intros Hne. unfold get_pin. rewrite lookup_insert_ne by congruence. reflexivity. Qed.

Lemma writePIN_pin p state b :
  get_pin p (writePIN p state b)
  = if state then mkPin OUTPUT LOW else mkPin INPUT HIGH.
Proof.
  unfold writePIN, digitalWrite, pinMode.
  rewrite !get_pin_insert_eq. destruct state; reflexivity.
Qed.

Lemma writePIN_other p q state b :
  q <> p -> get_pin q (writePIN p state b) = get_pin q b.
Proof.
  intros Hne. unfold writePIN, digitalWrite, pinMode.
  rewrite !get_pin_insert_ne by assumption. reflexivity.
Qed.

Lemma readPIN_sample wire p b :
  readPIN wire p b = (bool_decide (wire p = HIGH), pinMode p INPUT b).
Proof.
  unfold readPIN, digitalRead, pinMode. rewrite get_pin_insert_eq. simpl.
  destruct (wire p); reflexivity.
Qed.

Lemma readRESET_sample iec wire b :
  readRESET iec wire b
  = (bool_decide (wire (m_resetPin iec) = LOW), pinMode (m_resetPin iec) INPUT b).
Proof.
  unfold readRESET. rewrite readPIN_sample. f_equal.
  destruct (wire (m_resetPin iec)); reflexivity.
Qed.

(** C9.  For every pin, hence for every line: writing the pulled state
    leaves the pin an output that drives low; writing the released state
    leaves it an input (with the latch set, which on the AVR switches the
    pull-up on); no other pin changes.  A read first makes the pin an input
    and then samples it, so that it returns the level of the wire.
    [readRESET] is true exactly when the RESET pin is sensed low. *)
Theorem line_driver_open_collector (iec : IEC) (wire : N -> level) (pinNumber : N)
    (b : gmap N pin) :
  get_pin pinNumber (writePIN pinNumber true b) = mkPin OUTPUT LOW
  /\ get_pin pinNumber (writePIN pinNumber false b) = mkPin INPUT HIGH
  /\ (forall state q, q <> pinNumber ->
      get_pin q (writePIN pinNumber state b) = get_pin q b)
  /\ (forall state,
      writeATN iec state b = writePIN (m_atnPin iec) state b
      /\ writeDATA iec state b = writePIN (m_dataPin iec) state b
      /\ writeCLOCK iec state b = writePIN (m_clockPin iec) state b
      /\ writeRESET iec state b = writePIN (m_resetPin iec) state b)
  /\ (readPIN wire pinNumber b).2 = pinMode pinNumber INPUT b
  /\ mode (get_pin pinNumber (readPIN wire pinNumber b).2) = INPUT
  /\ (readPIN wire pinNumber b).1
     = bool_decide (digitalRead wire pinNumber (pinMode pinNumber INPUT b) = HIGH)
  /\ (readPIN wire pinNumber b).1 = bool_decide (wire pinNumber = HIGH)
  /\ (readATN iec wire b = readPIN wire (m_atnPin iec) b
      /\ readDATA iec wire b = readPIN wire (m_dataPin iec) b
      /\ readCLOCK iec wire b = readPIN wire (m_clockPin iec) b)
  /\ ((readRESET iec wire b).1 = true <-> wire (m_resetPin iec) = LOW)
  /\ mode (get_pin (m_resetPin iec) (readRESET iec wire b).2) = INPUT.
Proof.
  split; [apply (writePIN_pin pinNumber true)|].
  split; [apply (writePIN_pin pinNumber false)|].
  split; [intros state q Hq; apply writePIN_other, Hq|].
  split; [intros state; repeat split|].
  rewrite readPIN_sample, readRESET_sample. cbn [fst snd].
  split; [reflexivity|].
  split; [unfold pinMode; rewrite get_pin_insert_eq; reflexivity|].
  split.
  { unfold digitalRead, pinMode. rewrite get_pin_insert_eq. reflexivity. }
  split; [reflexivity|].
  split; [repeat split|].
  split; [apply bool_decide_eq_true|].
  unfold pinMode. rewrite get_pin_insert_eq. reflexivity.
Qed.

(** [checkRESET], as the specification words it, is the sensing of
    [readRESET]. *)
Lemma checkRESET_senses_pulled iec wire b :
  (checkRESET iec wire b).1 = true <-> wire (m_resetPin iec) = LOW.
Proof.
  unfold checkRESET. rewrite readRESET_sample. apply bool_decide_eq_true.
Qed.

(** ** The model at concrete inputs *)

(** The functions of the host on the sample link of [Wire], with a signed
    [char]. *)
Local Abbreviation ProcessResponses' :=
  (ProcessResponses Wire.UnescapeString true Wire.format_hash_u Wire.format_unknown_type).
Local Abbreviation ProcessResponses_step' :=
  (ProcessResponses_step Wire.UnescapeString true Wire.format_hash_u
     Wire.format_unknown_type).
Local Abbreviation future_get' :=
  (future_get Wire.UnescapeString true Wire.format_hash_u Wire.format_unknown_type).
Local Abbreviation destroy' :=
  (destroy Wire.UnescapeString true Wire.format_hash_u Wire.format_unknown_type).
Local Abbreviation run_requests' :=
  (run_requests Wire.UnescapeString true Wire.format_hash_u Wire.format_unknown_type).
Local Abbreviation OpenChannel' :=
  (OpenChannel Wire.UnescapeString true Wire.format_hash_u Wire.format_unknown_type).
Local Abbreviation ReadFromChannel' :=
  (ReadFromChannel Wire.UnescapeString true Wire.format_hash_u Wire.format_unknown_type).
Local Abbreviation WriteToChannel' :=
  (WriteToChannel Wire.UnescapeString true Wire.format_hash_u Wire.format_unknown_type).
Local Abbreviation Initialize' :=
  (Initialize true Wire.format_hash_u string Wire.ReadTerminatedString).
Local Abbreviation reads_lines' := (reads_lines string Wire.ReadTerminatedString).

(** A line the sample tty returns ends before the terminator, holds none and
    is shorter than [max_length]: with [kMaxLength], at most 512 bytes and
    the terminator. *)
Lemma take_line_bound term max_length : forall rx l r,
  Wire.take_line term max_length rx = Some (l, r) ->
  rx = l ++ String term r
  /\ String.length l < max_length
  /\ (forall i, String.get i l <> Some term).
Proof.
  induction max_length as [|n IH]; intros rx l r Hrx; [destruct rx; discriminate|].
  destruct rx as [|ch rest]; [discriminate|]. simpl in Hrx.
  destruct (decide (ch = term)) as [->|Hne].
  - injection Hrx as <- <-. split; [reflexivity|]. split; [simpl; lia|].
    intros i. destruct i; discriminate.
  - destruct (Wire.take_line term n rest) as [[l' r']|] eqn:Hrest; [|discriminate].
    injection Hrx as <- <-. destruct (IH _ _ _ Hrest) as (-> & Hlen & Hget).
    split; [reflexivity|]. split; [simpl; lia|].
    intros [|i]; simpl; [congruence | apply Hget].
Qed.

(** Scenario 2 of the specification: the bytes of [OpenChannel(9, 15, "I0")]. *)
Example OpenChannel_scenario :
  OpenChannel' "009" "015" "I0" (answers "") IECStatus_default ready_connection
  = (Some (true, IECStatus_default),
     mkConn [String "o" (String "009" (String "015" (String "002" "I0")))]
       (Resolved ("", IECStatus_default)) ∅ "" Running []).
Proof. vm_compute. reflexivity. Qed.

(** Scenarios 3 and 5: a read that is answered with data, and one that is
    answered with an error status alone. *)
Example ReadFromChannel_scenario :
  (ReadFromChannel' "009" "015"
     (mkExchange None [EvFrame "r" (IoOk "DRIVE OK"); EvFrame "s" (IoOk "")])
     "" IECStatus_default ready_connection).1
  = Some (true, "DRIVE OK", IECStatus_default)
  /\ (ReadFromChannel' "009" "015" (answers "41,FILE NOT FOUND,18,00")
        "" IECStatus_default ready_connection).1
     = Some (false, "", mkStatus IEC_CONNECTION_FAILURE "41,FILE NOT FOUND,18,00").
Proof. split; vm_compute; reflexivity. Qed.

(** Scenario 4: 300 bytes go out as a chunk of 256 and one of 44; the length
    byte of the first is 0. *)
Example WriteToChannel_scenario :
  let res := WriteToChannel' "009" "002" (Wire.fill 300 "a")
               [answers ""; answers ""] IECStatus_default ready_connection in
  res.1 = Some (true, IECStatus_default)
  /\ tx res.2
     = [String "p" (String "009" (String "002" (String "000" (Wire.fill 256 "a"))));
        String "p" (String "009" (String "002" (String "044" (Wire.fill 44 "a"))))].
Proof. split; vm_compute; reflexivity. Qed.

(** The protocol version scenarios. *)
Example Initialize_scenario :
  (Initialize' ("connect_arduino:3" ++ String CR "") None (mkTm 126 9 30 12 0 0)
     IECStatus_default new_connection).1.1.1 = true
  /\ status_code
       (Initialize' ("connect_arduino:2" ++ String CR "") None (mkTm 126 9 30 12 0 0)
          IECStatus_default new_connection).1.1.2 = CONNECTION_FAILURE.
Proof. split; vm_compute; reflexivity. Qed.

(** ** Witnesses *)

(** C1 at three requests: data and a success status for the first, behind
    a channel declaration and a log line; for the second an error status and
    the data of an [r] frame that came before the request was written; a
    success status alone for the third. *)
Lemma correlation_witness :
  let ws := [mkWindow [EvFrame "!" (IoOk "ACLIENT")]
               [EvFrame "D" (IoOk "DAhello"); EvFrame "r" (IoOk "DRIVE OK")] "";
             mkWindow [EvFrame "r" (IoOk "STALE")] [] "41,FILE NOT FOUND,18,00";
             mkWindow [] [] ""] in
  last_response ready_connection = ""
  /\ Forall (fun w => no_frame "s" (window w) = true) ws
  /\ response_thread_ (run_requests' ws ready_connection).2 = Running
  /\ Forall2 (correlated Wire.UnescapeString) ws (run_requests' ws ready_connection).1
  /\ (run_requests' ws ready_connection).1
     = [Some ("DRIVE OK", IECStatus_default);
        Some ("STALE", mkStatus IEC_CONNECTION_FAILURE "41,FILE NOT FOUND,18,00");
        Some ("", IECStatus_default)].
Proof.
  intros ws.
  assert (Hl : last_response ready_connection = "") by reflexivity.
  assert (Hws : Forall (fun w => no_frame "s" (window w) = true) ws)
    by (repeat constructor).
  assert (Hrun : response_thread_ (run_requests' ws ready_connection).2 = Running)
    by (vm_compute; reflexivity).
  pose proof (correlation_last_response_wins Wire.UnescapeString true Wire.format_hash_u
                Wire.format_unknown_type ws ready_connection Hl Hws) as (_ & Htotal & _).
  split; [exact Hl|]. split; [exact Hws|]. split; [exact Hrun|].
  split; [exact (proj1 (Htotal Hrun))|].
  vm_compute. reflexivity.
Defined.

(** C2 at the 300 bytes of scenario 4. *)
Lemma WriteToChannel_witness :
  let data := Wire.fill 300 "a" in
  data <> ""
  /\ response_thread_ ready_connection = Running
  /\ Str.concat (chunks data) = data
  /\ length (chunks data) = 2
  /\ (WriteToChannel' "009" "002" data [answers ""; answers ""] IECStatus_default
        ready_connection).1 = Some (true, IECStatus_default)
  /\ (WriteToChannel' "009" "002" data [answers ""; answers "timeout"; answers ""]
        IECStatus_default ready_connection).1
     = Some (false, mkStatus IEC_CONNECTION_FAILURE "timeout")
  /\ (WriteToChannel' "009" "002" data [silent] IECStatus_default ready_connection).1
     = None.
Proof.
  intros data.
  assert (Hne : data <> "") by discriminate.
  assert (Hrun : response_thread_ ready_connection = Running) by reflexivity.
  pose proof (WriteToChannel_chunking Wire.UnescapeString true Wire.format_hash_u
                Wire.format_unknown_type "009" "002" data IECStatus_default
                ready_connection Hne Hrun) as (Hcat & Hlen & _ & Hok & Herr & Hwait).
  assert (Htwo : length (chunks data) = 2) by (vm_compute; reflexivity).
  split; [exact Hne|]. split; [exact Hrun|]. split; [exact Hcat|]. split; [exact Htwo|].
  split; [|split].
  - specialize (Hok []). cbv zeta in Hok. rewrite Htwo in Hok. exact (proj1 Hok).
  - assert (H1 : 1 < length (chunks data)) by (rewrite Htwo; lia).
    assert (Hmsg : "timeout" <> "") by discriminate.
    exact (proj1 (Herr 1 "timeout" [answers ""] H1 Hmsg)).
  - assert (H0 : 0 < length (chunks data)) by (rewrite Htwo; lia).
    exact (proj1 (Hwait 0 [] H0)).
Defined.

(** C3 at a connection that has no channel declared: the frame [DDAhello]
    ends the reader and the [s] frame behind it resolves nothing. *)
Lemma unknown_debug_channel_witness :
  let c' := ProcessResponses'
              [EvFrame "D" (IoOk "DAhello"); EvFrame "s" (IoOk "")] ready_connection in
  response_thread_ ready_connection = Running
  /\ response_promise_ ready_connection = Pending
  /\ debug_channel_map_ ready_connection !! "A"%char = None
  /\ response_thread_ c' = Exited
  /\ response_promise_ c' = Pending
  /\ exists msg, logged c' = (logged ready_connection ++ [mkLog "E" "CLIENT" msg])%list.
Proof.
  intros c'.
  assert (Hrun : response_thread_ ready_connection = Running) by reflexivity.
  assert (Hp : response_promise_ ready_connection = Pending) by reflexivity.
  assert (Hid : debug_channel_map_ ready_connection !! "A"%char = None) by reflexivity.
  split; [exact Hrun|]. split; [exact Hp|]. split; [exact Hid|].
  exact (unknown_debug_channel_ends_reader Wire.UnescapeString true Wire.format_hash_u
           Wire.format_unknown_type ready_connection "D" "A" "hello" "" [] Hrun Hp Hid).
Defined.

(** C4 at one line of noise before the banner, and at five lines of noise. *)
Lemma Initialize_banner_retry_witness :
  let rx := "noise" ++ String CR ("connect_arduino:3" ++ String CR "") in
  let rx5 := "a" ++ String CR ("b" ++ String CR ("c" ++ String CR
               ("d" ++ String CR ("e" ++ String CR "connect_arduino:3")))) in
  reads_lines' rx ["noise"; "connect_arduino:3"] ""
  /\ (Initialize' rx None (mkTm 126 9 30 12 0 0) IECStatus_default new_connection).1.1.1
     = true
  /\ reads_lines' rx5 ["a"; "b"; "c"; "d"; "e"] "connect_arduino:3"
  /\ exists st c',
       Initialize' rx5 None (mkTm 126 9 30 12 0 0) IECStatus_default new_connection
       = (false, st, "connect_arduino:3", c')
       /\ status_code st = CONNECTION_FAILURE.
Proof.
  intros rx rx5.
  assert (Hreads : reads_lines' rx (["noise"] ++ ["connect_arduino:3"]) "")
    by (repeat (econstructor; [vm_compute; reflexivity|]); constructor).
  assert (Hreads5 : reads_lines' rx5 ["a"; "b"; "c"; "d"; "e"] "connect_arduino:3")
    by (repeat (econstructor; [vm_compute; reflexivity|]); constructor).
  pose proof (Initialize_banner_retry true Wire.format_hash_u string
                Wire.ReadTerminatedString) as (_ & _ & Hgood & Hbad).
  split; [exact Hreads|]. split; [|split; [exact Hreads5|]].
  - rewrite (Hgood ["noise"] "connect_arduino:3" 3%Z rx "" (mkTm 126 9 30 12 0 0)
               IECStatus_default new_connection Hreads);
      [reflexivity | simpl; lia | repeat constructor | reflexivity | reflexivity | lia].
  - apply (Hbad ["a"; "b"; "c"; "d"; "e"] rx5 "connect_arduino:3" None
             (mkTm 126 9 30 12 0 0) IECStatus_default new_connection Hreads5);
      [reflexivity | repeat constructor].
Defined.

(** C5 at the banners [connect_arduino:2] and [connect_arduino:3]. *)
Lemma Initialize_protocol_version_witness :
  let rx2 := "connect_arduino:2" ++ String CR "" in
  let rx3 := "connect_arduino:3" ++ String CR "" in
  reads_lines' rx2 ["connect_arduino:2"] ""
  /\ reads_lines' rx3 ["connect_arduino:3"] ""
  /\ (exists st c',
        Initialize' rx2 None (mkTm 126 9 30 12 0 0) IECStatus_default new_connection
        = (false, st, "", c')
        /\ status_code st = CONNECTION_FAILURE)
  /\ (exists c',
        Initialize' rx3 None (mkTm 126 9 30 12 0 0) IECStatus_default new_connection
        = (true, IECStatus_default, "", c')
        /\ response_thread_ c' = Running).
Proof.
  intros rx2 rx3.
  assert (Hreads2 : reads_lines' rx2 ([] ++ ["connect_arduino:2"]) "")
    by (repeat (econstructor; [vm_compute; reflexivity|]); constructor).
  assert (Hreads3 : reads_lines' rx3 ([] ++ ["connect_arduino:3"]) "")
    by (repeat (econstructor; [vm_compute; reflexivity|]); constructor).
  assert (Hlen : @length string [] < 5) by (simpl; lia).
  assert (Hlack : Forall (fun l => Str.starts_with "connect_arduino:" l = false) [])
    by constructor.
  split; [exact Hreads2|]. split; [exact Hreads3|]. split.
  - pose proof (Initialize_protocol_version true Wire.format_hash_u string
                  Wire.ReadTerminatedString [] "connect_arduino:2" rx2 "" None
                  (mkTm 126 9 30 12 0 0) IECStatus_default new_connection
                  Hreads2 Hlen Hlack eq_refl) as (_ & Hlow & _).
    apply (Hlow 2%Z); [reflexivity | lia].
  - pose proof (Initialize_protocol_version true Wire.format_hash_u string
                  Wire.ReadTerminatedString [] "connect_arduino:3" rx3 "" None
                  (mkTm 126 9 30 12 0 0) IECStatus_default new_connection
                  Hreads3 Hlen Hlack eq_refl) as (_ & _ & Hhigh).
    apply (Hhigh 3%Z); [reflexivity | lia | reflexivity].
Defined.

(** C6 at the status line of scenario 5. *)
Lemma status_frame_witness :
  response_thread_ ready_connection = Running
  /\ response_promise_ ready_connection = Pending
  /\ exists st,
       response_promise_
         (ProcessResponses' [EvFrame "s" (IoOk "41,FILE NOT FOUND,18,00")] ready_connection)
       = Resolved ("", st)
       /\ (ok st = true <-> "41,FILE NOT FOUND,18,00" = "")
       /\ (st = mkStatus IEC_CONNECTION_FAILURE "41,FILE NOT FOUND,18,00"
           <-> "41,FILE NOT FOUND,18,00" <> "").
Proof.
  assert (Hrun : response_thread_ ready_connection = Running) by reflexivity.
  assert (Hp : response_promise_ ready_connection = Pending) by reflexivity.
  split; [exact Hrun|]. split; [exact Hp|].
  exact (status_frame_resolves_pending_request Wire.UnescapeString true Wire.format_hash_u
           Wire.format_unknown_type "41,FILE NOT FOUND,18,00" ready_connection Hrun Hp).
Defined.

(** C7 at a command of 300 bytes: the length byte is 44 and the call
    succeeds. *)
Lemma OpenChannel_any_length_witness :
  let cmd := Wire.fill 300 "A" in
  let res := OpenChannel' "009" "015" cmd (answers "") IECStatus_default ready_connection in
  wr_err (answers "") = None
  /\ tx res.2 = [kCmdOpen ++ String "009" (String "015" (String "044" cmd))]
  /\ res.1 = Some (true, IECStatus_default).
Proof.
  intros cmd res.
  assert (Hwr : wr_err (answers "") = None) by reflexivity.
  pose proof (OpenChannel_frame_for_any_length Wire.UnescapeString true Wire.format_hash_u
                Wire.format_unknown_type "009" "015" cmd (answers "") IECStatus_default
                ready_connection) as (Htx & _ & _).
  split; [exact Hwr|]. split; [exact (Htx Hwr)|].
  vm_compute. reflexivity.
Defined.

(** C8 at a read that fails while a request is out. *)
Lemma reader_exit_witness :
  let ev := EvReadFail (mkStatus CONNECTION_FAILURE "read") in
  let later := [EvFrame "s" (IoOk "")] in
  let c' := ProcessResponses' (ev :: later) ready_connection in
  response_thread_ ready_connection = Running
  /\ response_promise_ ready_connection = Pending
  /\ response_thread_ (ProcessResponses_step' ev ready_connection) <> Running
  /\ response_thread_ c' = Exited
  /\ response_promise_ c' = Pending
  /\ (future_get' (ev :: later) ready_connection).1 = None
  /\ (forall buffered, response_promise_ (destroy' buffered c') = Pending)
  /\ response_thread_ (destroy' [] ready_connection) = Exited
  /\ response_promise_ (destroy' [] ready_connection) = Pending.
Proof.
  intros ev later c'.
  assert (Hrun : response_thread_ ready_connection = Running) by reflexivity.
  assert (Hp : response_promise_ ready_connection = Pending) by reflexivity.
  assert (Hleft : response_thread_ (ProcessResponses_step' ev ready_connection) <> Running)
    by discriminate.
  split; [exact Hrun|]. split; [exact Hp|]. split; [exact Hleft|].
  exact (reader_exit_leaves_request_pending Wire.UnescapeString true Wire.format_hash_u
           Wire.format_unknown_type ev later ready_connection Hrun Hp Hleft).
Defined.

(** ** Counterexamples *)

(** C1 as the specification words it fails when an [r] frame arrives while
    no request is out: no [r] frame lies between the write of the request
    and its [s] frame, yet the future holds the payload of the earlier frame
    and not the empty string. *)
Lemma stale_response_resolves_next_request :
  let w := mkWindow [EvFrame "r" (IoOk "STALE")] [] "" in
  let futures := (run_requests' [w] ready_connection).1 in
  last_response ready_connection = ""
  /\ no_frame "r" (window w) = true
  /\ last_payload Wire.UnescapeString (window w) "" = ""
  /\ futures = [Some ("STALE", IECStatus_default)]
  /\ futures <> [Some (last_payload Wire.UnescapeString (window w) "",
                       status_of_line (status_line w))].
Proof.
  intros w futures.
  assert (Hf : futures = [Some ("STALE", IECStatus_default)]) by (vm_compute; reflexivity).
  split; [reflexivity|]. split; [reflexivity|]. split; [reflexivity|].
  split; [exact Hf|]. rewrite Hf. vm_compute. discriminate.
Qed.

(** C7 as the specification words it fails at a command of 256 bytes: the
    call does not fail with [INVALID_ARGUMENT], it succeeds, and the frame
    carries the truncated length byte 0. *)
Lemma OpenChannel_oversized_command_accepted :
  let cmd := Wire.fill 256 "A" in
  let res := OpenChannel' "009" "015" cmd (answers "") IECStatus_default ready_connection in
  255 < String.length cmd
  /\ res.1 = Some (true, IECStatus_default)
  /\ tx res.2 = [String "o" (String "009" (String "015" (String "000" cmd)))]
  /\ ~ (exists st, res.1 = Some (false, st) /\ status_code st = INVALID_ARGUMENT).
Proof.
  intros cmd res.
  assert (Hres : res.1 = Some (true, IECStatus_default)) by (vm_compute; reflexivity).
  split; [vm_compute; lia|]. split; [exact Hres|]. split; [vm_compute; reflexivity|].
  intros (st & Hst & _). rewrite Hres in Hst. discriminate.
Qed.

(** C8 as the specification words it fails when a read fails, and when the
    connection is destroyed, while a request is out: the reader has exited
    and the promise holds no value, so no status of kind
    [CONNECTION_FAILURE] either. *)
Lemma reader_exit_resolves_nothing :
  let c := RequestResult ready_connection in
  let c1 := ProcessResponses' [EvReadFail (mkStatus CONNECTION_FAILURE "read")] c in
  let c2 := destroy' [] c in
  response_promise_ c = Pending
  /\ response_thread_ c1 = Exited
  /\ response_thread_ c2 = Exited
  /\ ~ (exists r, response_promise_ c1 = Resolved r /\ status_code r.2 = CONNECTION_FAILURE)
  /\ ~ (exists r, response_promise_ c2 = Resolved r /\ status_code r.2 = CONNECTION_FAILURE).
Proof.
  intros c c1 c2.
  split; [reflexivity|]. split; [reflexivity|]. split; [reflexivity|].
  split; intros (r & Hr & _); vm_compute in Hr; discriminate.
Qed.

(** ** Further properties: the serial line *)

(** Bit by bit. *)
Ltac bitwise :=
  apply Z.bits_inj'; intros n Hn;
  repeat match goal with
         | H : _ = _ :> Z |- _ =>
             apply (f_equal (fun z => Z.testbit z n)) in H
         end;
  repeat (rewrite ?Z.land_spec, ?Z.lor_spec, ?Z.lnot_spec, ?Z.bits_0 in * by assumption);
  repeat match goal with
         | |- context [Z.testbit ?a n] => destruct (Z.testbit a n)
         | H : context [Z.testbit ?a n] |- _ => destruct (Z.testbit a n)
         end;
  simpl in *; congruence.

(** X16.  [ConfigureSerial] succeeds exactly when the rate is one of those of the
    switch and every call into libc goes well; it then leaves the
    status alone.  Every failure is a [CONNECTION_FAILURE] that leaves the
    settings of the line as they were. *)
Theorem ConfigureSerial_succeeds_or_leaves_line (env : Serial.serial_env)
    (K : Serial.termios_flags) (speed : Z) (status : IECStatus) (dev : Serial.termios) :
  let r := Serial.ConfigureSerial env K speed status dev in
  (r.1.1 = true <->
   Serial.tcgetattr_ok env = true /\ In speed Serial.speeds
   /\ Serial.cfsetospeed_ok env = true /\ Serial.cfsetispeed_ok env = true
   /\ Serial.tcsetattr_ok env = true)
  /\ (r.1.1 = true -> r = (true, status, Serial.raw_settings K speed dev))
  /\ (r.1.1 = false -> r.2 = dev /\ status_code r.1.2 = CONNECTION_FAILURE).
Proof.
  intros r. subst r. unfold Serial.ConfigureSerial, Serial.speed_constant.
  destruct (Serial.tcgetattr_ok env); cbn [negb fst snd];
    [|repeat split; try discriminate; intros; try tauto; intuition discriminate].
  destruct (bool_decide (In speed Serial.speeds)) eqn:Hin.
  - apply bool_decide_eq_true in Hin.
    destruct (Serial.cfsetospeed_ok env), (Serial.cfsetispeed_ok env),
      (Serial.tcsetattr_ok env); cbn [negb fst snd];
      repeat split; try discriminate; try reflexivity; try tauto;
      intuition discriminate.
  - apply bool_decide_eq_false in Hin. cbn [fst snd].
    repeat split; try discriminate; try reflexivity; intuition discriminate.
Qed.

(** X17.  The settings [ConfigureSerial] installs are raw, 8N1 and without flow
    control, whatever the line was set to and whatever values the platform
    gives the flags: parity, the second stop bit and RTS/CTS are off; no
    input translation, no software flow control; no echo, no canonical mode,
    no signals; no output processing; VMIN and VTIME are 1 and both speeds
    are the rate asked.  The character size is CS8, and CLOCAL and CREAD are
    on, when their bits are none of those cleared after them. *)
Theorem ConfigureSerial_sets_raw_mode (env : Serial.serial_env)
    (K : Serial.termios_flags) (speed : Z) (status st : IECStatus)
    (dev dev' : Serial.termios) :
  Serial.ConfigureSerial env K speed status dev = (true, st, dev') ->
  (Z.land (Serial.c_cflag dev') (Serial.PARENB K) = 0
   /\ Z.land (Serial.c_cflag dev') (Serial.CSTOPB K) = 0
   /\ Z.land (Serial.c_cflag dev') (Serial.CRTSCTS K) = 0)%Z
  /\ (Z.land (Serial.c_iflag dev') (Serial.IGNBRK K) = 0
      /\ Z.land (Serial.c_iflag dev') (Serial.BRKINT K) = 0
      /\ Z.land (Serial.c_iflag dev') (Serial.PARMRK K) = 0
      /\ Z.land (Serial.c_iflag dev') (Serial.ISTRIP K) = 0
      /\ Z.land (Serial.c_iflag dev') (Serial.INLCR K) = 0
      /\ Z.land (Serial.c_iflag dev') (Serial.IGNCR K) = 0
      /\ Z.land (Serial.c_iflag dev') (Serial.ICRNL K) = 0
      /\ Z.land (Serial.c_iflag dev') (Serial.IXON K) = 0)%Z
  /\ (Z.land (Serial.c_lflag dev') (Serial.ECHO K) = 0
      /\ Z.land (Serial.c_lflag dev') (Serial.ECHONL K) = 0
      /\ Z.land (Serial.c_lflag dev') (Serial.ICANON K) = 0
      /\ Z.land (Serial.c_lflag dev') (Serial.ISIG K) = 0
      /\ Z.land (Serial.c_lflag dev') (Serial.IEXTEN K) = 0)%Z
  /\ (Z.land (Serial.c_oflag dev') (Serial.OPOST K) = 0)%Z
  /\ Serial.c_cc_VMIN dev' = 1%Z /\ Serial.c_cc_VTIME dev' = 1%Z
  /\ Serial.c_ospeed dev' = speed /\ Serial.c_ispeed dev' = speed
  /\ ((Z.land (Serial.CS8 K)
         (Z.lor (Serial.PARENB K) (Z.lor (Serial.CSTOPB K) (Serial.CRTSCTS K))) = 0)%Z ->
      Z.land (Serial.c_cflag dev') (Serial.CSIZE K)
      = Z.land (Serial.CS8 K) (Serial.CSIZE K)
      /\ Z.land (Serial.c_cflag dev') (Serial.CS8 K) = Serial.CS8 K)
  /\ ((Z.land (Z.lor (Serial.CLOCAL K) (Serial.CREAD K))
         (Z.lor (Serial.CSIZE K)
            (Z.lor (Serial.PARENB K) (Z.lor (Serial.CSTOPB K) (Serial.CRTSCTS K)))) = 0)%Z ->
      Z.land (Serial.c_cflag dev') (Z.lor (Serial.CLOCAL K) (Serial.CREAD K))
      = Z.lor (Serial.CLOCAL K) (Serial.CREAD K)).
Proof.
  intros Hcfg. apply ConfigureSerial_true in Hcfg as (_ & _ & ->).
  unfold Serial.raw_settings, Serial.set_bits, Serial.clear_bits.
  cbn [Serial.c_cflag Serial.c_iflag Serial.c_lflag Serial.c_oflag Serial.c_cc_VMIN
       Serial.c_cc_VTIME Serial.c_ospeed Serial.c_ispeed].
  split; [repeat split; bitwise|].
  split; [repeat split; bitwise|].
  split; [repeat split; bitwise|].
  split; [bitwise|].
  do 4 (split; [reflexivity|]).
  split.
  - intros H. split; bitwise.
  - intros H. bitwise.
Qed.

(** X18.  Setting the line twice is setting it once: the settings that a
    [ConfigureSerial] installed are installed again unchanged by a second one
    for the same rate, and a [ConfigureSerial] for another rate in between
    leaves no trace. *)
Theorem ConfigureSerial_is_idempotent (env1 env2 : Serial.serial_env)
    (K : Serial.termios_flags) (speed1 speed2 : Z) (status1 status2 st1 st2 : IECStatus)
    (dev dev1 dev2 : Serial.termios) :
  Serial.ConfigureSerial env1 K speed1 status1 dev = (true, st1, dev1) ->
  Serial.ConfigureSerial env2 K speed2 status2 dev1 = (true, st2, dev2) ->
  dev2 = Serial.raw_settings K speed2 dev
  /\ (speed1 = speed2 -> dev2 = dev1).
Proof.
  intros H1 H2.
  apply ConfigureSerial_true in H1 as (_ & _ & ->).
  apply ConfigureSerial_true in H2 as (_ & _ & ->).
  assert (Habs : Serial.raw_settings K speed2 (Serial.raw_settings K speed1 dev)
                 = Serial.raw_settings K speed2 dev).
  { unfold Serial.raw_settings, Serial.set_bits, Serial.clear_bits.
    cbn [Serial.c_cflag Serial.c_iflag Serial.c_lflag Serial.c_oflag].
    f_equal; bitwise. }
  split; [exact Habs|]. intros ->. exact Habs.
Qed.

(** ** Further properties: the hex dump *)

Lemma format_02x_reads_back c :
  ascii_of_nat (16 * DiscCopy.hex_value (DiscCopy.hex_digit (nat_of_ascii c / 16))
                + DiscCopy.hex_value (DiscCopy.hex_digit (nat_of_ascii c mod 16)))
  = c.
Proof. destruct c as [[] [] [] [] [] [] [] []]; vm_compute; reflexivity. Qed.

Lemma BytesToHex_cons c s :
  DiscCopy.BytesToHex (String c s)
  = String (DiscCopy.hex_digit (nat_of_ascii c / 16))
      (String (DiscCopy.hex_digit (nat_of_ascii c mod 16)) (DiscCopy.BytesToHex s)).
Proof. reflexivity. Qed.

(** X21.  [BytesToHex] loses nothing: the dump has two digits for every byte, the
    digits read back to the bytes, so different sectors have different
    dumps, and the dump of a concatenation is the concatenation of the
    dumps. *)
Theorem BytesToHex_reads_back (a b : string) :
  String.length (DiscCopy.BytesToHex a) = 2 * String.length a
  /\ DiscCopy.HexToBytes (DiscCopy.BytesToHex a) = a
  /\ (DiscCopy.BytesToHex a = DiscCopy.BytesToHex b -> a = b)
  /\ DiscCopy.BytesToHex (a ++ b) = DiscCopy.BytesToHex a ++ DiscCopy.BytesToHex b.
Proof.
  assert (Hback : forall s, DiscCopy.HexToBytes (DiscCopy.BytesToHex s) = s).
  { induction s as [|c s IH]; [reflexivity|].
    rewrite BytesToHex_cons. cbn [DiscCopy.HexToBytes].
    rewrite format_02x_reads_back, IH. reflexivity. }
  split; [|split; [|split]].
  - induction a as [|c a IH]; [reflexivity|].
    rewrite BytesToHex_cons. cbn [String.length]. rewrite IH. lia.
  - apply Hback.
  - intros Heq. rewrite <- (Hback a), <- (Hback b), Heq. reflexivity.
  - induction a as [|c a IH]; [reflexivity|].
    change (String c a ++ b) with (String c (a ++ b)).
    rewrite !BytesToHex_cons, IH. reflexivity.
Qed.

(** ** Further properties: saving a file on the MCU *)

Lemma forwarded_app l1 l2 :
  Interface.forwarded (l1 ++ l2) = Interface.forwarded l1 ++ Interface.forwarded l2.
Proof.
  induction l1 as [|[c st] l1 IH]; [reflexivity|].
  simpl. rewrite IH. reflexivity.
Qed.

Lemma string_app_assoc' (a b d : string) : (a ++ b) ++ d = a ++ (b ++ d).
Proof.
  induction a as [|ch a IH]; [reflexivity|].
  change (String ch a ++ b) with (String ch (a ++ b)).
  change (String ch (a ++ b) ++ d) with (String ch ((a ++ b) ++ d)).
  rewrite IH. reflexivity.
Qed.

(** X22.  [saveFile] hands the host every byte it receives, each behind a [W], up
    to and including the first one the engine flags with EOI or with an
    error, and takes no byte after that one; the ATN flag does not end it.
    It always takes at least one byte, and as long as no byte is flagged it
    does not return. *)
Theorem saveFile_forwards_up_to_first_flag (before : list (ascii * N)) (c : ascii)
    (state : N) (after : list (ascii * N)) (serial : string) :
  Forall Interface.unflagged before ->
  (N.land state Interface.eoiFlag <> 0%N \/ N.land state Interface.errorFlag <> 0%N) ->
  Interface.saveFile (before ++ (c, state) :: after) serial
  = Some (serial ++ Interface.forwarded (before ++ [(c, state)]), after)
  /\ Interface.saveFile before serial = None
  /\ Interface.unflagged (c, Interface.atnFlag).
Proof.
  intros Hbefore Hflag. split; [|split].
  - revert serial. induction before as [|[b st] before IH]; intros serial.
    + cbn [app Interface.saveFile Interface.forwarded].
      destruct (N.land state Interface.eoiFlag =? 0)%N eqn:He;
        destruct (N.land state Interface.errorFlag =? 0)%N eqn:Hr; cbn [negb andb];
        try reflexivity.
      apply N.eqb_eq in He, Hr. tauto.
    + apply Forall_cons in Hbefore as [[He Hr] Hbefore]. cbn [fst snd] in He, Hr.
      cbn [app Interface.saveFile]. rewrite He, Hr. cbn [N.eqb negb andb].
      rewrite (IH Hbefore). cbn [Interface.forwarded].
      rewrite string_app_assoc'. reflexivity.
  - clear Hflag. revert serial.
    induction before as [|[b st] before IH]; intros serial; [reflexivity|].
    apply Forall_cons in Hbefore as [[He Hr] Hbefore]. cbn [fst snd] in He, Hr.
    cbn [Interface.saveFile]. rewrite He, Hr. cbn [N.eqb negb andb].
    apply (IH Hbefore).
  - split; reflexivity.
Qed.

(** ** Further properties: the line driver *)

Import LineDriver.

(** X23.  On one pin the last write decides, whatever was written before; writes
    to different pins do not disturb each other and may be swapped. *)
Theorem writePIN_last_write_wins (p q : N) (s1 s2 : bool) (b : gmap N pin) :
  writePIN p s2 (writePIN p s1 b) = writePIN p s2 b
  /\ (p <> q -> writePIN p s1 (writePIN q s2 b) = writePIN q s2 (writePIN p s1 b)).
Proof.
  unfold writePIN, digitalWrite, pinMode. split.
  - destruct s1, s2; rewrite !get_pin_insert_eq; cbn [mode latch];
      rewrite !insert_insert_eq; reflexivity.
  - intros Hne.
    destruct s1, s2; rewrite !get_pin_insert_eq; cbn [mode latch];
      rewrite !insert_insert_eq; apply insert_insert_ne; congruence.
Qed.

(** X24.  Reading a line lets go of it: after a read the pin is an input
    even if the driver was pulling the line, so the pin no longer drives and
    what is sensed and returned is the level on the wire, not the level that
    was driven.  Other pins are not touched, a second read changes nothing
    more, and the read leaves no trace in what the next write installs. *)
Theorem readPIN_releases_the_line (wire : N -> level) (p q : N) (state state' : bool)
    (b : gmap N pin) :
  let r := readPIN wire p (writePIN p state b) in
  mode (get_pin p r.2) = INPUT
  /\ digitalRead wire p r.2 = wire p
  /\ r.1 = bool_decide (wire p = HIGH)
  /\ (q <> p -> get_pin q r.2 = get_pin q b)
  /\ (readPIN wire p r.2).2 = r.2
  /\ writePIN p state' r.2 = writePIN p state' b.
Proof.
  intros r. subst r. rewrite !readPIN_sample. cbn [fst snd].
  split; [|split; [|split; [reflexivity|split; [|split]]]].
  - unfold pinMode. rewrite get_pin_insert_eq. reflexivity.
  - unfold digitalRead, pinMode. rewrite get_pin_insert_eq. reflexivity.
  - intros Hq. unfold pinMode. rewrite get_pin_insert_ne by assumption.
    apply writePIN_other, Hq.
  - unfold pinMode. rewrite insert_insert_eq. reflexivity.
  - unfold writePIN, digitalWrite, pinMode.
    destruct state, state'; rewrite !get_pin_insert_eq; cbn [mode latch];
      rewrite !insert_insert_eq; reflexivity.
Qed.

(** ** Witnesses of the further properties *)

Local Abbreviation Reset' :=
  (Reset Wire.UnescapeString true Wire.format_hash_u Wire.format_unknown_type).
Local Abbreviation CloseChannel' :=
  (CloseChannel Wire.UnescapeString true Wire.format_hash_u Wire.format_unknown_type).
Local Abbreviation GetPrintableString' := (GetPrintableString true Wire.format_hash_u).
Local Abbreviation Create' :=
  (Create true Wire.format_hash_u string Wire.ReadTerminatedString (fun rx => rx)).

(** The flag values of Linux, in the order of the record. *)
Local Abbreviation linux_flags :=
  (Serial.mkFlags 2048 128 48 48 256 64 2147483648
     1 2 8 32 64 128 256 1024
     8 64 2 1 32768
     1).

Local Abbreviation all_well := (Serial.mkEnv true true true true (fun context => context)).

Lemma log_frames_transparent_witness :
  let evs := [EvFrame "!" (IoOk "ACLIENT"); EvFrame "D" (IoOk "DAhello");
              EvFrame "r" (IoOk "DRIVE OK"); EvFrame "s" (IoOk "")] in
  same_outcome ready_connection ready_connection
  /\ well_formed_logs (debug_channel_map_ ready_connection) evs = true
  /\ same_outcome (ProcessResponses' evs ready_connection)
       (ProcessResponses' [EvFrame "r" (IoOk "DRIVE OK"); EvFrame "s" (IoOk "")]
          ready_connection).
Proof.
  intros evs.
  assert (Hsame : same_outcome ready_connection ready_connection) by (repeat split).
  assert (Hwf : well_formed_logs (debug_channel_map_ ready_connection) evs = true)
    by (vm_compute; reflexivity).
  split; [exact Hsame|]. split; [exact Hwf|].
  exact (log_frames_transparent Wire.UnescapeString true Wire.format_hash_u
           Wire.format_unknown_type evs ready_connection ready_connection Hsame Hwf).
Defined.

Lemma unknown_discriminator_witness :
  let c' := ProcessResponses' [EvFrame "W" (IoOk "Ahello"); EvFrame "s" (IoOk "")]
              ready_connection in
  response_thread_ ready_connection = Running
  /\ response_thread_ c' = Exited
  /\ response_promise_ c' = response_promise_ ready_connection.
Proof.
  intros c'.
  assert (Hrun : response_thread_ ready_connection = Running) by reflexivity.
  split; [exact Hrun|].
  apply (unknown_discriminator_ends_reader Wire.UnescapeString true Wire.format_hash_u
           Wire.format_unknown_type ready_connection "W" (IoOk "Ahello")
           [EvFrame "s" (IoOk "")] Hrun); discriminate.
Defined.

Lemma declared_channel_witness :
  response_thread_ ready_connection = Running
  /\ logged (ProcessResponses'
               [EvFrame "!" (IoOk "ACLIENT"); EvFrame "!" (IoOk "AHOST");
                EvFrame "D" (IoOk "WAhello")] ready_connection)
     = [mkLog "W" "HOST" "hello"].
Proof.
  assert (Hrun : response_thread_ ready_connection = Running) by reflexivity.
  split; [exact Hrun|].
  apply (declared_channel_names_log_lines Wire.UnescapeString true Wire.format_hash_u
           Wire.format_unknown_type ready_connection "A" "W" "CLIENT" "HOST" "hello" Hrun);
    discriminate.
Defined.

Lemma short_log_lines_witness :
  response_thread_ ready_connection = Running
  /\ String.length "A" < 2
  /\ response_thread_ (ProcessResponses' [EvFrame "!" (IoOk "A")] ready_connection) = Exited.
Proof.
  assert (Hrun : response_thread_ ready_connection = Running) by reflexivity.
  assert (Hlen : String.length "A" < 2) by (simpl; lia).
  split; [exact Hrun|]. split; [exact Hlen|].
  exact (proj1 (proj1 (short_log_lines_end_reader Wire.UnescapeString true
                         Wire.format_hash_u Wire.format_unknown_type ready_connection "A" []
                         Hrun) Hlen)).
Defined.

Lemma second_status_frame_witness :
  let c' := ProcessResponses' [EvFrame "s" (IoOk ""); EvFrame "s" (IoOk "")]
              ready_connection in
  response_thread_ ready_connection = Running
  /\ response_promise_ ready_connection = Pending
  /\ response_thread_ c' = Aborted
  /\ response_promise_ c' = Resolved ("", IECStatus_default).
Proof.
  intros c'.
  assert (Hrun : response_thread_ ready_connection = Running) by reflexivity.
  assert (Hp : response_promise_ ready_connection = Pending) by reflexivity.
  split; [exact Hrun|]. split; [exact Hp|].
  destruct (second_status_frame_aborts Wire.UnescapeString true Wire.format_hash_u
              Wire.format_unknown_type ready_connection "" "" [] Hrun Hp) as (Ht & Hr & _).
  split; [exact Ht | exact Hr].
Defined.

Lemma ReadFromChannel_witness :
  let evs := [EvFrame "r" (IoOk "first"); EvFrame "r" (IoOk "DRIVE OK")] in
  let later := [EvFrame "!" (IoOk "ACLIENT")] in
  no_frame "s" evs = true
  /\ response_thread_ (ProcessResponses' evs ready_connection) = Running
  /\ no_frame "s" later = true
  /\ (ReadFromChannel' "009" "015" (mkExchange None (evs ++ EvFrame "s" (IoOk "") :: later))
        "" IECStatus_default ready_connection).1
     = Some (true, "DRIVE OK", IECStatus_default).
Proof.
  intros evs later.
  assert (Hs : no_frame "s" evs = true) by reflexivity.
  assert (Hrun : response_thread_ (ProcessResponses' evs ready_connection) = Running)
    by reflexivity.
  assert (Hlater : no_frame "s" later = true) by reflexivity.
  split; [exact Hs|]. split; [exact Hrun|]. split; [exact Hlater|].
  exact (proj1 (proj2 (ReadFromChannel_returns_last_data Wire.UnescapeString true
                         Wire.format_hash_u Wire.format_unknown_type "009" "015" evs later
                         "" "" IECStatus_default ready_connection Hs Hrun Hlater))).
Defined.

Lemma commands_witness :
  let later := [EvFrame "!" (IoOk "ACLIENT")] in
  let ex := mkExchange None (EvFrame "s" (IoOk "") :: later) in
  no_frame "s" [] = true
  /\ response_thread_ (ProcessResponses' [] ready_connection) = Running
  /\ no_frame "s" later = true
  /\ (Reset' ex IECStatus_default ready_connection).1 = Some (true, IECStatus_default)
  /\ tx (CloseChannel' "009" "015" ex IECStatus_default ready_connection).2
     = [String "c" (String "009" (String "015" ""))].
Proof.
  intros later ex.
  assert (Hs : no_frame "s" [] = true) by reflexivity.
  assert (Hrun : response_thread_ (ProcessResponses' [] ready_connection) = Running)
    by reflexivity.
  assert (Hlater : no_frame "s" later = true) by reflexivity.
  split; [exact Hs|]. split; [exact Hrun|]. split; [exact Hlater|].
  destruct (commands_follow_status_line Wire.UnescapeString true Wire.format_hash_u
              Wire.format_unknown_type "009" "015" "" [] later "" IECStatus_default
              ready_connection Hs Hrun Hlater)
    as ((Hreset & _) & _ & (_ & Hclose & _)).
  split; [exact Hreset | exact Hclose].
Defined.

Lemma stopped_reader_witness :
  response_thread_ new_connection <> Running
  /\ "DATA" <> ""
  /\ (Reset' (answers "") IECStatus_default new_connection).1 = None
  /\ (WriteToChannel' "009" "002" "DATA" [answers ""] IECStatus_default new_connection).1
     = None.
Proof.
  assert (Hstop : response_thread_ new_connection <> Running) by discriminate.
  assert (Hne : "DATA" <> "") by discriminate.
  split; [exact Hstop|]. split; [exact Hne|].
  destruct (requests_on_stopped_reader_never_return Wire.UnescapeString true
              Wire.format_hash_u Wire.format_unknown_type "009" "002" "" "DATA" ""
              [EvFrame "s" (IoOk "")] [] IECStatus_default new_connection Hstop Hne)
    as (Hreset & _ & _ & _ & Hwrite & _).
  split; [exact Hreset | exact Hwrite].
Defined.

Lemma failed_write_witness :
  let e := mkStatus CONNECTION_FAILURE "write" in
  "DATA" <> ""
  /\ WriteToChannel' "009" "002" "DATA" [mkExchange (Some e) []] IECStatus_default
       ready_connection
     = (Some (false, e), ready_connection).
Proof.
  intros e.
  assert (Hne : "DATA" <> "") by discriminate.
  split; [exact Hne|].
  exact (proj2 (proj2 (proj2 (proj2
           (failed_write_fails_request Wire.UnescapeString true Wire.format_hash_u
              Wire.format_unknown_type "009" "002" "" "DATA" "" [] []
              e IECStatus_default ready_connection Hne))))).
Defined.

Lemma WriteToChannel_failed_write_witness :
  let e := mkStatus CONNECTION_FAILURE "write" in
  let data := Wire.fill 300 "a" in
  response_thread_ ready_connection = Running
  /\ 1 < length (chunks data)
  /\ (WriteToChannel' "009" "002" data [answers ""; mkExchange (Some e) []]
        IECStatus_default ready_connection).1 = Some (false, e).
Proof.
  intros e data.
  assert (Hrun : response_thread_ ready_connection = Running) by reflexivity.
  assert (Hk : 1 < length (chunks data)) by (vm_compute; lia).
  split; [exact Hrun|]. split; [exact Hk|].
  exact (proj1 (WriteToChannel_failed_write Wire.UnescapeString true Wire.format_hash_u
                  Wire.format_unknown_type "009" "002" data 1 [] [] e IECStatus_default
                  ready_connection Hrun Hk)).
Defined.

Lemma WriteToChannel_length_byte_witness :
  let data := Wire.fill 300 "a" in
  let res := WriteToChannel' "009" "002" data [answers ""; answers ""] IECStatus_default
               ready_connection in
  response_thread_ ready_connection = Running
  /\ 256 <= String.length data
  /\ exists rest,
       tx res.2
       = String "p" (String "009" (String "002"
           (String Ascii.zero (Str.substr data 0 256)))) :: rest.
Proof.
  intros data res.
  assert (Hrun : response_thread_ ready_connection = Running) by reflexivity.
  assert (Hlen : 256 <= String.length data) by (vm_compute; lia).
  split; [exact Hrun|]. split; [exact Hlen|].
  destruct (WriteToChannel_length_byte_on_the_wire Wire.UnescapeString true
              Wire.format_hash_u Wire.format_unknown_type "009" "002" data
              IECStatus_default ready_connection Hrun)
    as (frames & Htx & _ & _ & Hfirst).
  destruct (Hfirst Hlen) as [rest Hframes].
  exists rest. rewrite <- Hframes. exact Htx.
Defined.

Lemma Initialize_failed_read_witness :
  let rx := "noise" ++ String CR "connect_ard" in
  reads_lines' rx ["noise"] "connect_ard"
  /\ Initialize' rx None (mkTm 126 9 30 12 0 0) IECStatus_default new_connection
     = (false, Wire.read_failure, "connect_ard",
        warn_malformed ["noise"] new_connection).
Proof.
  intros rx.
  assert (Hreads : reads_lines' rx ["noise"] "connect_ard")
    by (repeat (econstructor; [vm_compute; reflexivity|]); constructor).
  split; [exact Hreads|].
  apply (Initialize_failed_read true Wire.format_hash_u string Wire.ReadTerminatedString
           ["noise"] rx "connect_ard" "connect_ard" Wire.read_failure None
           (mkTm 126 9 30 12 0 0) IECStatus_default new_connection Hreads);
    [simpl; lia | repeat constructor | reflexivity].
Defined.

Lemma ConfigureSerial_raw_mode_witness :
  let dev := Serial.mkTermios 1280 5 3261 35387 0 0 0 0 in
  exists dev',
    Serial.ConfigureSerial all_well linux_flags 57600 IECStatus_default dev
    = (true, IECStatus_default, dev')
    /\ Z.land (Serial.c_cflag dev') 256 = 0%Z
    /\ Z.land (Serial.c_cflag dev') 48 = 48%Z
    /\ Serial.c_ospeed dev' = 57600%Z.
Proof.
  intros dev. eexists.
  assert (Hcfg : Serial.ConfigureSerial all_well linux_flags 57600 IECStatus_default dev
                 = (true, IECStatus_default,
                    Serial.raw_settings linux_flags 57600 dev)) by reflexivity.
  split; [exact Hcfg|].
  destruct (ConfigureSerial_sets_raw_mode all_well linux_flags 57600 IECStatus_default
              IECStatus_default dev _ Hcfg)
    as ((Hpar & _) & _ & _ & _ & _ & _ & Hos & _ & Hcs8 & _).
  split; [exact Hpar|]. split; [|exact Hos].
  exact (proj2 (Hcs8 eq_refl)).
Defined.

Lemma ConfigureSerial_idempotent_witness :
  let dev := Serial.mkTermios 1280 5 3261 35387 0 0 0 0 in
  let dev1 := Serial.raw_settings linux_flags 1200 dev in
  let dev2 := Serial.raw_settings linux_flags 57600 dev1 in
  Serial.ConfigureSerial all_well linux_flags 1200 IECStatus_default dev
  = (true, IECStatus_default, dev1)
  /\ Serial.ConfigureSerial all_well linux_flags 57600 IECStatus_default dev1
     = (true, IECStatus_default, dev2)
  /\ dev2 = Serial.raw_settings linux_flags 57600 dev.
Proof.
  intros dev dev1 dev2.
  assert (H1 : Serial.ConfigureSerial all_well linux_flags 1200 IECStatus_default dev
               = (true, IECStatus_default, dev1)) by reflexivity.
  assert (H2 : Serial.ConfigureSerial all_well linux_flags 57600 IECStatus_default dev1
               = (true, IECStatus_default, dev2)) by reflexivity.
  split; [exact H1|]. split; [exact H2|].
  exact (proj1 (ConfigureSerial_is_idempotent all_well all_well linux_flags 1200 57600
                  IECStatus_default IECStatus_default IECStatus_default IECStatus_default
                  dev dev1 dev2 H1 H2)).
Defined.

Lemma Create_witness :
  let env := mkCreateEnv true all_well all_well true (fun context => context) in
  let dev := Serial.mkTermios 1280 5 3261 35387 0 0 0 0 in
  let r := Create' env linux_flags "/dev/ttyUSB0" 57600
             ("connect_arduino:3" ++ String CR "") None (mkTm 126 9 30 12 0 0)
             IECStatus_default dev in
  exists conn,
    connection string r = Some conn
    /\ In 57600%Z Serial.speeds
    /\ response_thread_ conn = Running
    /\ descriptor_open string r = true.
Proof.
  intros env dev r.
  assert (Hconn : exists conn, connection string r = Some conn)
    by (eexists; vm_compute; reflexivity).
  destruct Hconn as [conn Hconn]. exists conn.
  destruct (Create_returns_configured_connection true Wire.format_hash_u string
              Wire.ReadTerminatedString (fun rx => rx) env linux_flags "/dev/ttyUSB0"
              57600 ("connect_arduino:3" ++ String CR "") None (mkTm 126 9 30 12 0 0)
              IECStatus_default dev conn Hconn)
    as (_ & _ & Hin & _ & _ & _ & Hrun & _ & Hopen).
  split; [exact Hconn|]. split; [exact Hin|]. split; [exact Hrun | exact Hopen].
Defined.

Lemma Create_unknown_speed_witness :
  let env := mkCreateEnv true all_well all_well true (fun context => context) in
  let dev := Serial.mkTermios 1280 5 3261 35387 0 0 0 0 in
  ~ In 31250%Z Serial.speeds
  /\ Create' env linux_flags "/dev/ttyUSB0" 31250 "connect_arduino:3" None
       (mkTm 126 9 30 12 0 0) IECStatus_default dev
     = mkCreated string None
         (mkStatus CONNECTION_FAILURE "Unknown speed setting: #31250 baud")
         "connect_arduino:3" (Serial.raw_settings linux_flags 1200 dev) true.
Proof.
  intros env dev.
  assert (Hnot : ~ In 31250%Z Serial.speeds)
    by (intros H; repeat (destruct H as [H|H]; [discriminate H|]); exact H).
  split; [exact Hnot|].
  exact (Create_unknown_speed true Wire.format_hash_u string Wire.ReadTerminatedString
           (fun rx => rx) env linux_flags "/dev/ttyUSB0" 31250 "connect_arduino:3" None
           (mkTm 126 9 30 12 0 0) IECStatus_default dev Hnot eq_refl eq_refl eq_refl
           eq_refl eq_refl eq_refl).
Defined.

Lemma saveFile_witness :
  let before := [("a"%char, 0%N); ("b"%char, Interface.atnFlag)] in
  Forall Interface.unflagged before
  /\ Interface.saveFile (before ++ [("c"%char, Interface.eoiFlag); ("d"%char, 0%N)]) ""
     = Some ("WaWbWc", [("d"%char, 0%N)]).
Proof.
  intros before.
  assert (Hbefore : Forall Interface.unflagged before)
    by (repeat constructor).
  assert (Hflag : N.land Interface.eoiFlag Interface.eoiFlag <> 0%N
                  \/ N.land Interface.eoiFlag Interface.errorFlag <> 0%N)
    by (left; discriminate).
  split; [exact Hbefore|].
  exact (proj1 (saveFile_forwards_up_to_first_flag before "c" Interface.eoiFlag
                  [("d"%char, 0%N)] "" Hbefore Hflag)).
Defined.
